(** * extract-snippets: a shallow embedding of the two scripts

    - [Cli]  embeds [src/extract-snippets.py], the single-file extractor;
    - [Tags] embeds [src/extract_snippets/get_snippets_from_tags.py], the
      tree scanner.

    Text is modelled with [string]; a character is a code point below 256
    (the [ascii] type read as Latin-1).  Python integers are [Z].  A file
    object opened for reading is the list of its lines, each still carrying
    its line terminator, in file order. *)

From Stdlib Require Import String Ascii List ZArith Lia Bool DecimalString.
Import ListNotations.
Open Scope string_scope.
Open Scope Z_scope.

(** ** Exceptions *)

Inductive exn : Type :=
| StopIteration
| TypeError
| ValueError
| FileNotFoundError
| OSError
| UnicodeDecodeError.

Inductive result (A : Type) : Type :=
| Ok (a : A)
| Raise (e : exn).
Arguments Ok {A} a.
Arguments Raise {A} e.

(** ** The Python [str] methods the scripts call *)

Module PyStr.

Definition nl : string := String (ascii_of_nat 10) "".

Definition code (c : ascii) : nat := nat_of_ascii c.

Definition between (lo hi n : nat) : bool :=
  (Nat.leb lo n && Nat.leb n hi)%bool.

(** [str.isspace] on code points below 256. *)
Definition is_space (c : ascii) : bool :=
  let n := code c in
  (between 9 13 n || between 28 32 n || Nat.eqb n 133 || Nat.eqb n 160)%bool.

(** [s.rstrip()] *)
Fixpoint rstrip (s : string) : string :=
  match s with
  | EmptyString => EmptyString
  | String c r =>
      match rstrip r with
      | EmptyString => if is_space c then EmptyString else String c EmptyString
      | r' => String c r'
      end
  end.

Definition len (s : string) : Z := Z.of_nat (String.length s).

(** [text.find(ss)]: the lowest index at which [ss] occurs, or -1. *)
Fixpoint find_from (i : Z) (text ss : string) : Z :=
  if prefix ss text then i
  else match text with
       | EmptyString => -1
       | String _ t => find_from (i + 1) t ss
       end.

Definition find (text ss : string) : Z := find_from 0 text ss.

Fixpoint drop (n : nat) (s : string) : string :=
  match n, s with
  | O, _ => s
  | S _, EmptyString => EmptyString
  | S k, String _ t => drop k t
  end.

(** [s[d:]] for an integer [d] of either sign. *)
Definition slice_from (d : Z) (s : string) : string :=
  if 0 <=? d then drop (Z.to_nat d) s
  else drop (Z.to_nat (Z.max (len s + d) 0)) s.

(** [s[a:b]] for [0 <= a <= b]. *)
Definition slice (a b : nat) (s : string) : string :=
  substring a (b - a) s.

(** [sep.join(parts)] *)
Fixpoint join (sep : string) (parts : list string) : string :=
  match parts with
  | [] => EmptyString
  | [p] => p
  | p :: ps => p ++ sep ++ join sep ps
  end.

(** [s.replace(old, new)]: occurrences are replaced from the left and do
    not overlap; [skip] counts the characters of a consumed occurrence
    still to pass. *)
Fixpoint replace_scan (old new : string) (skip : nat) (s : string) : string :=
  match s with
  | EmptyString => EmptyString
  | String c t =>
      match skip with
      | S k => replace_scan old new k t
      | O =>
          if prefix old s
          then new ++ replace_scan old new (String.length old - 1) t
          else String c (replace_scan old new O t)
      end
  end.

Fixpoint interleave (new s : string) : string :=
  match s with
  | EmptyString => EmptyString
  | String c t => String c (new ++ interleave new t)
  end.

Definition replace (old new s : string) : string :=
  match old with
  | EmptyString => new ++ interleave new s
  | _ => replace_scan old new O s
  end.

Fixpoint endswith_char (s : string) (c : ascii) : bool :=
  match s with
  | EmptyString => false
  | String d EmptyString => Ascii.eqb d c
  | String _ t => endswith_char t c
  end.

(** [s.split(sep)] for a one-character separator. *)
Fixpoint split_char (sep : ascii) (s : string) : list string :=
  match s with
  | EmptyString => [EmptyString]
  | String c t =>
      if Ascii.eqb c sep then EmptyString :: split_char sep t
      else match split_char sep t with
           | [] => [String c EmptyString]
           | w :: ws => String c w :: ws
           end
  end.

(** ["%d" % n] *)
Definition of_int (n : Z) : string := NilZero.string_of_int (Z.to_int n).

End PyStr.

(** ** [itertools] and the iterator protocol, on finite sequences *)

Module Iter.
Section Seq.
Context {A : Type}.

Fixpoint dropwhile (p : A -> bool) (l : list A) : list A :=
  match l with
  | [] => []
  | x :: xs => if p x then dropwhile p xs else l
  end.

Fixpoint takewhile (p : A -> bool) (l : list A) : list A :=
  match l with
  | [] => []
  | x :: xs => if p x then x :: takewhile p xs else []
  end.

(** [next(it)]: the element and the advanced iterator. *)
Definition next (l : list A) : result (A * list A) :=
  match l with
  | [] => Raise StopIteration
  | x :: xs => Ok (x, xs)
  end.
End Seq.

(** [itertools.groupby(l, key)]: maximal runs of consecutive elements with
    equal keys, in order. *)
Section GroupBy.
Context {A K : Type} (keq : K -> K -> bool) (key : A -> K).

Fixpoint groupby (l : list A) : list (K * list A) :=
  match l with
  | [] => []
  | x :: xs =>
      match groupby xs with
      | (k, run) :: gs =>
          if keq (key x) k then (k, x :: run) :: gs
          else (key x, [x]) :: (k, run) :: gs
      | [] => [(key x, [x])]
      end
  end.
End GroupBy.
End Iter.

(** ** src/extract-snippets.py *)

Module Cli.
Import PyStr.

(** The [argparse] namespace, as far as the extraction and rendering
    functions read it.  An option that was not given is [None]. *)
Record args : Type := {
  latex_env : option string;
  dedent : Z;
  after_string : string;
  before_string : string;
  start_line : Z;
  end_line : Z
}.

(** [if args.latex_env:] holds for a string that is not empty; an option
    that was not given is [None].  A function that falls off its end
    returns [None]. *)
Definition get_header (a : args) : option string :=
  match latex_env a with
  | Some (String c e) => Some ("\begin{" ++ String c e ++ "}")
  | _ => None
  end.

Definition render_footer (a : args) : option string :=
  match latex_env a with
  | Some (String c e) => Some ("\end{" ++ String c e ++ "}")
  | _ => None
  end.

(** [x + "..."] where [x] may be [None]. *)
Definition py_add (x : option string) (y : string) : result string :=
  match x with
  | Some s => Ok (s ++ y)
  | None => Raise TypeError
  end.

(** [outfile.write(s)] *)
Definition write (outfile : list string) (s : string) : list string :=
  (outfile ++ [s])%list.

(** [render]: the output file is the list of strings written to it so
    far; the function returns the file after the call and how the call
    ended. *)
Definition render (a : args) (extracted : list string) (outfile : list string)
  : list string * result unit :=
  match py_add (get_header a) nl with
  | Raise e => (outfile, Raise e)
  | Ok h =>
      let out1 := write outfile h in
      let out2 :=
        fold_left (fun o line => write o (slice_from (dedent a) line ++ nl))
                  extracted out1 in
      match py_add (render_footer a) nl with
      | Raise e => (out2, Raise e)
      | Ok f => (write out2 f, Ok tt)
      end
  end.

Definition find_wrapper (text ss : string) : Z := find text ss.

Definition extract_delimiters_simple (a : args) (infile : list string)
  : result (list string) :=
  let data := map rstrip infile in
  let rest := Iter.dropwhile (fun text => find text (after_string a) <? 0) data in
  match Iter.next rest with
  | Raise e => Raise e
  | Ok (_, rest) =>
      Ok (Iter.takewhile (fun text => find_wrapper text (before_string a) <? 0) rest)
  end.

Record LineInfo : Type := { number : Z; text : string }.

Fixpoint numbered_from (line_no : Z) (infile : list string) : list LineInfo :=
  match infile with
  | [] => []
  | line :: more =>
      {| number := line_no; text := rstrip line |} :: numbered_from (line_no + 1) more
  end.

Definition numbered_reader (infile : list string) : list LineInfo :=
  numbered_from 1 infile.

Definition extract_line_range (a : args) (infile : list string) : list string :=
  let reader := numbered_reader infile in
  let rest := Iter.dropwhile (fun li => number li <? start_line a) reader in
  let extracted := Iter.takewhile (fun li => number li <? end_line a) rest in
  map text extracted.

End Cli.

(** ** The effects of the tree scanner

    The scanner queries and reads the file system, prints, and writes
    files.  A run is a function of the [world] it starts in and yields the
    sequence of its effects and its outcome.  The directory walk and the
    contents of the source files are those of the tree as it is when the run
    starts; opening a file for writing succeeds.

    [w_open] gives the lines of a file that can be opened and read to its
    end; for a file that cannot (it is missing, access is refused, its
    bytes do not decode) it is [None] and [w_fail] is the exception that
    [open] or the iteration over the lines raises.  The scanner reads a
    file to its end before it acts on what it read, so a failure while
    reading is observed as a failure of the opening. *)

Module Eff.

(** [(root, dirs, files)], as [os.walk] yields them. *)
Definition walk_entry : Type := (string * list string * list string)%type.

Record world : Type := {
  w_exists : string -> bool;
  w_walk : string -> list walk_entry;
  w_open : string -> option (list string);
  w_fail : string -> exn
}.

Section Run.
(** [Json] is the type of the values handed to [json.dumps]. *)
Variable Json : Type.

Inductive payload : Type :=
| Text (s : string)
| JsonDump (data : Json).

Inductive event : Type :=
| EExists (path : string)
| EWalk (basedir : string)
| EPrint (line : string)
| EOpenRead (path : string)
| EOpenWrite (path : string)
| EWrite (path : string) (data : payload).

Definition IO (A : Type) : Type :=
  world -> list event * result A.

Definition ret {A} (x : A) : IO A := fun _ => ([], Ok x).

Definition bind {A B} (m : IO A) (f : A -> IO B) : IO B :=
  fun w =>
    match m w with
    | (t, Raise e) => (t, Raise e)
    | (t, Ok x) => let (t', r) := f x w in ((t ++ t')%list, r)
    end.

Definition emit (e : event) : IO unit := fun _ => ([e], Ok tt).

Definition raise {A} (e : exn) : IO A := fun _ => ([], Raise e).

Definition lift {A} (r : result A) : IO A := fun _ => ([], r).

Definition print (line : string) : IO unit := emit (EPrint line).

Definition path_exists (path : string) : IO bool :=
  fun w => ([EExists path], Ok (w_exists w path)).

Definition os_walk (basedir : string) : IO (list walk_entry) :=
  fun w => ([EWalk basedir], Ok (w_walk w basedir)).

Definition open_read (path : string) : IO (list string) :=
  fun w =>
    match w_open w path with
    | Some lines => ([EOpenRead path], Ok lines)
    | None => ([EOpenRead path], Raise (w_fail w path))
    end.

Definition open_write (path : string) : IO unit := emit (EOpenWrite path).

Definition write (path : string) (data : payload) : IO unit :=
  emit (EWrite path data).

(** A [for] loop whose body has effects. *)
Fixpoint for_each {A} (l : list A) (body : A -> IO unit) : IO unit :=
  match l with
  | [] => ret tt
  | x :: xs => bind (body x) (fun _ => for_each xs body)
  end.
End Run.

Arguments Text {Json} s.
Arguments JsonDump {Json} data.
Arguments EExists {Json} path.
Arguments EWalk {Json} basedir.
Arguments EPrint {Json} line.
Arguments EOpenRead {Json} path.
Arguments EOpenWrite {Json} path.
Arguments EWrite {Json} path data.
Arguments ret {Json A} x.
Arguments bind {Json A B} m f.
Arguments raise {Json A} e.
Arguments lift {Json A} r.
Arguments for_each {Json A} l body.

End Eff.

(** ** [os.path], POSIX flavour *)

Module OsPath.
Import PyStr.

Definition join (a b : string) : string :=
  if prefix "/" b then b
  else if (String.eqb a "" || endswith_char a "/")%bool then a ++ b
  else a ++ "/" ++ b.

(** [p.rfind(c)] for one character: the highest index, or -1. *)
Fixpoint rfind_from (i : Z) (c : ascii) (p : string) : Z :=
  match p with
  | EmptyString => -1
  | String d t =>
      let r := rfind_from (i + 1) c t in
      if 0 <=? r then r else if Ascii.eqb d c then i else -1
  end.

Definition rfind (p : string) (c : ascii) : Z := rfind_from 0 c p.

Fixpoint all_dots (s : string) : bool :=
  match s with
  | EmptyString => true
  | String c t => (Ascii.eqb c "." && all_dots t)%bool
  end.

(** [os.path.splitext]: the extension starts at the last dot of the last
    component, unless only dots precede it there. *)
Definition splitext (p : string) : string * string :=
  let sepIndex := rfind p "/" in
  let dotIndex := rfind p "." in
  if sepIndex <? dotIndex then
    let filenameIndex := sepIndex + 1 in
    if all_dots (slice (Z.to_nat filenameIndex) (Z.to_nat dotIndex) p)
    then (p, EmptyString)
    else (slice 0 (Z.to_nat dotIndex) p, drop (Z.to_nat dotIndex) p)
  else (p, EmptyString).
End OsPath.

(** ** src/extract_snippets/get_snippets_from_tags.py *)

Module Tags.
Import PyStr.

(** *** TAG_REGEX

    [{{(?P<book>\w+):(?P<tag>[\w'-]+):(?P<marker>(begin|end))}}].
    Neither character class contains the colon that must follow it, so at
    a given start the greedy repetitions can only stop at the end of the
    maximal run. *)

(** [\w] of a [str] pattern, on code points below 256. *)
Definition is_word (c : ascii) : bool :=
  let n := code c in
  (between 48 57 n || between 65 90 n || Nat.eqb n 95 || between 97 122 n
   || Nat.eqb n 170 || Nat.eqb n 178 || Nat.eqb n 179 || Nat.eqb n 181
   || Nat.eqb n 185 || Nat.eqb n 186 || between 188 190 n
   || between 192 214 n || between 216 246 n || between 248 255 n)%bool.

(** [[\w'-]] *)
Definition is_tag_char (c : ascii) : bool :=
  (is_word c || Ascii.eqb c "'" || Ascii.eqb c "-")%bool.

(** The maximal run of [p]-characters at the front, and what follows. *)
Fixpoint span (p : ascii -> bool) (s : string) : string * string :=
  match s with
  | EmptyString => (EmptyString, EmptyString)
  | String c t =>
      if p c then let (run, rest) := span p t in (String c run, rest)
      else (EmptyString, s)
  end.

(** Match a literal at the front. *)
Definition eat (lit s : string) : option string :=
  if prefix lit s then Some (drop (String.length lit) s) else None.

(** [result.groupdict()] *)
Record groupdict : Type := { g_book : string; g_tag : string; g_marker : string }.

(** A match object: [start()], [end()], [groupdict()]. *)
Record re_match : Type := { m_start : nat; m_end : nat; m_groups : groupdict }.

Definition closed_by (word s : string) : bool :=
  match eat word s with
  | Some s' => match eat "}}" s' with Some _ => true | None => false end
  | None => false
  end.

(** The pattern matched at the very front of [s]: the groups and the
    length of the match. *)
Definition match_here (s : string) : option (groupdict * nat) :=
  match eat "{{" s with
  | None => None
  | Some s1 =>
      let (book, s2) := span is_word s1 in
      match book, eat ":" s2 with
      | String _ _, Some s3 =>
          let (tag, s4) := span is_tag_char s3 in
          match tag, eat ":" s4 with
          | String _ _, Some s5 =>
              let total (m : string) : nat :=
                (2 + String.length book + 1 + String.length tag + 1
                 + String.length m + 2)%nat in
              if closed_by "begin" s5
              then Some ({| g_book := book; g_tag := tag; g_marker := "begin" |},
                         total "begin")
              else if closed_by "end" s5
              then Some ({| g_book := book; g_tag := tag; g_marker := "end" |},
                         total "end")
              else None
          | _, _ => None
          end
      | _, _ => None
      end
  end.

(** [snip_regex.search(text)]: the leftmost match. *)
Fixpoint search_from (i : nat) (s : string) : option re_match :=
  match match_here s with
  | Some (g, n) => Some {| m_start := i; m_end := (i + n)%nat; m_groups := g |}
  | None =>
      match s with
      | EmptyString => None
      | String _ t => search_from (S i) t
      end
  end.

Definition search (text : string) : option re_match := search_from 0 text.

(** *** depathify, write_json *)

Definition depathify (path : string) : string :=
  let s := replace "../" "" path in
  let s := replace "./" "" s in
  let s := replace "_" "-" s in
  let s := replace "/" "-" s in
  s.

Definition json_filename (root basename : string) : string :=
  let unique_basename := depathify (OsPath.join root basename) in
  unique_basename ++ ".json".

(** *** line_reader *)

Record LineInfo : Type := { number : Z; text : string }.

Fixpoint lines_from (line_no : Z) (file : list string) : list LineInfo :=
  match file with
  | [] => []
  | line :: more =>
      {| number := line_no; text := line |} :: lines_from (line_no + 1) more
  end.

Definition line_reader (file : list string) : list LineInfo := lines_from 1 file.

(** *** The match records

    The dictionary [doc] of [process_file], after [doc.update(re_dict)];
    its key ['text'] is the field [mtext]. *)
Record MarkerMatch : Type := {
  path : string;
  root : string;
  name : string;
  language : string;
  line : Z;
  mtext : string;
  match_text : string;
  match_start : Z;
  match_end : Z;
  fq_tag : string;
  book : string;
  tag : string;
  marker : string
}.

(** A [dict] with string keys: the items in insertion order.  Assigning
    to a key that is present replaces its value in place. *)
Definition dict (V : Type) : Type := list (string * V).

Fixpoint dict_set {V} (k : string) (v : V) (d : dict V) : dict V :=
  match d with
  | [] => [(k, v)]
  | (k', v') :: r =>
      if String.eqb k k' then (k, v) :: r else (k', v') :: dict_set k v r
  end.

Fixpoint dict_get {V} (k : string) (d : dict V) : option V :=
  match d with
  | [] => None
  | (k', v) :: r => if String.eqb k k' then Some v else dict_get k r
  end.

Definition groups_t : Type := dict (list MarkerMatch).

Definition IO : Type -> Type := Eff.IO groups_t.
Definition event : Type := Eff.event groups_t.

(** *** process_file *)

(** The record built for a line on which the pattern was found. *)
Definition make_doc (path root name extension : string)
           (line_info : LineInfo) (result : re_match) : MarkerMatch :=
  let re_dict := m_groups result in
  {| path := path;
     root := root;
     name := name;
     language := drop 1 extension;
     line := number line_info + 1;
     mtext := text line_info;
     match_text := slice (m_start result) (m_end result) (text line_info);
     match_start := Z.of_nat (m_start result);
     match_end := Z.of_nat (m_end result);
     fq_tag := slice (m_start result + 2) (m_end result - 2) (text line_info);
     book := g_book re_dict;
     tag := g_tag re_dict;
     marker := g_marker re_dict |}.

(** The first loop: one record per line with a match, in line order. *)
Fixpoint collect (path root name extension : string) (reader : list LineInfo)
  : list MarkerMatch :=
  match reader with
  | [] => []
  | line_info :: more =>
      match search (text line_info) with
      | Some result =>
          make_doc path root name extension line_info result
            :: collect path root name extension more
      | None => collect path root name extension more
      end
  end.

(** [group_values.sort(key=lambda d : d['line'])]: a stable sort. *)
Fixpoint insert_by_line (d : MarkerMatch) (l : list MarkerMatch) : list MarkerMatch :=
  match l with
  | [] => [d]
  | x :: xs => if line d <=? line x then d :: l else x :: insert_by_line d xs
  end.

Definition sort_by_line (l : list MarkerMatch) : list MarkerMatch :=
  fold_right insert_by_line [] l.

(** [set(...)] of strings, as the list of its distinct elements. *)
Fixpoint set_of (l : list string) : list string :=
  match l with
  | [] => []
  | x :: xs =>
      if existsb (String.eqb x) xs then set_of xs else x :: set_of xs
  end.

Definition mismatch_message (group_name : string) : string :=
  "Tag " ++ group_name ++ " has mismatched or missing begin/end marker".

(** The second loop, over the runs [groupby] yields. *)
Fixpoint validate (runs : list (string * list MarkerMatch)) (groups : groups_t)
  : IO groups_t :=
  match runs with
  | [] => Eff.ret groups
  | (group_name, run) :: more =>
      let group_values := sort_by_line run in
      let markers_found := map marker group_values in
      let markers := set_of markers_found in
      if negb (Nat.eqb (List.length markers) 2)
      then Eff.bind (Eff.print _ (mismatch_message group_name))
                    (fun _ => validate more groups)
      else validate more (dict_set group_name group_values groups)
  end.

(** The compiled pattern that the source passes in is always [TAG_REGEX]. *)
Definition process_file (root name extension : string) : IO groups_t :=
  let path := OsPath.join root name in
  Eff.bind (Eff.open_read _ path) (fun file =>
    let reader := line_reader file in
    let results := collect path root name extension reader in
    validate (Iter.groupby String.eqb tag results) []).

(** *** extract_delimiters_simple *)

Definition find_wrapper (text ss : string) : Z := find text ss.

Definition extract_delimiters_simple
           (infile : list string) (after_string before_string : string)
  : result (list string) :=
  let data := map rstrip infile in
  let data2 := Iter.dropwhile (fun text => len text =? 0) data in
  let rest := Iter.dropwhile (fun text => find text after_string <? 0) data2 in
  match Iter.next rest with
  | Raise e => Raise e
  | Ok (_, rest) =>
      Ok (Iter.takewhile (fun text => find_wrapper text before_string <? 0) rest)
  end.

(** *** The minted emitter *)

Definition envs : dict string :=
  [("c", "ccode"); ("cc", "cppcode"); ("cpp", "cppcode"); ("c++", "cppcode");
   ("py", "pycode"); ("h", "ccode"); ("hh", "ccode")].

Definition get_minted_env (extension : string) : string :=
  match dict_get extension envs with
  | Some env => env
  | None => "unknownlanguage"
  end ++ "*".

Record args : Type := {
  dir : string;
  outdir : string;
  extensions : string;
  literalinclude : bool;
  minted : bool;
  json : bool
}.

Definition minted_header (minted_env : string) (firstnumber : Z) : string :=
  "\begin{" ++ minted_env ++ "}{firstnumber=" ++ of_int firstnumber ++ "}" ++ nl.

Definition minted_footer (minted_env : string) : string :=
  "\end{" ++ minted_env ++ "}" ++ nl.

Definition snip_name (a : args) (begin : MarkerMatch) : string :=
  let tag := replace "_" "-" (tag begin) in
  OsPath.join (outdir a) ("snip-" ++ book begin ++ "-" ++ tag ++ ".tex").

(** The body of the loop of [write_minted_snippets] for one item of
    [groups]; [values[:2]] must unpack into exactly two names. *)
Definition write_minted_group (a : args) (group : string * list MarkerMatch)
  : IO unit :=
  let (group_name, values) := group in
  match values with
  | begin :: end_ :: _ =>
      if (negb (String.eqb (marker begin) "begin")
          || negb (String.eqb (marker end_) "end"))%bool
      then Eff.print _ ("Invalid group " ++ group_name)
      else
        let snip_filename := snip_name a begin in
        Eff.bind (Eff.open_read _ (path begin)) (fun infile =>
        Eff.bind (Eff.lift (extract_delimiters_simple
                              infile (match_text begin) (match_text end_)))
                 (fun extracted =>
        Eff.bind (Eff.open_write _ snip_filename) (fun _ =>
        let minted_env := get_minted_env (language begin) in
        Eff.bind (Eff.write _ snip_filename
                    (Eff.Text (minted_header minted_env (line begin)))) (fun _ =>
        Eff.bind (Eff.write _ snip_filename
                    (Eff.Text (join nl extracted ++ nl))) (fun _ =>
        Eff.write _ snip_filename (Eff.Text (minted_footer minted_env)))))))
  | _ => Eff.raise ValueError
  end.

Definition write_minted_snippets (a : args) (groups : groups_t) : IO unit :=
  Eff.for_each groups (write_minted_group a).

(** *** The manifest emitter; the text [json.dumps] produces is not
    modelled, the event carries the value handed to it. *)
Definition write_json (outdir root basename : string) (data : groups_t) : IO unit :=
  let json_filename := json_filename root basename in
  Eff.bind (Eff.print _ ("Writing output to " ++ json_filename)) (fun _ =>
  let path := OsPath.join outdir json_filename in
  Eff.bind (Eff.open_write _ path) (fun _ =>
  Eff.write _ path (Eff.JsonDump data))).

(** *** process_dir *)

Definition when (b : bool) (m : IO unit) : IO unit :=
  if b then m else Eff.ret tt.

Definition process_name (a : args) (exts : list string) (root name : string)
  : IO unit :=
  let (nameonly, extension) := OsPath.splitext name in
  when (existsb (String.eqb extension) exts)
    (Eff.bind (process_file root name extension) (fun snips =>
     Eff.bind (when (json a && Nat.ltb 0 (List.length snips))
                 (write_json (outdir a) root name snips)) (fun _ =>
     when (minted a) (write_minted_snippets a snips)))).

Definition process_dir (a : args) : IO unit :=
  let basedir := dir a in
  let exts := map (fun extension => "." ++ extension)
                  (split_char "," (extensions a)) in
  let outdir := outdir a in
  Eff.bind (Eff.path_exists _ outdir) (fun found =>
  if negb found
  then Eff.print _ ("Outdir " ++ outdir ++ " must exist (exiting)")
  else
    Eff.bind (Eff.os_walk _ basedir) (fun entries =>
    Eff.for_each entries (fun entry =>
      let '(root, dirs, files) := entry in
      Eff.for_each files (process_name a exts root)))).

End Tags.
(** ** The vocabulary of the specification *)

Module Spec.
Import PyStr.

(** [ss] occurs in [text] as a substring. *)
Definition Substring (ss text : string) : Prop :=
  exists pre post, text = pre ++ ss ++ post.

(** A line as the extractors see it: trailing whitespace stripped. *)
Definition Contains (ss line : string) : Prop := Substring ss (rstrip line).

Definition Blank (line : string) : Prop := rstrip line = EmptyString.

(** The lines whose number satisfies [keep], numbering from [n]. *)
Fixpoint select_from (n : Z) (keep : Z -> bool) (lines : list string) : list string :=
  match lines with
  | [] => []
  | l :: more =>
      if keep n then l :: select_from (n + 1) keep more
      else select_from (n + 1) keep more
  end.

(** The lines whose 1-indexed number satisfies [keep], in order. *)
Definition numbered_where (keep : Z -> bool) (lines : list string) : list string :=
  select_from 1 keep lines.

(** Both bounds exclusive, as the specification has it. *)
Definition strictly_inside (start_line end_line n : Z) : bool :=
  (start_line <? n) && (n <? end_line).

(** Start inclusive, end exclusive. *)
Definition from_start_below_end (start_line end_line n : Z) : bool :=
  (start_line <=? n) && (n <? end_line).

Definition NoneContains (ss : string) (lines : list string) : Prop :=
  forall l, In l lines -> ~ Contains ss l.

(** A delimiter extractor: the stream, the after string, the before
    string. *)
Definition extractor : Type :=
  list string -> string -> string -> result (list string).

(** The extractor of the single-file tool; it reads nothing of its
    [args] but the two delimiters. *)
Definition cli_extractor : extractor :=
  fun infile after before =>
    Cli.extract_delimiters_simple
      {| Cli.latex_env := None; Cli.dedent := 0;
         Cli.after_string := after; Cli.before_string := before;
         Cli.start_line := 0; Cli.end_line := 0 |}
      infile.

Definition tags_extractor : extractor := Tags.extract_delimiters_simple.

(** "If the after string is never found, the extracted range is empty
    rather than an error." *)
Definition EmptyWhenAfterMissing (extract : extractor) : Prop :=
  forall lines after before,
    NoneContains after lines -> extract lines after before = Ok [].

(** "If it is found but no further line contains the before string, the
    extracted range is empty." *)
Definition EmptyWhenBeforeMissing (extract : extractor) : Prop :=
  forall pre s post after before,
    NoneContains after pre -> Contains after s -> NoneContains before post ->
    extract (pre ++ s :: post)%list after before = Ok [].

(** "The lines strictly between the first line containing the after
    string and the next line containing the before string." *)
Definition ExtractsBetween (extract : extractor) : Prop :=
  forall pre s mid e post after before,
    NoneContains after pre -> Contains after s ->
    NoneContains before mid -> Contains before e ->
    extract (pre ++ s :: mid ++ e :: post)%list after before
    = Ok (map rstrip mid).

(** *** Manifest file names *)

Fixpoint has_char (c : ascii) (s : string) : bool :=
  match s with
  | EmptyString => false
  | String d t => (Ascii.eqb d c || has_char c t)%bool
  end.

(** Every [a] turned into [b]. *)
Fixpoint subst_char (a b : ascii) (s : string) : string :=
  match s with
  | EmptyString => EmptyString
  | String c t => String (if Ascii.eqb c a then b else c) (subst_char a b t)
  end.

(** "Collision-resistant": distinct source paths get distinct manifest
    names. *)
Definition CollisionFree : Prop :=
  forall root1 name1 root2 name2,
    OsPath.join root1 name1 <> OsPath.join root2 name2 ->
    Tags.json_filename root1 name1 <> Tags.json_filename root2 name2.

(** A path without underscore, without hyphen and without a [./]
    (hence without a [../]) in it. *)
Definition Plain (q : string) : Prop :=
  has_char "_" q = false /\ has_char "-" q = false /\ ~ Substring "./" q.

(** The relative markers a walk root may start with. *)
Definition RelLead (lead : string) : Prop :=
  lead = EmptyString \/ lead = "./" \/ lead = "../".

(** *** Scanning one file *)

(** A world in which one source file can be opened. *)
Definition one_file (path : string) (lines : list string) : Eff.world :=
  {| Eff.w_exists := fun _ => true;
     Eff.w_walk := fun _ => [];
     Eff.w_open := fun p => if String.eqb p path then Some lines else None;
     Eff.w_fail := fun _ => FileNotFoundError |}.

Definition with_newlines (lines : list string) : list string :=
  map (fun l => l ++ nl) lines.

(** What the second loop of [process_file] prints and what it keeps. *)
Definition accepted (run : list Tags.MarkerMatch) : bool :=
  Nat.eqb (List.length (Tags.set_of (map Tags.marker (Tags.sort_by_line run)))) 2.

Fixpoint diagnostics (runs : list (string * list Tags.MarkerMatch))
  : list Tags.event :=
  match runs with
  | [] => []
  | (group_name, run) :: more =>
      if accepted run then diagnostics more
      else Eff.EPrint (Tags.mismatch_message group_name) :: diagnostics more
  end.

Fixpoint validated (runs : list (string * list Tags.MarkerMatch))
         (groups : Tags.groups_t) : Tags.groups_t :=
  match runs with
  | [] => groups
  | (group_name, run) :: more =>
      if accepted run
      then validated more (Tags.dict_set group_name (Tags.sort_by_line run) groups)
      else validated more groups
  end.

(** The matches of a file and the runs of equal tags among them. *)
Definition matches_of (root name extension : string) (lines : list string)
  : list Tags.MarkerMatch :=
  Tags.collect (OsPath.join root name) root name extension (Tags.line_reader lines).

Definition runs_of (root name extension : string) (lines : list string)
  : list (string * list Tags.MarkerMatch) :=
  Iter.groupby String.eqb Tags.tag (matches_of root name extension lines).

(** The text of a marker with the given fields. *)
Definition marker_text (g : Tags.groupdict) : string :=
  "{{" ++ Tags.g_book g ++ ":" ++ Tags.g_tag g ++ ":" ++ Tags.g_marker g ++ "}}".

Definition is_exists (e : Tags.event) : bool :=
  match e with
  | Eff.EExists _ => true
  | _ => false
  end.

(** *** Runs of the tree scanner *)

(** Every effect of the run [m] in the world [w] satisfies [P]. *)
Definition EmitsOnly {A : Type} (P : Tags.event -> Prop) (m : Tags.IO A)
           (w : Eff.world) : Prop :=
  Forall P (fst (m w)).

(** The effects of the scanning loop: no query for a path, no walk, and
    every manifest written holds the groups of a source file. *)
Definition LoopEvent (w : Eff.world) (e : Tags.event) : Prop :=
  match e with
  | Eff.EExists _ => False
  | Eff.EWalk _ => False
  | Eff.EWrite _ (Eff.JsonDump data) =>
      exists root name extension lines,
        Eff.w_open w (OsPath.join root name) = Some lines
        /\ data = validated (runs_of root name extension lines) []
  | _ => True
  end.

(** The line numbered [line d - 1] is the text of [d], which contains
    the marker. *)
Definition LineAfterMarker (lines : list string) (d : Tags.MarkerMatch) : Prop :=
  2 <= Tags.line d
  /\ nth_error lines (Z.to_nat (Tags.line d - 2)) = Some (Tags.mtext d)
  /\ Substring (Tags.match_text d) (Tags.mtext d).

Definition is_file_io (e : Tags.event) : bool :=
  match e with
  | Eff.EWalk _ | Eff.EOpenRead _ | Eff.EOpenWrite _ | Eff.EWrite _ _ => true
  | _ => false
  end.

(** A small tree: one C file with a nested pair of tags, one text file. *)
Definition sample_source : list string :=
  with_newlines
    ["// {{bk:outer:begin}}"; "int x;"; "// {{bk:in_ner:begin}}"; "int y;  ";
     "// {{bk:in_ner:end}}"; "// {{bk:outer:end}}"].

Definition sample_world (outdir_exists : bool) : Eff.world :=
  {| Eff.w_exists := fun _ => outdir_exists;
     Eff.w_walk := fun _ => [("./src", [], ["a.c"; "b.txt"])];
     Eff.w_open := fun p => if String.eqb p "./src/a.c" then Some sample_source
                            else None;
     Eff.w_fail := fun _ => FileNotFoundError |}.

Definition sample_args : Tags.args :=
  {| Tags.dir := "."; Tags.outdir := "out"; Tags.extensions := "c,h";
     Tags.literalinclude := false; Tags.minted := true; Tags.json := true |}.

(** Two records of [sample_source]: the begin marker of [outer] on line 1
    and the begin marker of [in_ner] on line 3. *)
Definition sample_outer_begin : Tags.MarkerMatch :=
  {| Tags.path := "./src/a.c"; Tags.root := "./src"; Tags.name := "a.c";
     Tags.language := "c"; Tags.line := 2;
     Tags.mtext := "// {{bk:outer:begin}}" ++ nl;
     Tags.match_text := "{{bk:outer:begin}}";
     Tags.match_start := 3; Tags.match_end := 21;
     Tags.fq_tag := "bk:outer:begin";
     Tags.book := "bk"; Tags.tag := "outer"; Tags.marker := "begin" |}.

Definition sample_inner_begin : Tags.MarkerMatch :=
  {| Tags.path := "./src/a.c"; Tags.root := "./src"; Tags.name := "a.c";
     Tags.language := "c"; Tags.line := 4;
     Tags.mtext := "// {{bk:in_ner:begin}}" ++ nl;
     Tags.match_text := "{{bk:in_ner:begin}}";
     Tags.match_start := 3; Tags.match_end := 22;
     Tags.fq_tag := "bk:in_ner:begin";
     Tags.book := "bk"; Tags.tag := "in_ner"; Tags.marker := "begin" |}.

Definition sample_inner_end : Tags.MarkerMatch :=
  {| Tags.path := "./src/a.c"; Tags.root := "./src"; Tags.name := "a.c";
     Tags.language := "c"; Tags.line := 6;
     Tags.mtext := "// {{bk:in_ner:end}}" ++ nl;
     Tags.match_text := "{{bk:in_ner:end}}";
     Tags.match_start := 3; Tags.match_end := 20;
     Tags.fq_tag := "bk:in_ner:end";
     Tags.book := "bk"; Tags.tag := "in_ner"; Tags.marker := "end" |}.

(** "The firstnumber annotation is the number of the first extracted
    line": the extracted lines are a run of lines of the file that starts
    at the line numbered [line begin]. *)
Definition StartsAtFirstNumber (lines : list string) (begin : Tags.MarkerMatch)
           (body : list string) : Prop :=
  exists k,
    body = firstn k (map rstrip (skipn (Z.to_nat (Tags.line begin - 1)) lines)).

Definition FirstNumberMatches : Prop :=
  forall w root name extension lines groups g begin end_ more,
    Eff.w_open w (OsPath.join root name) = Some lines ->
    snd (Tags.process_file root name extension w) = Ok groups ->
    In (g, begin :: end_ :: more) groups ->
    Tags.marker begin = "begin" -> Tags.marker end_ = "end" ->
    exists body,
      Tags.extract_delimiters_simple
        lines (Tags.match_text begin) (Tags.match_text end_) = Ok body
      /\ StartsAtFirstNumber lines begin body.

(** A file in which the second marker of the first line is the begin
    marker of the tag [t]. *)
Definition shared_line_source : list string :=
  with_newlines
    ["{{b:u:begin}}{{b:t:begin}}"; "{{b:u:end}}"; "{{b:t:begin}}"; "x";
     "{{b:t:end}}"].

Definition shared_t_begin : Tags.MarkerMatch :=
  {| Tags.path := "./f.c"; Tags.root := "."; Tags.name := "f.c";
     Tags.language := "c"; Tags.line := 4;
     Tags.mtext := "{{b:t:begin}}" ++ nl;
     Tags.match_text := "{{b:t:begin}}";
     Tags.match_start := 0; Tags.match_end := 13;
     Tags.fq_tag := "b:t:begin";
     Tags.book := "b"; Tags.tag := "t"; Tags.marker := "begin" |}.

Definition shared_t_end : Tags.MarkerMatch :=
  {| Tags.path := "./f.c"; Tags.root := "."; Tags.name := "f.c";
     Tags.language := "c"; Tags.line := 6;
     Tags.mtext := "{{b:t:end}}" ++ nl;
     Tags.match_text := "{{b:t:end}}";
     Tags.match_start := 0; Tags.match_end := 11;
     Tags.fq_tag := "b:t:end";
     Tags.book := "b"; Tags.tag := "t"; Tags.marker := "end" |}.

(** What [write_minted_group] does for a group it accepts, given the
    lines it extracts. *)
Definition minted_block (a : Tags.args) (begin : Tags.MarkerMatch)
           (body : list string) : list Tags.event :=
  let snip := Tags.snip_name a begin in
  let env := Tags.get_minted_env (Tags.language begin) in
  [Eff.EOpenRead (Tags.path begin);
   Eff.EOpenWrite snip;
   Eff.EWrite snip (Eff.Text (Tags.minted_header env (Tags.line begin)));
   Eff.EWrite snip (Eff.Text (join nl body ++ nl));
   Eff.EWrite snip (Eff.Text (Tags.minted_footer env))].

End Spec.

(** ** src/extract-snippets.py: the output file name and [main] *)

Module CliMain.
Import PyStr.

(** The whole [argparse] namespace of the single-file tool: the options
    the extraction and rendering functions read ([base]) and the others.
    [command] is the subcommand given, if any. *)
Record namespace : Type := {
  base : Cli.args;
  dir : string;
  path : string;
  snip_prefix : string;
  snip_extension : string;
  stdout : bool;
  name : option string;
  command : option string
}.

(** [if args.name:] *)
Definition name_given (n : namespace) : option string :=
  match name n with
  | Some (String c e) => Some (String c e)
  | _ => None
  end.

(** [get_filename]; its second argument is not used. *)
Definition get_filename (n : namespace) : string :=
  let path_components := (snip_prefix n :: split_char "/" (path n))%list in
  let path_components :=
    match name_given n with
    | Some nm => (path_components ++ [nm])%list
    | None => path_components
    end in
  let base_filename := join "-" path_components in
  let base_filename := replace "_" "-" base_filename in
  let base_filename := replace "." "-" base_filename in
  let base_filename := replace ":" "-" base_filename in
  join "." [base_filename; snip_extension n].

(** An extraction function, as [main] calls it. *)
Definition extract_fn : Type := Cli.args -> list string -> result (list string).

(** [commands.get(args.command, None)] *)
Definition commands_get (cmd : option string) : option extract_fn :=
  match cmd with
  | Some c =>
      if String.eqb c "delimiters" then Some Cli.extract_delimiters_simple
      else if String.eqb c "lines"
           then Some (fun a infile => Ok (Cli.extract_line_range a infile))
           else None
  | None => None
  end.

(** The effects of [main]; a write names the file written to, [None]
    being [sys.stdout]. *)
Inductive event : Type :=
| EPrint (line : string)
| EOpenRead (path : string)
| EOpenWrite (path : string)
| EWrite (file : option string) (data : string).

(** [main], in a world that tells which files can be opened for reading
    and what their lines are. *)
Definition main (n : namespace) (w : string -> option (list string))
  : list event * result unit :=
  match commands_get (command n) with
  | None => ([EPrint "No subcommand specified. No processing done."], Ok tt)
  | Some extract =>
      let full_path := OsPath.join (dir n) (path n) in
      let snip_filename := get_filename n in
      match w full_path with
      | None => ([EOpenRead full_path], Raise FileNotFoundError)
      | Some infile =>
          match extract (base n) infile with
          | Raise e => ([EOpenRead full_path], Raise e)
          | Ok extracted =>
              let (written, outcome) := Cli.render (base n) extracted [] in
              if stdout n
              then (EOpenRead full_path :: map (EWrite None) written, outcome)
              else (EOpenRead full_path :: EOpenWrite snip_filename
                      :: map (EWrite (Some snip_filename)) written,
                    outcome)
          end
      end
  end.

End CliMain.

(** ** More vocabulary *)

Module Vocab.
Import PyStr Spec.

Fixpoint all_chars (p : ascii -> bool) (s : string) : bool :=
  match s with
  | EmptyString => true
  | String c t => (p c && all_chars p t)%bool
  end.

(** The last character of [s] is a whitespace character. *)
Fixpoint ends_with_space (s : string) : bool :=
  match s with
  | EmptyString => false
  | String c EmptyString => is_space c
  | String _ t => ends_with_space t
  end.

(** The fields of a marker the pattern accepts. *)
Definition WellFormed (g : Tags.groupdict) : Prop :=
  Tags.g_book g <> EmptyString
  /\ all_chars Tags.is_word (Tags.g_book g) = true
  /\ Tags.g_tag g <> EmptyString
  /\ all_chars Tags.is_tag_char (Tags.g_tag g) = true
  /\ (Tags.g_marker g = "begin" \/ Tags.g_marker g = "end").

Definition fields_of (d : Tags.MarkerMatch) : Tags.groupdict :=
  {| Tags.g_book := Tags.book d; Tags.g_tag := Tags.tag d;
     Tags.g_marker := Tags.marker d |}.

(** [p] names a file directly in the directory [outdir]. *)
Definition DirectlyIn (outdir p : string) : Prop :=
  exists sep f,
    p = outdir ++ sep ++ f
    /\ (sep = EmptyString \/ sep = "/")
    /\ has_char "/" f = false.

(** The effects of scanning the file [name] of the directory [root]. *)
Definition FileEvent (a : Tags.args) (root name : string) (e : Tags.event) : Prop :=
  match e with
  | Eff.EExists _ => False
  | Eff.EWalk _ => False
  | Eff.EPrint _ => True
  | Eff.EOpenRead p => p = OsPath.join root name
  | Eff.EOpenWrite p => (Tags.json a || Tags.minted a)%bool = true
                        /\ DirectlyIn (Tags.outdir a) p
  | Eff.EWrite p (Eff.JsonDump data) =>
      Tags.json a = true /\ data <> [] /\ DirectlyIn (Tags.outdir a) p
  | Eff.EWrite p (Eff.Text _) =>
      Tags.minted a = true /\ DirectlyIn (Tags.outdir a) p
  end.

(** The accepted extensions, as [process_dir] computes them. *)
Definition accepted_extensions (a : Tags.args) : list string :=
  map (fun extension => "." ++ extension) (split_char "," (Tags.extensions a)).

(** [name] is a file the walk yields in [root] and its extension is
    accepted. *)
Definition Scanned (a : Tags.args) (w : Eff.world) (root name : string) : Prop :=
  (exists dirs files,
      In (root, dirs, files) (Eff.w_walk w (Tags.dir a)) /\ In name files)
  /\ existsb (String.eqb (snd (OsPath.splitext name))) (accepted_extensions a) = true.

(** The effects of the scanning loop of [process_dir]. *)
Definition ScanEvent (a : Tags.args) (w : Eff.world) (e : Tags.event) : Prop :=
  exists root name, Scanned a w root name /\ FileEvent a root name e.

Definition is_write (e : Tags.event) : bool :=
  match e with
  | Eff.EOpenWrite _ | Eff.EWrite _ _ => true
  | _ => false
  end.

(** Records in file order, no two on one line. *)
Fixpoint lines_increase (l : list Tags.MarkerMatch) : Prop :=
  match l with
  | [] => True
  | x :: xs => (forall y, In y xs -> Tags.line x < Tags.line y) /\ lines_increase xs
  end.

(** A file in which the tag [t] delimits two separate regions. *)
Definition reused_tag_source : list string :=
  with_newlines
    ["{{b:t:begin}}"; "one"; "{{b:t:end}}"; "{{b:u:begin}}"; "{{b:u:end}}";
     "{{b:t:begin}}"; "two"; "{{b:t:end}}"].

(** A run of the single-file tool. *)
Definition sample_namespace (cmd : option string) (env : option string)
           (to_stdout : bool) : CliMain.namespace :=
  {| CliMain.base :=
       {| Cli.latex_env := env; Cli.dedent := 2;
          Cli.after_string := "START"; Cli.before_string := "END";
          Cli.start_line := 2; Cli.end_line := 4 |};
     CliMain.dir := "."; CliMain.path := "a/b_c.py";
     CliMain.snip_prefix := "snip"; CliMain.snip_extension := "tex";
     CliMain.stdout := to_stdout; CliMain.name := None;
     CliMain.command := cmd |}.

Definition sample_input (p : string) : option (list string) :=
  if String.eqb p "./a/b_c.py"
  then Some (with_newlines ["# START"; "  x = 1  "; "  y = 2"; "# END"; "z"])
  else None.

(** How the fields of a record of the file [name] in [root] hang
    together. *)
Definition FieldsConsistent (root name extension : string) (d : Tags.MarkerMatch)
  : Prop :=
  WellFormed (fields_of d)
  /\ Tags.fq_tag d = Tags.book d ++ ":" ++ Tags.tag d ++ ":" ++ Tags.marker d
  /\ Tags.match_text d = "{{" ++ Tags.fq_tag d ++ "}}"
  /\ 0 <= Tags.match_start d
  /\ Tags.match_end d = Tags.match_start d + len (Tags.match_text d)
  /\ Tags.match_end d <= len (Tags.mtext d)
  /\ slice (Z.to_nat (Tags.match_start d)) (Z.to_nat (Tags.match_end d))
           (Tags.mtext d) = Tags.match_text d
  /\ Tags.path d = OsPath.join root name
  /\ Tags.root d = root /\ Tags.name d = name
  /\ Tags.language d = drop 1 extension.

(** If the run [m] ends with an exception in the world [w], the
    exception satisfies [P]. *)
Definition RaisesOnly {A : Type} (P : exn -> Prop) (m : Tags.IO A)
           (w : Eff.world) : Prop :=
  match snd (m w) with
  | Raise e => P e
  | Ok _ => True
  end.

(** A scanned file cannot be read, and [e] is what reading it raises. *)
Definition UnreadableSource (a : Tags.args) (w : Eff.world) (e : exn) : Prop :=
  exists root name,
    Scanned a w root name
    /\ Eff.w_open w (OsPath.join root name) = None
    /\ e = Eff.w_fail w (OsPath.join root name).

(** A tree whose only source file does not decode. *)
Definition broken_world : Eff.world :=
  {| Eff.w_exists := fun _ => true;
     Eff.w_walk := fun _ => [("./src", [], ["gone.c"])];
     Eff.w_open := fun _ => None;
     Eff.w_fail := fun _ => UnicodeDecodeError |}.

(** The line holds a marker. *)
Definition marked (l : string) : bool :=
  match Tags.search l with
  | Some _ => true
  | None => false
  end.

(** The record [d], number [k] (from 0) among the records of a file, was
    built from the line at index [i], numbered [i + 1]: that line is the
    text of [d], it holds a marker and contains the marker of [d], exactly
    [k] lines before it hold a marker (so it is the line number [k] among
    the marker lines, and [i] is fixed by [k]), and [line d] is its number
    plus one. *)
Definition RecordAt (lines : list string) (k : nat) (d : Tags.MarkerMatch) : Prop :=
  exists i,
    nth_error lines i = Some (Tags.mtext d)
    /\ marked (Tags.mtext d) = true
    /\ List.length (filter marked (firstn i lines)) = k
    /\ Tags.line d = (Z.of_nat i + 1) + 1
    /\ Substring (Tags.match_text d) (Tags.mtext d).

(** The values of a group are the records number [length pre],
    [length pre + 1], ... of the file. *)
Definition GroupAt (root name extension : string) (lines : list string)
           (values : list Tags.MarkerMatch) : Prop :=
  exists pre post,
    matches_of root name extension lines = (pre ++ values ++ post)%list
    /\ forall j d, nth_error values j = Some d ->
                   RecordAt lines (List.length pre + j) d
                   /\ Tags.path d = OsPath.join root name.

End Vocab.

(** * Properties *)

(** ** Sequences *)

Section IterFacts.
Context {A : Type} (p : A -> bool).

Lemma dropwhile_all (l : list A) :
  (forall x, In x l -> p x = true) -> Iter.dropwhile p l = [].
Proof.
  induction l as [|x xs IH]; intros H; simpl; [reflexivity|].
  rewrite (H x (or_introl eq_refl)). apply IH. intros y Hy. apply H. now right.
Qed.

Lemma dropwhile_stop (pre : list A) (s : A) (post : list A) :
  (forall x, In x pre -> p x = true) -> p s = false ->
  Iter.dropwhile p (pre ++ s :: post) = s :: post.
Proof.
  induction pre as [|x xs IH]; intros H Hs; simpl.
  - now rewrite Hs.
  - rewrite (H x (or_introl eq_refl)). apply IH; [|exact Hs].
    intros y Hy. apply H. now right.
Qed.

Lemma takewhile_all (l : list A) :
  (forall x, In x l -> p x = true) -> Iter.takewhile p l = l.
Proof.
  induction l as [|x xs IH]; intros H; simpl; [reflexivity|].
  rewrite (H x (or_introl eq_refl)). f_equal. apply IH.
  intros y Hy. apply H. now right.
Qed.

Lemma takewhile_stop (mid : list A) (e : A) (post : list A) :
  (forall x, In x mid -> p x = true) -> p e = false ->
  Iter.takewhile p (mid ++ e :: post) = mid.
Proof.
  induction mid as [|x xs IH]; intros H He; simpl.
  - now rewrite He.
  - rewrite (H x (or_introl eq_refl)). f_equal. apply IH; [|exact He].
    intros y Hy. apply H. now right.
Qed.

Lemma takewhile_prefix (l : list A) :
  exists k, Iter.takewhile p l = firstn k l.
Proof.
  induction l as [|x xs [k IH]]; simpl.
  - now exists O.
  - destruct (p x).
    + exists (S k). simpl. now rewrite IH.
    + now exists O.
Qed.
End IterFacts.

(** ** Substring search *)

Section FindFacts.
Import PyStr Spec.

Lemma prefix_app (a b : string) : prefix a (a ++ b) = true.
Proof.
  induction a as [|c a IH]; simpl.
  - now destruct b.
  - destruct (ascii_dec c c) as [_|n]; [exact IH | now elim n].
Qed.

Lemma prefix_split (a s : string) :
  prefix a s = true -> exists post, s = a ++ post.
Proof.
  revert s. induction a as [|c a IH]; intros s H.
  - now exists s.
  - destruct s as [|d s]; simpl in H; [discriminate|].
    destruct (ascii_dec c d) as [->|]; [|discriminate].
    destruct (IH _ H) as [post ->]. now exists post.
Qed.

Lemma substring_cons (ss : string) (c : ascii) (t : string) :
  Substring ss (String c t) -> prefix ss (String c t) = true \/ Substring ss t.
Proof.
  intros [pre [post H]]. destruct pre as [|d pre]; simpl in H.
  - left. rewrite H. apply prefix_app.
  - right. injection H as _ H. now exists pre, post.
Qed.

Lemma find_from_eq (i : Z) (text ss : string) :
  find_from i text ss =
  if prefix ss text then i
  else match text with
       | EmptyString => -1
       | String _ t => find_from (i + 1) t ss
       end.
Proof. destruct text; reflexivity. Qed.

Lemma find_from_spec (text ss : string) (i : Z) :
  0 <= i ->
  (Substring ss text /\ i <= find_from i text ss)
  \/ (~ Substring ss text /\ find_from i text ss = -1).
Proof.
  revert i. induction text as [|c t IH]; intros i Hi; rewrite find_from_eq.
  - destruct (prefix ss EmptyString) eqn:Hp.
    + left. split; [|lia].
      destruct (prefix_split _ _ Hp) as [post ->]. now exists EmptyString, post.
    + right. split; [|reflexivity].
      intros [pre [post H]]. destruct pre; [|discriminate].
      destruct ss; [|discriminate]. discriminate.
  - destruct (prefix ss (String c t)) eqn:Hp.
    + left. split; [|lia].
      destruct (prefix_split _ _ Hp) as [post ->]. now exists EmptyString, post.
    + destruct (IH (i + 1) ltac:(lia)) as [[Hs Hge]|[Hn He]].
      * left. split; [|lia].
        destruct Hs as [pre [post ->]]. now exists (String c pre), post.
      * right. split; [|exact He].
        intros Hs. destruct (substring_cons _ _ _ Hs) as [H|H]; [congruence|tauto].
Qed.

(** The test both extractors apply, [text.find(ss) < 0], says that [ss]
    does not occur in [text]. *)
Lemma find_neg_iff (text ss : string) :
  (find text ss <? 0) = true <-> ~ Substring ss text.
Proof.
  unfold find. destruct (find_from_spec text ss 0 ltac:(lia)) as [[Hs Hge]|[Hn He]].
  - split; [intros H; apply Z.ltb_lt in H; lia | tauto].
  - rewrite He. split; [auto | reflexivity].
Qed.

Lemma find_nonneg_iff (text ss : string) :
  (find text ss <? 0) = false <-> Substring ss text.
Proof.
  destruct (find text ss <? 0) eqn:E.
  - apply find_neg_iff in E. split; [discriminate | tauto].
  - split; [|reflexivity]. intros _.
    unfold find in E.
    destruct (find_from_spec text ss 0 ltac:(lia)) as [[Hs _]|[_ He]]; [exact Hs|].
    rewrite He in E. discriminate.
Qed.
End FindFacts.

(** ** The single-file extractor: line ranges *)

Section LineRange.
Import PyStr Spec Cli.

Lemma select_from_none (keep : Z -> bool) (lines : list string) (n : Z) :
  (forall m, n <= m -> keep m = false) -> select_from n keep lines = [].
Proof.
  revert n. induction lines as [|l more IH]; intros n H; simpl; [reflexivity|].
  rewrite (H n (Z.le_refl n)). apply IH. intros m Hm. apply H. lia.
Qed.

Lemma take_below_end (a : args) (lines : list string) (n : Z) :
  start_line a <= n ->
  map text (Iter.takewhile (fun li => number li <? end_line a) (numbered_from n lines))
  = map rstrip (select_from n (from_start_below_end (start_line a) (end_line a)) lines).
Proof.
  revert n. induction lines as [|l more IH]; intros n Hn; simpl; [reflexivity|].
  unfold from_start_below_end at 1.
  assert (Hs : (start_line a <=? n) = true) by (apply Z.leb_le; lia).
  rewrite Hs. simpl. destruct (n <? end_line a) eqn:He; simpl.
  - f_equal. apply IH. lia.
  - rewrite select_from_none; [reflexivity|].
    intros m Hm. unfold from_start_below_end.
    apply Z.ltb_ge in He.
    assert (Hm' : (m <? end_line a) = false) by (apply Z.ltb_ge; lia).
    rewrite Hm'. apply andb_false_r.
Qed.

Lemma drop_then_take (a : args) (lines : list string) (n : Z) :
  map text
      (Iter.takewhile (fun li => number li <? end_line a)
         (Iter.dropwhile (fun li => number li <? start_line a) (numbered_from n lines)))
  = map rstrip (select_from n (from_start_below_end (start_line a) (end_line a)) lines).
Proof.
  revert n. induction lines as [|l more IH]; intros n; [reflexivity|].
  destruct (n <? start_line a) eqn:Hd.
  - simpl. rewrite Hd. rewrite IH.
    unfold from_start_below_end at 2.
    assert (Hs : (start_line a <=? n) = false)
      by (apply Z.leb_gt; apply Z.ltb_lt in Hd; lia).
    now rewrite Hs.
  - change (Iter.dropwhile (fun li => number li <? start_line a)
              (numbered_from n (l :: more)))
      with (if n <? start_line a
            then Iter.dropwhile (fun li => number li <? start_line a)
                   (numbered_from (n + 1) more)
            else numbered_from n (l :: more)).
    rewrite Hd. apply take_below_end. apply Z.ltb_ge in Hd. lia.
Qed.

(** What [extract_line_range] returns, for every stream and every pair
    of bounds: the lines numbered [n] with [start_line <= n < end_line]. *)
Lemma extract_line_range_spec (a : args) (infile : list string) :
  extract_line_range a infile
  = map rstrip
      (numbered_where (from_start_below_end (start_line a) (end_line a)) infile).
Proof. unfold extract_line_range, numbered_reader, numbered_where. apply drop_then_take. Qed.

(** C2.  With [start_line = 2] and [end_line = 5] a file of six lines or
    more yields three lines, those numbered 2, 3 and 4, and not the two
    lines numbered 3 and 4 that bounds exclusive at both ends select. *)
Theorem extract_line_range_2_5_includes_line_2
        (env : option string) (d : Z) (after before : string)
        (l1 l2 l3 l4 l5 l6 : string) (more : list string) :
  let a := {| latex_env := env; dedent := d; after_string := after;
              before_string := before; start_line := 2; end_line := 5 |} in
  let infile := l1 :: l2 :: l3 :: l4 :: l5 :: l6 :: more in
  extract_line_range a infile = [rstrip l2; rstrip l3; rstrip l4]
  /\ map rstrip (numbered_where (strictly_inside 2 5) infile) = [rstrip l3; rstrip l4]
  /\ extract_line_range a infile
     <> map rstrip (numbered_where (strictly_inside 2 5) infile).
Proof.
  intros a infile.
  assert (H1 : extract_line_range a infile = [rstrip l2; rstrip l3; rstrip l4])
    by reflexivity.
  assert (H2 : map rstrip (numbered_where (strictly_inside 2 5) infile)
               = [rstrip l3; rstrip l4]).
  { unfold infile, numbered_where. simpl.
    rewrite select_from_none; [reflexivity|].
    intros m Hm. unfold strictly_inside.
    assert (Hm' : (m <? 5) = false) by (apply Z.ltb_ge; lia).
    rewrite Hm'. apply andb_false_r. }
  split; [exact H1|]. split; [exact H2|].
  rewrite H1, H2. intros H. apply (f_equal (@List.length string)) in H. discriminate.
Qed.
End LineRange.

(** ** The single-file extractor: rendering *)

Section Render.
Import PyStr Cli.

Lemma render_without_env (a : args) (extracted outfile : list string) :
  latex_env a = None \/ latex_env a = Some EmptyString ->
  render a extracted outfile = (outfile, Raise TypeError).
Proof. intros [H|H]; unfold render, get_header; now rewrite H. Qed.

Lemma render_with_env (a : args) (extracted outfile : list string)
      (c : ascii) (e : string) :
  latex_env a = Some (String c e) ->
  render a extracted outfile
  = (write
       (fold_left (fun o line => write o (slice_from (dedent a) line ++ nl))
          extracted (write outfile (("\begin{" ++ String c e ++ "}") ++ nl)))
       (("\end{" ++ String c e ++ "}") ++ nl),
     Ok tt).
Proof.
  intros H. unfold render, get_header, render_footer. rewrite H. reflexivity.
Qed.

(** C6.  With no [--latex-env] given, [render] stops at its first
    statement with [TypeError]: the header is [None], which cannot be
    added to a string.  Nothing is written, whatever the extracted lines
    and the dedent setting. *)
Theorem render_no_env_raises
        (d : Z) (after before : string) (s e : Z)
        (extracted outfile : list string) :
  render {| latex_env := None; dedent := d; after_string := after;
            before_string := before; start_line := s; end_line := e |}
         extracted outfile
  = (outfile, Raise TypeError).
Proof. reflexivity. Qed.
End Render.

(** ** The delimiter extractors *)

Section Delimiters.
Import PyStr Spec.

Lemma cli_extractor_eq (a : Cli.args) (infile : list string) :
  Cli.extract_delimiters_simple a infile
  = cli_extractor infile (Cli.after_string a) (Cli.before_string a).
Proof. reflexivity. Qed.

Lemma len_zero (s : string) : (len s =? 0) = true <-> s = EmptyString.
Proof.
  unfold len. destruct s; simpl; split; intros H;
    try reflexivity; try discriminate.
Qed.

Lemma substring_empty (text : string) : Substring EmptyString text.
Proof. now exists EmptyString, text. Qed.

Lemma substring_of_empty (ss : string) :
  Substring ss EmptyString -> ss = EmptyString.
Proof.
  intros [pre [post H]]. destruct pre; [|discriminate]. now destruct ss.
Qed.

Lemma not_after (after : string) (lines : list string) :
  NoneContains after lines ->
  forall x, In x (map rstrip lines) -> (find x after <? 0) = true.
Proof.
  intros H x Hx. apply in_map_iff in Hx. destruct Hx as [l [<- Hl]].
  apply find_neg_iff. exact (H l Hl).
Qed.

Lemma has_after (after s : string) :
  Contains after s -> (find (rstrip s) after <? 0) = false.
Proof. intros H. now apply find_nonneg_iff. Qed.

(** Where the search of the single-file extractor stops. *)
Lemma cli_skip (after : string) (pre : list string) (s : string) (post : list string) :
  NoneContains after pre -> Contains after s ->
  Iter.dropwhile (fun text => find text after <? 0) (map rstrip (pre ++ s :: post))
  = rstrip s :: map rstrip post.
Proof.
  intros Hpre Hs. rewrite map_app. simpl.
  apply dropwhile_stop; [now apply not_after | now apply has_after].
Qed.

(** Where the search of the tree scanner's extractor stops: at the first
    line that is not blank and contains the after string. *)
Lemma tags_skip (after : string) (pre : list string) (s : string) (post : list string) :
  (forall l, In l pre -> Blank l \/ ~ Contains after l) ->
  ~ Blank s -> Contains after s ->
  Iter.dropwhile (fun text => find text after <? 0)
    (Iter.dropwhile (fun text => len text =? 0) (map rstrip (pre ++ s :: post)))
  = rstrip s :: map rstrip post.
Proof.
  intros Hpre Hnb Hs. induction pre as [|x pre IH].
  - simpl. destruct (len (rstrip s) =? 0) eqn:E.
    + apply len_zero in E. contradiction.
    + simpl. now rewrite has_after.
  - simpl. destruct (len (rstrip x) =? 0) eqn:E.
    + apply IH. intros l Hl. apply Hpre. now right.
    + assert (Hx : ~ Contains after x).
      { destruct (Hpre x (or_introl eq_refl)) as [Hb|Hn]; [|exact Hn].
        apply len_zero in Hb. congruence. }
      assert (Hne : after <> EmptyString).
      { intros ->. apply Hx. apply substring_empty. }
      change (rstrip x :: map rstrip (pre ++ s :: post))
        with (map rstrip ((x :: pre) ++ s :: post)).
      apply cli_skip; [|exact Hs].
      intros l Hl. destruct (Hpre l Hl) as [Hb|Hn]; [|exact Hn].
      intros Hc. unfold Contains in Hc. rewrite Hb in Hc.
      apply Hne. now apply substring_of_empty.
Qed.

Lemma tags_skip_all (after : string) (lines : list string) :
  NoneContains after lines ->
  Iter.dropwhile (fun text => find text after <? 0)
    (Iter.dropwhile (fun text => len text =? 0) (map rstrip lines)) = [].
Proof.
  intros H. induction lines as [|x more IH]; [reflexivity|].
  simpl. destruct (len (rstrip x) =? 0).
  - apply IH. intros l Hl. apply H. now right.
  - change (rstrip x :: map rstrip more) with (map rstrip (x :: more)).
    apply dropwhile_all. now apply not_after.
Qed.

Lemma cli_found (after before : string) (pre : list string) (s : string)
      (post : list string) :
  NoneContains after pre -> Contains after s ->
  cli_extractor (pre ++ s :: post)%list after before
  = Ok (Iter.takewhile (fun text => find text before <? 0) (map rstrip post)).
Proof.
  intros Hpre Hs. unfold cli_extractor, Cli.extract_delimiters_simple. simpl.
  now rewrite cli_skip.
Qed.

Lemma tags_found (after before : string) (pre : list string) (s : string)
      (post : list string) :
  (forall l, In l pre -> Blank l \/ ~ Contains after l) ->
  ~ Blank s -> Contains after s ->
  tags_extractor (pre ++ s :: post)%list after before
  = Ok (Iter.takewhile (fun text => find text before <? 0) (map rstrip post)).
Proof.
  intros Hpre Hnb Hs. unfold tags_extractor, Tags.extract_delimiters_simple.
  now rewrite tags_skip.
Qed.

Lemma cli_missing (after before : string) (lines : list string) :
  NoneContains after lines ->
  cli_extractor lines after before = Raise StopIteration.
Proof.
  intros H. unfold cli_extractor, Cli.extract_delimiters_simple. simpl.
  rewrite dropwhile_all; [reflexivity | now apply not_after].
Qed.

Lemma tags_missing (after before : string) (lines : list string) :
  NoneContains after lines ->
  tags_extractor lines after before = Raise StopIteration.
Proof.
  intros H. unfold tags_extractor, Tags.extract_delimiters_simple.
  now rewrite tags_skip_all.
Qed.

Lemma take_to_before (before : string) (mid : list string) (e : string)
      (post : list string) :
  NoneContains before mid -> Contains before e ->
  Iter.takewhile (fun text => find text before <? 0)
    (map rstrip (mid ++ e :: post))
  = map rstrip mid.
Proof.
  intros Hmid He. rewrite map_app. simpl.
  apply takewhile_stop; [now apply not_after | now apply has_after].
Qed.

Lemma take_to_end (before : string) (post : list string) :
  NoneContains before post ->
  Iter.takewhile (fun text => find text before <? 0) (map rstrip post)
  = map rstrip post.
Proof. intros H. apply takewhile_all. now apply not_after. Qed.

Lemma none_contains_nil (ss : string) : NoneContains ss [].
Proof. intros l []. Qed.

Lemma none_contains_cons (ss l : string) (more : list string) :
  (find (rstrip l) ss <? 0) = true -> NoneContains ss more ->
  NoneContains ss (l :: more).
Proof.
  intros H Hm x [<-|Hx]; [now apply find_neg_iff | now apply Hm].
Qed.

Lemma contains_by_find (ss l : string) :
  (find (rstrip l) ss <? 0) = false -> Contains ss l.
Proof. intros H. now apply find_nonneg_iff. Qed.
End Delimiters.

Section DelimiterClaims.
Import PyStr Spec.

Ltac by_find :=
  repeat first
    [ apply none_contains_nil
    | apply none_contains_cons; [vm_compute; reflexivity|]
    | apply contains_by_find; vm_compute; reflexivity ].

(** The single-file extractor does what the specification says of a
    matched pair of delimiters, for all delimiters. *)
Lemma cli_extracts_between : ExtractsBetween cli_extractor.
Proof.
  intros pre s mid e post after before Hpre Hs Hmid He.
  rewrite cli_found by assumption. now rewrite take_to_before.
Qed.

(** C4, as stated, fails: a stream without the after string ends the call
    with [StopIteration], and a stream with the after string but no later
    before string yields every line that follows. *)
Lemma delimiters_unmatched_counterexample :
  cli_extractor (with_newlines ["a"; "b"]) "START" "END" = Raise StopIteration
  /\ tags_extractor (with_newlines ["a"; "b"]) "START" "END" = Raise StopIteration
  /\ cli_extractor (with_newlines ["START"; "x"; "y"]) "START" "END" = Ok ["x"; "y"]
  /\ tags_extractor (with_newlines ["START"; "x"; "y"]) "START" "END" = Ok ["x"; "y"]
  /\ ~ EmptyWhenAfterMissing cli_extractor
  /\ ~ EmptyWhenAfterMissing tags_extractor
  /\ ~ EmptyWhenBeforeMissing cli_extractor
  /\ ~ EmptyWhenBeforeMissing tags_extractor.
Proof.
  assert (Ha : NoneContains "START" (with_newlines ["a"; "b"])) by by_find.
  assert (Hs : Contains "START" ("START" ++ nl)) by by_find.
  assert (Hp : NoneContains "END" (with_newlines ["x"; "y"])) by by_find.
  repeat split; try reflexivity.
  - intros H. specialize (H _ "START" "END" Ha). discriminate.
  - intros H. specialize (H _ "START" "END" Ha). discriminate.
  - intros H.
    specialize (H [] _ _ "START" "END" (none_contains_nil _) Hs Hp).
    discriminate.
  - intros H.
    specialize (H [] _ _ "START" "END" (none_contains_nil _) Hs Hp).
    discriminate.
Qed.

(** C4, amended.  If no line contains the after string, both extractors
    end with [StopIteration].  If a line contains it and no later line
    contains the before string, the single-file extractor returns every
    line after the first line containing the after string, stripped, and
    so does the tree scanner's extractor when that line is not blank. *)
Theorem delimiters_unmatched (a : Cli.args) :
  let after := Cli.after_string a in
  let before := Cli.before_string a in
  (forall lines,
      NoneContains after lines ->
      Cli.extract_delimiters_simple a lines = Raise StopIteration
      /\ Tags.extract_delimiters_simple lines after before = Raise StopIteration)
  /\ (forall pre s post,
         NoneContains after pre -> Contains after s -> NoneContains before post ->
         Cli.extract_delimiters_simple a (pre ++ s :: post) = Ok (map rstrip post)
         /\ (~ Blank s ->
             Tags.extract_delimiters_simple (pre ++ s :: post) after before
             = Ok (map rstrip post))).
Proof.
  intros after before. split.
  - intros lines H. split.
    + rewrite cli_extractor_eq. now apply cli_missing.
    + now apply tags_missing.
  - intros pre s post Hpre Hs Hpost. split.
    + rewrite cli_extractor_eq. fold after before.
      rewrite cli_found by assumption. now rewrite take_to_end.
    + intros Hnb. change Tags.extract_delimiters_simple with tags_extractor.
      rewrite tags_found; [now rewrite take_to_end | | exact Hnb | exact Hs].
      intros l Hl. right. now apply Hpre.
Qed.

Lemma delimiters_unmatched_witness :
  let a := {| Cli.latex_env := None; Cli.dedent := 0;
              Cli.after_string := "START"; Cli.before_string := "END";
              Cli.start_line := 0; Cli.end_line := 0 |} in
  (Cli.extract_delimiters_simple a ["a"; "b"] = Raise StopIteration
   /\ Tags.extract_delimiters_simple ["a"; "b"] "START" "END" = Raise StopIteration)
  /\ (Cli.extract_delimiters_simple a ["a"; "START"; "x  "; "y"] = Ok ["x"; "y"]
      /\ Tags.extract_delimiters_simple ["a"; "START"; "x  "; "y"] "START" "END"
         = Ok ["x"; "y"]).
Proof.
  intros a. destruct (delimiters_unmatched a) as [H1 H2]. split.
  - apply (H1 ["a"; "b"]). by_find.
  - destruct (H2 ["a"] "START" ["x  "; "y"]) as [Hc Ht]; try by_find.
    split; [exact Hc|]. apply Ht. unfold Blank. vm_compute. discriminate.
Defined.

(** With an after string that is not empty, the tree scanner's extractor
    does the same; its caller always passes the text of a marker. *)
Lemma tags_extracts_between (after before : string)
      (pre : list string) (s : string) (mid : list string) (e : string)
      (post : list string) :
  after <> EmptyString ->
  NoneContains after pre -> Contains after s ->
  NoneContains before mid -> Contains before e ->
  tags_extractor (pre ++ s :: mid ++ e :: post)%list after before
  = Ok (map rstrip mid).
Proof.
  intros Hne Hpre Hs Hmid He. rewrite tags_found.
  - f_equal. now apply take_to_before.
  - intros l Hl. right. now apply Hpre.
  - intros Hb. unfold Contains in Hs. rewrite Hb in Hs.
    apply Hne. now apply substring_of_empty.
  - exact Hs.
Qed.

(** C5, as stated, fails for the tree scanner's extractor: it discards
    the blank lines at the start of the stream before it looks for the
    after string, so with an empty after string it starts after the first
    line that is not blank. *)
Lemma delimiters_between_counterexample :
  tags_extractor (with_newlines [""; "x"; "y"; "END"]) "" "END" = Ok ["y"]
  /\ cli_extractor (with_newlines [""; "x"; "y"; "END"]) "" "END" = Ok ["x"; "y"]
  /\ ~ ExtractsBetween tags_extractor.
Proof.
  split; [reflexivity|]. split; [reflexivity|]. intros H.
  assert (Hs : Contains "" nl) by by_find.
  assert (Hm : NoneContains "END" (with_newlines ["x"; "y"])) by by_find.
  assert (He : Contains "END" ("END" ++ nl)) by by_find.
  specialize (H [] _ _ _ [] "" "END" (none_contains_nil _) Hs Hm He).
  discriminate.
Qed.

(** C5, amended.  When a line contains the after string and a later line
    the before string, the single-file extractor returns the lines
    strictly between the first line containing the after string and the
    next line containing the before string, stripped and in order.  The
    tree scanner's extractor returns the same lines, its start being the
    first line that is not blank and contains the after string. *)
Theorem delimiters_between (a : Cli.args)
        (pre : list string) (s : string) (mid : list string) (e : string)
        (post : list string) :
  let after := Cli.after_string a in
  let before := Cli.before_string a in
  Contains after s -> NoneContains before mid -> Contains before e ->
  (NoneContains after pre ->
   Cli.extract_delimiters_simple a (pre ++ s :: mid ++ e :: post)
   = Ok (map rstrip mid))
  /\ ((forall l, In l pre -> Blank l \/ ~ Contains after l) -> ~ Blank s ->
      Tags.extract_delimiters_simple (pre ++ s :: mid ++ e :: post) after before
      = Ok (map rstrip mid)).
Proof.
  intros after before Hs Hmid He. split.
  - intros Hpre. rewrite cli_extractor_eq. now apply cli_extracts_between.
  - intros Hpre Hnb. change Tags.extract_delimiters_simple with tags_extractor.
    rewrite tags_found by assumption. f_equal. now apply take_to_before.
Qed.

Lemma delimiters_between_witness :
  let a := {| Cli.latex_env := None; Cli.dedent := 0;
              Cli.after_string := "START"; Cli.before_string := "END";
              Cli.start_line := 0; Cli.end_line := 0 |} in
  Cli.extract_delimiters_simple a ["a"; "START"; "x"; "y"; "END"; "z"]
  = Ok ["x"; "y"]
  /\ Tags.extract_delimiters_simple ["a"; "START"; "x"; "y"; "END"; "z"] "START" "END"
     = Ok ["x"; "y"].
Proof.
  intros a.
  destruct (delimiters_between a ["a"] "START" ["x"; "y"] "END" ["z"])
    as [Hc Ht]; try by_find.
  split.
  - apply Hc. by_find.
  - apply Ht.
    + intros l [<-|[]]. right. apply find_neg_iff. vm_compute. reflexivity.
    + unfold Blank. vm_compute. discriminate.
Defined.
End DelimiterClaims.

(** ** Manifest file names *)

Section Depathify.
Import PyStr Spec.

Lemma str_app_length (a b : string) :
  String.length (a ++ b) = (String.length a + String.length b)%nat.
Proof. induction a as [|c a IH]; simpl; [reflexivity | now rewrite IH]. Qed.

Lemma str_app_inv_tail (a b s : string) : a ++ s = b ++ s -> a = b.
Proof.
  revert b. induction a as [|c a IH]; intros [|d b] H; simpl in H.
  - reflexivity.
  - apply (f_equal String.length) in H. simpl in H.
    rewrite str_app_length in H. lia.
  - apply (f_equal String.length) in H. simpl in H.
    rewrite str_app_length in H. lia.
  - injection H as -> H. f_equal. now apply IH.
Qed.

Lemma prefix_empty (s : string) : prefix EmptyString s = true.
Proof. now destruct s. Qed.

(** Replacing one character by another is a character-wise map. *)
Lemma replace_char (a b : ascii) (s : string) :
  replace (String a EmptyString) (String b EmptyString) s = subst_char a b s.
Proof.
  unfold replace. induction s as [|c t IH]; [reflexivity|].
  cbn [replace_scan subst_char prefix String.length Nat.sub].
  rewrite prefix_empty. rewrite Ascii.eqb_sym.
  destruct (ascii_dec a c) as [->|n].
  - rewrite Ascii.eqb_refl. simpl. now rewrite IH.
  - apply Ascii.eqb_neq in n. rewrite n. now rewrite IH.
Qed.

(** Where the old string does not occur, nothing is replaced. *)
Lemma replace_absent (old new s : string) :
  old <> EmptyString -> ~ Substring old s -> replace old new s = s.
Proof.
  intros Hne. unfold replace. destruct old as [|o old]; [contradiction|].
  induction s as [|c t IH]; intros Hn; [reflexivity|].
  cbn [replace_scan].
  destruct (prefix (String o old) (String c t)) eqn:Hp.
  - exfalso. apply Hn. destruct (prefix_split _ _ Hp) as [post Hpost].
    exists EmptyString, post. exact Hpost.
  - f_equal. apply IH. intros [pre [post H]]. apply Hn.
    exists (String c pre), post. now rewrite H.
Qed.

Lemma subst_absent (a b : ascii) (s : string) :
  has_char a s = false -> subst_char a b s = s.
Proof.
  induction s as [|c t IH]; simpl; [reflexivity|].
  intros H. apply orb_false_iff in H. destruct H as [H1 H2].
  rewrite H1. now rewrite IH.
Qed.

Lemma subst_inverse (a b : ascii) (s : string) :
  has_char b s = false -> subst_char b a (subst_char a b s) = s.
Proof.
  induction s as [|c t IH]; simpl; [reflexivity|].
  intros H. apply orb_false_iff in H. destruct H as [H1 H2].
  rewrite IH by exact H2. f_equal.
  destruct (Ascii.eqb c a) eqn:E.
  - rewrite Ascii.eqb_refl. apply Ascii.eqb_eq in E. now subst.
  - now rewrite H1.
Qed.

Lemma subst_removes (a b : ascii) (s : string) :
  a <> b -> has_char a (subst_char a b s) = false.
Proof.
  intros Hab. induction s as [|c t IH]; simpl; [reflexivity|].
  rewrite IH, orb_false_r. destruct (Ascii.eqb c a) eqn:E; [|exact E].
  apply Ascii.eqb_neq. congruence.
Qed.

Lemma has_char_app (c : ascii) (a b : string) :
  has_char c (a ++ b) = (has_char c a || has_char c b)%bool.
Proof.
  induction a as [|d a IH]; simpl; [reflexivity|].
  now rewrite IH, orb_assoc.
Qed.

Lemma not_dotdot (q : string) : ~ Substring "./" q -> ~ Substring "../" q.
Proof.
  intros H [pre [post E]]. apply H.
  exists (pre ++ "."), post. rewrite E. clear.
  induction pre as [|c pre IH]; simpl in *; [reflexivity | now f_equal].
Qed.

(** On a plain path only the slashes change. *)
Lemma depathify_plain (q : string) :
  Plain q -> Tags.depathify q = subst_char "/" "-" q.
Proof.
  intros [Hu [Hh Hd]]. unfold Tags.depathify.
  rewrite (replace_absent "../" "" q) by (discriminate || now apply not_dotdot).
  rewrite (replace_absent "./" "" q) by (discriminate || assumption).
  rewrite !replace_char. now rewrite (subst_absent "_" "-" q).
Qed.

(** A leading [./] or [../] is removed. *)
Lemma depathify_lead (lead q : string) :
  RelLead lead -> Plain q -> Tags.depathify (lead ++ q) = Tags.depathify q.
Proof.
  intros [ -> | [ -> | -> ] ] Hq; [reflexivity | |];
    pose proof Hq as [Hu [Hh Hd]]; unfold Tags.depathify.
  - assert (H1 : replace "../" "" ("./" ++ q) = "./" ++ q).
    { apply replace_absent; [discriminate|].
      intros [pre [post E]]. destruct pre as [|c pre]; [discriminate|].
      destruct pre as [|d pre]; [discriminate|].
      simpl in E. injection E as _ _ E. apply (not_dotdot q Hd).
      now exists pre, post. }
    rewrite H1.
    assert (H2 : replace "./" "" ("./" ++ q) = replace "./" "" q).
    { unfold replace. simpl. now rewrite prefix_empty. }
    rewrite H2.
    now rewrite (replace_absent "../" "" q) by (discriminate || now apply not_dotdot).
  - assert (H1 : replace "../" "" ("../" ++ q) = replace "../" "" q).
    { unfold replace. simpl. now rewrite prefix_empty. }
    now rewrite H1.
Qed.

Lemma depathify_flat (path : string) :
  has_char "/" (Tags.depathify path) = false.
Proof.
  unfold Tags.depathify. rewrite (replace_char "/" "-").
  apply subst_removes. discriminate.
Qed.
End Depathify.

Section ManifestNames.
Import PyStr Spec.

(** C7, as stated, fails: a file [a_b.c] in [src] and a file [b.c] in
    [src/a] are given the same manifest name. *)
Lemma manifest_names_counterexample :
  OsPath.join "src" "a_b.c" <> OsPath.join "src/a" "b.c"
  /\ Tags.json_filename "src" "a_b.c" = "src-a-b.c.json"
  /\ Tags.json_filename "src/a" "b.c" = "src-a-b.c.json"
  /\ ~ CollisionFree.
Proof.
  assert (Hd : OsPath.join "src" "a_b.c" <> OsPath.join "src/a" "b.c")
    by (vm_compute; discriminate).
  repeat split; try reflexivity; [exact Hd|].
  intros H. apply (H "src" "a_b.c" "src/a" "b.c" Hd). reflexivity.
Qed.

(** C7, amended.  The manifest name is flat: it contains no slash.  It
    determines the source path among the paths that, after an optional
    leading [./] or [../], contain no underscore, no hyphen and no [./]:
    two such paths with the same manifest name are equal after their
    leading markers. *)
Theorem manifest_name_plain_injective
        (root1 name1 root2 name2 lead1 q1 lead2 q2 : string) :
  OsPath.join root1 name1 = lead1 ++ q1 ->
  OsPath.join root2 name2 = lead2 ++ q2 ->
  RelLead lead1 -> RelLead lead2 -> Plain q1 -> Plain q2 ->
  has_char "/" (Tags.json_filename root1 name1) = false
  /\ (Tags.json_filename root1 name1 = Tags.json_filename root2 name2 -> q1 = q2).
Proof.
  intros E1 E2 L1 L2 P1 P2. unfold Tags.json_filename. split.
  - rewrite has_char_app, depathify_flat. reflexivity.
  - intros H. apply str_app_inv_tail in H.
    rewrite E1, E2 in H.
    rewrite (depathify_lead _ _ L1 P1), (depathify_lead _ _ L2 P2) in H.
    rewrite (depathify_plain _ P1), (depathify_plain _ P2) in H.
    destruct P1 as [_ [H1 _]]. destruct P2 as [_ [H2 _]].
    rewrite <- (subst_inverse "/" "-" q1 H1), <- (subst_inverse "/" "-" q2 H2).
    now rewrite H.
Qed.

Lemma manifest_name_plain_injective_witness :
  has_char "/" (Tags.json_filename "../src" "foo.c") = false
  /\ (Tags.json_filename "../src" "foo.c" = Tags.json_filename "./src" "foo.c"
      -> "src/foo.c" = "src/foo.c").
Proof.
  assert (P : Plain "src/foo.c").
  { repeat split; try reflexivity. apply find_neg_iff. vm_compute. reflexivity. }
  apply (manifest_name_plain_injective
           "../src" "foo.c" "./src" "foo.c" "../" "src/foo.c" "./" "src/foo.c").
  - reflexivity.
  - reflexivity.
  - right. right. reflexivity.
  - right. left. reflexivity.
  - exact P.
  - exact P.
Defined.
End ManifestNames.

(** ** Scanning one file *)

Section Scan.
Import PyStr Spec Tags.

Lemma validate_run (runs : list (string * list MarkerMatch)) (groups : groups_t)
      (w : Eff.world) :
  validate runs groups w = (diagnostics runs, Ok (validated runs groups)).
Proof.
  revert groups. induction runs as [|[group_name run] more IH]; intros groups.
  - reflexivity.
  - cbn [validate diagnostics validated]. unfold accepted.
    destruct (Nat.eqb (List.length (set_of (map marker (sort_by_line run)))) 2).
    + cbn [negb]. apply IH.
    + cbn [negb]. unfold Eff.bind, Eff.print, Eff.emit. now rewrite IH.
Qed.

Lemma process_file_run (root name extension : string) (lines : list string)
      (w : Eff.world) :
  Eff.w_open w (OsPath.join root name) = Some lines ->
  process_file root name extension w
  = (Eff.EOpenRead (OsPath.join root name)
       :: diagnostics (runs_of root name extension lines),
     Ok (validated (runs_of root name extension lines) [])).
Proof.
  intros H. unfold process_file, Eff.bind, Eff.open_read. rewrite H.
  now rewrite validate_run.
Qed.

(** C1.  A file with exactly one begin and one end marker of tag
    [outer], around the markers of another tag: [groupby] yields the
    matches of [outer] as two runs of one match each, both are dropped
    with the diagnostic, and the result has no group [outer]. *)
Theorem nested_tag_group_dropped :
  let file := with_newlines
                ["// {{bk:outer:begin}}"; "int x;"; "// {{bk:inner:begin}}";
                 "int y;"; "// {{bk:inner:end}}"; "int z;"; "// {{bk:outer:end}}"] in
  let run := process_file "." "f.c" ".c" (one_file "./f.c" file) in
  map (fun d => (tag d, marker d)) (matches_of "." "f.c" ".c" file)
  = [("outer", "begin"); ("inner", "begin"); ("inner", "end"); ("outer", "end")]
  /\ map (fun r => (fst r, map marker (snd r))) (runs_of "." "f.c" ".c" file)
     = [("outer", ["begin"]); ("inner", ["begin"; "end"]); ("outer", ["end"])]
  /\ fst run = [Eff.EOpenRead "./f.c";
                Eff.EPrint "Tag outer has mismatched or missing begin/end marker";
                Eff.EPrint "Tag outer has mismatched or missing begin/end marker"]
  /\ exists groups,
       snd run = Ok groups
       /\ map fst groups = ["inner"]
       /\ dict_get "outer" groups = None.
Proof.
  cbv zeta. split; [vm_compute; reflexivity|].
  split; [vm_compute; reflexivity|].
  split; [vm_compute; reflexivity|].
  eexists. split; [vm_compute; reflexivity|].
  split; vm_compute; reflexivity.
Qed.

(** C3.  A file with two begin markers and one end marker of one tag:
    the set of distinct markers has two elements, so the group is kept,
    with its three matches and without a diagnostic. *)
Theorem duplicate_begin_group_retained :
  let file := with_newlines
                ["// {{bk:t:begin}}"; "int x;"; "// {{bk:t:begin}}";
                 "int y;"; "// {{bk:t:end}}"] in
  let run := process_file "." "f.c" ".c" (one_file "./f.c" file) in
  fst run = [Eff.EOpenRead "./f.c"]
  /\ exists values,
       snd run = Ok [("t", values)]
       /\ map marker values = ["begin"; "begin"; "end"]
       /\ map line values = [2; 4; 6].
Proof.
  cbv zeta. split; [vm_compute; reflexivity|].
  eexists. split; [vm_compute; reflexivity|].
  split; vm_compute; reflexivity.
Qed.
End Scan.

(** ** The pattern *)

Section Pattern.
Import PyStr Spec Tags.

Lemma str_app_assoc (a b c : string) : (a ++ b) ++ c = a ++ b ++ c.
Proof. induction a as [|x a IH]; simpl; [reflexivity | now rewrite IH]. Qed.

Lemma drop_app (a b : string) : drop (String.length a) (a ++ b) = b.
Proof. induction a as [|x a IH]; simpl; [now destruct b | exact IH]. Qed.

Lemma eat_split (lit s s' : string) : eat lit s = Some s' -> s = lit ++ s'.
Proof.
  unfold eat. destruct (prefix lit s) eqn:Hp; [|discriminate].
  intros H. injection H as <-.
  destruct (prefix_split _ _ Hp) as [post ->]. now rewrite drop_app.
Qed.

Lemma span_split (p : ascii -> bool) (s run rest : string) :
  span p s = (run, rest) -> s = run ++ rest.
Proof.
  revert run rest. induction s as [|c t IH]; intros run rest H; simpl in H.
  - now injection H as <- <-.
  - destruct (p c).
    + destruct (span p t) as [run' rest'] eqn:E.
      injection H as <- <-. simpl. f_equal. now apply IH.
    + now injection H as <- <-.
Qed.

Lemma closed_by_split (word s : string) :
  closed_by word s = true -> exists rest, s = word ++ "}}" ++ rest.
Proof.
  unfold closed_by. destruct (eat word s) as [s'|] eqn:E1; [|discriminate].
  destruct (eat "}}" s') as [rest|] eqn:E2; [|discriminate].
  intros _. exists rest.
  apply eat_split in E1. apply eat_split in E2. now rewrite E1, E2.
Qed.

(** A match at the front of [s] is the text of a marker, and nothing
    else. *)
Lemma match_here_split (s : string) (g : groupdict) (n : nat) :
  match_here s = Some (g, n) ->
  (exists rest, s = marker_text g ++ rest)
  /\ n = String.length (marker_text g)
  /\ (g_marker g = "begin" \/ g_marker g = "end").
Proof.
  unfold match_here.
  destruct (eat "{{" s) as [s1|] eqn:E1; [|discriminate].
  destruct (span is_word s1) as [bk s2] eqn:E2.
  destruct bk as [|b0 bk]; [discriminate|].
  destruct (eat ":" s2) as [s3|] eqn:E3; [|discriminate].
  destruct (span is_tag_char s3) as [tg s4] eqn:E4.
  destruct tg as [|t0 tg]; [discriminate|].
  destruct (eat ":" s4) as [s5|] eqn:E5; [|discriminate].
  apply eat_split in E1. apply span_split in E2. apply eat_split in E3.
  apply span_split in E4. apply eat_split in E5.
  assert (Hs : forall m rest, s5 = m ++ "}}" ++ rest ->
               s = marker_text {| g_book := String b0 bk; g_tag := String t0 tg;
                                  g_marker := m |} ++ rest).
  { intros m rest H. unfold marker_text. cbn [g_book g_tag g_marker].
    rewrite E1, E2, E3, E4, E5, H.
    repeat rewrite str_app_assoc. reflexivity. }
  assert (Hn : forall m,
             (2 + String.length (String b0 bk) + 1 + String.length (String t0 tg)
              + 1 + String.length m + 2)%nat
             = String.length
                 (marker_text {| g_book := String b0 bk; g_tag := String t0 tg;
                                 g_marker := m |})).
  { intros m. unfold marker_text. cbn [g_book g_tag g_marker].
    repeat rewrite str_app_length. simpl. lia. }
  destruct (closed_by "begin" s5) eqn:Cb.
  - intros H. injection H as <- <-.
    destruct (closed_by_split _ _ Cb) as [rest Hr].
    split; [exists rest; now apply Hs|]. split; [exact (Hn "begin") | now left].
  - destruct (closed_by "end" s5) eqn:Ce; [|discriminate].
    intros H. injection H as <- <-.
    destruct (closed_by_split _ _ Ce) as [rest Hr].
    split; [exists rest; now apply Hs|]. split; [exact (Hn "end") | now right].
Qed.

Lemma search_from_split (s : string) (i : nat) (m : re_match) :
  search_from i s = Some m ->
  (exists pre rest,
      s = pre ++ marker_text (m_groups m) ++ rest
      /\ m_start m = (i + String.length pre)%nat)
  /\ m_end m = (m_start m + String.length (marker_text (m_groups m)))%nat
  /\ (g_marker (m_groups m) = "begin" \/ g_marker (m_groups m) = "end").
Proof.
  revert i. induction s as [|c t IH]; intros i H.
  - cbn [search_from] in H.
    destruct (match_here EmptyString) as [[g n]|] eqn:E; [|discriminate].
    injection H as <-. cbn [m_groups m_start m_end].
    destruct (match_here_split _ _ _ E) as [[rest Hr] [Hn Hm]].
    split; [exists EmptyString, rest; split; [exact Hr | simpl; lia]|].
    split; [now rewrite Hn | exact Hm].
  - cbn [search_from] in H.
    destruct (match_here (String c t)) as [[g n]|] eqn:E.
    + injection H as <-. cbn [m_groups m_start m_end].
      destruct (match_here_split _ _ _ E) as [[rest Hr] [Hn Hm]].
      split; [exists EmptyString, rest; split; [exact Hr | simpl; lia]|].
      split; [now rewrite Hn | exact Hm].
    + destruct (IH _ H) as [[pre [rest [Hs Hst]]] [He Hm]].
      split; [|split; assumption].
      exists (String c pre), rest. split; [simpl; now rewrite Hs | simpl; lia].
Qed.

Lemma substring_mid (pre mid rest : string) :
  substring (String.length pre) (String.length mid) (pre ++ mid ++ rest) = mid.
Proof.
  induction pre as [|c pre IH]; [|exact IH].
  simpl. revert rest. induction mid as [|d mid IHm]; intros rest; simpl.
  - now destruct rest.
  - now rewrite IHm.
Qed.

(** What [search] finds in a line: the marker it reports lies in the
    line at the offsets it reports. *)
Lemma search_found (text : string) (m : re_match) :
  search text = Some m ->
  exists pre rest,
    text = pre ++ marker_text (m_groups m) ++ rest
    /\ slice (m_start m) (m_end m) text = marker_text (m_groups m)
    /\ (g_marker (m_groups m) = "begin" \/ g_marker (m_groups m) = "end").
Proof.
  intros H. destruct (search_from_split _ _ _ H) as [[pre [rest [Hs Hst]]] [He Hm]].
  exists pre, rest. split; [exact Hs|]. split; [|exact Hm].
  unfold slice. rewrite He, Hst.
  replace (0 + String.length pre + String.length (marker_text (m_groups m))
           - (0 + String.length pre))%nat
    with (String.length (marker_text (m_groups m))) by lia.
  rewrite Hs at 1. apply substring_mid.
Qed.
End Pattern.

(** ** The records of a file *)

Section Records.
Import PyStr Spec Tags.

(** Every record comes from a line of the file: the line at index [i]
    (numbered [i + 1]) on which [search] found the marker. *)
Lemma collect_in (path root name extension : string) (lines : list string)
      (n : Z) (d : MarkerMatch) :
  In d (collect path root name extension (lines_from n lines)) ->
  exists i m,
    nth_error lines i = Some (mtext d)
    /\ search (mtext d) = Some m
    /\ d = make_doc path root name extension
             {| number := n + Z.of_nat i; text := mtext d |} m.
Proof.
  revert n. induction lines as [|l more IH]; intros n H; [contradiction|].
  cbn [lines_from collect text] in H.
  destruct (search l) as [m|] eqn:E.
  - destruct H as [<-|H].
    + exists O, m. cbn [mtext make_doc text nth_error]. repeat split.
      * exact E.
      * now rewrite Z.add_0_r.
    + destruct (IH _ H) as [i [m' [Hn [Hs Hd]]]].
      exists (S i), m'. repeat split; try assumption.
      rewrite Hd at 1. do 2 f_equal. lia.
  - destruct (IH _ H) as [i [m' [Hn [Hs Hd]]]].
    exists (S i), m'. repeat split; try assumption.
    rewrite Hd at 1. do 2 f_equal. lia.
Qed.

Lemma groupby_in {A K : Type} (keq : K -> K -> bool) (key : A -> K)
      (l : list A) (k : K) (run : list A) :
  In (k, run) (Iter.groupby keq key l) -> forall x, In x run -> In x l.
Proof.
  revert k run. induction l as [|y ys IH]; intros k run H x Hx; [contradiction|].
  cbn [Iter.groupby] in H.
  destruct (Iter.groupby keq key ys) as [|[k' run'] gs] eqn:E.
  - destruct H as [H|[]]. injection H as <- <-.
    destruct Hx as [<-|[]]. now left.
  - destruct (keq (key y) k').
    + destruct H as [H|H].
      * injection H as <- <-. destruct Hx as [<-|Hx]; [now left|].
        right. apply (IH k' run'); [now left | exact Hx].
      * right. apply (IH k run); [now right | exact Hx].
    + destruct H as [H|H].
      * injection H as <- <-. destruct Hx as [<-|[]]. now left.
      * right. apply (IH k run); [exact H | exact Hx].
Qed.

Lemma insert_by_line_in (d x : MarkerMatch) (l : list MarkerMatch) :
  In x (insert_by_line d l) -> x = d \/ In x l.
Proof.
  induction l as [|y ys IH]; simpl.
  - intros [<-|[]]. now left.
  - destruct (line d <=? line y).
    + intros [<-|H]; [now left | now right].
    + intros [<-|H]; [right; now left|].
      destruct (IH H) as [->|H']; [now left | right; now right].
Qed.

Lemma sort_by_line_in (x : MarkerMatch) (l : list MarkerMatch) :
  In x (sort_by_line l) -> In x l.
Proof.
  induction l as [|y ys IH]; simpl; [auto|].
  intros H. destruct (insert_by_line_in _ _ _ H) as [->|H']; [now left|].
  right. now apply IH.
Qed.

Lemma dict_set_in {V : Type} (k k' : string) (v v' : V) (d : dict V) :
  In (k, v) (dict_set k' v' d) -> (k = k' /\ v = v') \/ In (k, v) d.
Proof.
  induction d as [|[k0 v0] r IH]; simpl.
  - intros [H|[]]. injection H as <- <-. now left.
  - destruct (String.eqb k' k0).
    + intros [H|H]; [injection H as <- <-; now left | right; now right].
    + intros [H|H]; [right; now left|].
      destruct (IH H) as [H'|H']; [now left | right; now right].
Qed.

Lemma validated_in (runs : list (string * list MarkerMatch)) (groups : groups_t)
      (k : string) (values : list MarkerMatch) :
  In (k, values) (validated runs groups) ->
  In (k, values) groups
  \/ exists run, In (k, run) runs /\ values = sort_by_line run /\ accepted run = true.
Proof.
  revert groups. induction runs as [|[g run] more IH]; intros groups H.
  - now left.
  - cbn [validated] in H. destruct (accepted run) eqn:Ha.
    + destruct (IH _ H) as [H'|[run' [Hin [Hv Hacc]]]].
      * destruct (dict_set_in _ _ _ _ _ H') as [[-> ->]|H''].
        -- right. exists run. repeat split; [now left | exact Ha].
        -- now left.
      * right. exists run'. repeat split; [now right | exact Hv | exact Hacc].
    + destruct (IH _ H) as [H'|[run' [Hin [Hv Hacc]]]].
      * now left.
      * right. exists run'. repeat split; [now right | exact Hv | exact Hacc].
Qed.

(** The groups [process_file] returns hold records of the file only. *)
Lemma group_member (root name extension : string) (lines : list string)
      (g : string) (values : list MarkerMatch) (d : MarkerMatch) :
  In (g, values) (validated (runs_of root name extension lines) []) ->
  In d values ->
  In d (matches_of root name extension lines).
Proof.
  intros H Hd. destruct (validated_in _ _ _ _ H) as [[]|[run [Hin [-> _]]]].
  apply sort_by_line_in in Hd.
  exact (groupby_in _ _ _ _ _ Hin _ Hd).
Qed.

(** What is known of a record of the file. *)
Lemma match_facts (root name extension : string) (lines : list string)
      (d : MarkerMatch) :
  In d (matches_of root name extension lines) ->
  exists i m pre rest,
    nth_error lines i = Some (mtext d)
    /\ line d = Z.of_nat i + 2
    /\ search (mtext d) = Some m
    /\ mtext d = pre ++ marker_text (m_groups m) ++ rest
    /\ match_text d = marker_text (m_groups m)
    /\ path d = OsPath.join root name
    /\ marker d = g_marker (m_groups m)
    /\ tag d = g_tag (m_groups m)
    /\ book d = g_book (m_groups m).
Proof.
  intros H. unfold matches_of, line_reader in H.
  destruct (collect_in _ _ _ _ _ _ _ H) as [i [m [Hn [Hs Hd]]]].
  destruct (search_found _ _ Hs) as [pre [rest [Ht [Hsl _]]]].
  exists i, m, pre, rest.
  split; [exact Hn|]. split; [rewrite Hd; cbn [line make_doc number]; lia|].
  split; [exact Hs|]. split; [exact Ht|].
  split; [rewrite Hd at 1; cbn [match_text make_doc text]; exact Hsl|].
  repeat split; rewrite Hd at 1; reflexivity.
Qed.
End Records.

(** ** Runs of the tree scanner *)

Section Traces.
Import PyStr Spec Tags.
Variable w : Eff.world.
Variable P : event -> Prop.

Lemma emits_ret {A} (x : A) : EmitsOnly P (Eff.ret x) w.
Proof. constructor. Qed.

Lemma emits_raise {A} (e : exn) : EmitsOnly P (Eff.raise (A := A) e) w.
Proof. constructor. Qed.

Lemma emits_lift {A} (r : result A) : EmitsOnly P (Eff.lift r) w.
Proof. constructor. Qed.

Lemma emits_emit (e : event) : P e -> EmitsOnly P (Eff.emit _ e) w.
Proof. intros H. constructor; [exact H | constructor]. Qed.

Lemma emits_open_read (path : string) :
  P (Eff.EOpenRead path) -> EmitsOnly P (Eff.open_read _ path) w.
Proof.
  intros H. unfold EmitsOnly, Eff.open_read.
  destruct (Eff.w_open w path); constructor; (exact H || constructor).
Qed.

Lemma emits_bind {A B} (m : IO A) (f : A -> IO B) :
  EmitsOnly P m w ->
  (forall x, snd (m w) = Ok x -> EmitsOnly P (f x) w) ->
  EmitsOnly P (Eff.bind m f) w.
Proof.
  unfold EmitsOnly, Eff.bind. intros Hm Hf.
  destruct (m w) as [t [x|e]]; [|exact Hm].
  specialize (Hf x eq_refl). destruct (f x w) as [t' r].
  apply Forall_app. split; [exact Hm | exact Hf].
Qed.

Lemma emits_for_each {A} (l : list A) (body : A -> IO unit) :
  (forall x, In x l -> EmitsOnly P (body x) w) ->
  EmitsOnly P (Eff.for_each l body) w.
Proof.
  induction l as [|x xs IH]; intros H; [apply emits_ret|].
  cbn [Eff.for_each]. apply emits_bind; [apply H; now left|].
  intros _ _. apply IH. intros y Hy. apply H. now right.
Qed.

Lemma emits_when (b : bool) (m : IO unit) :
  EmitsOnly P m w -> EmitsOnly P (when b m) w.
Proof. intros H. destruct b; [exact H | apply emits_ret]. Qed.
End Traces.

Section Loop.
Import PyStr Spec Tags.
Variable w : Eff.world.

Lemma process_file_events (root name extension : string) :
  EmitsOnly (LoopEvent w) (process_file root name extension) w.
Proof.
  unfold EmitsOnly. destruct (Eff.w_open w (OsPath.join root name)) as [lines|] eqn:E.
  - rewrite (process_file_run _ _ _ _ _ E). cbn [fst].
    constructor; [exact I|].
    induction (runs_of root name extension lines) as [|[g run] more IH];
      [constructor|].
    cbn [diagnostics]. destruct (accepted run); [exact IH|].
    constructor; [exact I | exact IH].
  - unfold process_file, Eff.bind, Eff.open_read. rewrite E.
    constructor; [exact I | constructor].
Qed.

Lemma process_file_groups (root name extension : string) (groups : groups_t) :
  snd (process_file root name extension w) = Ok groups ->
  exists lines,
    Eff.w_open w (OsPath.join root name) = Some lines
    /\ groups = validated (runs_of root name extension lines) [].
Proof.
  destruct (Eff.w_open w (OsPath.join root name)) as [lines|] eqn:E.
  - rewrite (process_file_run _ _ _ _ _ E). cbn [snd].
    intros H. injection H as <-. now exists lines.
  - unfold process_file, Eff.bind, Eff.open_read. rewrite E. discriminate.
Qed.

Lemma write_minted_group_events (a : args) (group : string * list MarkerMatch) :
  EmitsOnly (LoopEvent w) (write_minted_group a group) w.
Proof.
  destruct group as [g values]. cbn [write_minted_group].
  destruct values as [|begin [|end_ more]]; try apply emits_raise.
  destruct (negb (String.eqb (marker begin) "begin")
            || negb (String.eqb (marker end_) "end"))%bool.
  - apply emits_emit. exact I.
  - apply emits_bind; [apply emits_open_read; exact I|]. intros infile _.
    apply emits_bind; [apply emits_lift|]. intros extracted _.
    apply emits_bind; [apply emits_emit; exact I|]. intros _ _.
    apply emits_bind; [apply emits_emit; exact I|]. intros _ _.
    apply emits_bind; [apply emits_emit; exact I|]. intros _ _.
    apply emits_emit. exact I.
Qed.

Lemma process_name_events (a : args) (exts : list string) (root name : string) :
  EmitsOnly (LoopEvent w) (process_name a exts root name) w.
Proof.
  unfold process_name. destruct (OsPath.splitext name) as [nameonly extension].
  apply emits_when. apply emits_bind; [apply process_file_events|].
  intros snips Hsnips. apply emits_bind.
  - apply emits_when. unfold write_json.
    apply emits_bind; [apply emits_emit; exact I|]. intros _ _.
    apply emits_bind; [apply emits_emit; exact I|]. intros _ _.
    apply emits_emit. cbn [LoopEvent].
    destruct (process_file_groups _ _ _ _ Hsnips) as [lines [Ho Hg]].
    now exists root, name, extension, lines.
  - intros _ _. apply emits_when. unfold write_minted_snippets.
    apply emits_for_each. intros group _. apply write_minted_group_events.
Qed.

Lemma scan_loop_events (a : args) (exts : list string)
      (entries : list Eff.walk_entry) :
  EmitsOnly (LoopEvent w)
    (Eff.for_each entries (fun entry =>
       let '(root, dirs, files) := entry in
       Eff.for_each files (process_name a exts root))) w.
Proof.
  apply emits_for_each. intros [[root dirs] files] _.
  apply emits_for_each. intros name _. apply process_name_events.
Qed.

(** The run of [process_dir], in its two cases. *)
Lemma process_dir_missing (a : args) :
  Eff.w_exists w (outdir a) = false ->
  process_dir a w
  = ([Eff.EExists (outdir a);
      Eff.EPrint ("Outdir " ++ outdir a ++ " must exist (exiting)")],
     Ok tt).
Proof.
  intros H. unfold process_dir, Eff.bind, Eff.path_exists. now rewrite H.
Qed.

Lemma process_dir_present (a : args) :
  Eff.w_exists w (outdir a) = true ->
  exists rest outcome,
    process_dir a w = (Eff.EExists (outdir a) :: Eff.EWalk (dir a) :: rest, outcome)
    /\ Forall (LoopEvent w) rest.
Proof.
  intros H. unfold process_dir, Eff.bind, Eff.path_exists, Eff.os_walk.
  rewrite H. cbn [negb].
  pose proof (scan_loop_events a
                (map (fun extension => "." ++ extension)
                     (split_char "," (extensions a)))
                (Eff.w_walk w (dir a))) as Hl.
  unfold EmitsOnly in Hl.
  destruct (Eff.for_each (Eff.w_walk w (dir a)) _ w) as [t r] eqn:E.
  exists t, r. split; [reflexivity | exact Hl].
Qed.
End Loop.

Section ScannerClaims.
Import PyStr Spec Tags.

(** C9.  When the output directory does not exist, the run of
    [process_dir] consists of the query for it and the message: no walk,
    no file opened, no file written.  When it exists, the query is the
    first effect, the walk the second, and no later effect is a query. *)
Theorem outdir_checked_once_first (a : args) (w : Eff.world) :
  (Eff.w_exists w (outdir a) = false ->
   process_dir a w
   = ([Eff.EExists (outdir a);
       Eff.EPrint ("Outdir " ++ outdir a ++ " must exist (exiting)")],
      Ok tt)
   /\ Forall (fun e => is_file_io e = false) (fst (process_dir a w)))
  /\ (Eff.w_exists w (outdir a) = true ->
      exists rest outcome,
        process_dir a w
        = (Eff.EExists (outdir a) :: Eff.EWalk (dir a) :: rest, outcome)
        /\ Forall (fun e => is_exists e = false) rest).
Proof.
  split.
  - intros H. rewrite (process_dir_missing w a H). split; [reflexivity|].
    repeat constructor.
  - intros H. destruct (process_dir_present w a H) as [rest [outcome [E Hl]]].
    exists rest, outcome. split; [exact E|].
    apply (Forall_impl _ (P := LoopEvent w)); [|exact Hl].
    intros [ | | | | | ] Hp; try reflexivity; contradiction.
Qed.

Lemma outdir_checked_once_first_witness :
  (process_dir sample_args (sample_world false)
   = ([Eff.EExists "out"; Eff.EPrint "Outdir out must exist (exiting)"], Ok tt)
   /\ Forall (fun e => is_file_io e = false)
             (fst (process_dir sample_args (sample_world false))))
  /\ (exists rest outcome,
         process_dir sample_args (sample_world true)
         = (Eff.EExists "out" :: Eff.EWalk "." :: rest, outcome)
         /\ Forall (fun e => is_exists e = false) rest).
Proof.
  destruct (outdir_checked_once_first sample_args (sample_world false)) as [H1 _].
  destruct (outdir_checked_once_first sample_args (sample_world true)) as [_ H2].
  split; [apply H1; reflexivity | apply H2; reflexivity].
Defined.
End ScannerClaims.

Section RecordClaims.
Import PyStr Spec Tags.

Lemma line_after_marker (root name extension : string) (lines : list string)
      (d : MarkerMatch) :
  In d (matches_of root name extension lines) -> LineAfterMarker lines d.
Proof.
  intros H.
  destruct (match_facts _ _ _ _ _ H)
    as [i [m [pre [rest [Hn [Hl [_ [Ht [Hm _]]]]]]]]].
  unfold LineAfterMarker. split; [lia|]. split.
  - replace (Z.to_nat (line d - 2)) with i by lia. exact Hn.
  - exists pre, rest. now rewrite Hm.
Qed.

End RecordClaims.

(** ** The minted emitter *)

Section Minted.
Import PyStr Spec Tags.

Lemma rstrip_cons_nonspace (c : ascii) (r : string) :
  is_space c = false -> rstrip (String c r) = String c (rstrip r).
Proof. intros H. simpl. destruct (rstrip r); [now rewrite H | reflexivity]. Qed.

Lemma rstrip_app (a b : string) :
  rstrip b <> EmptyString -> rstrip (a ++ b) = a ++ rstrip b.
Proof.
  intros Hb. induction a as [|c a IH]; [reflexivity|].
  simpl. rewrite IH. destruct (a ++ rstrip b) eqn:E; [|reflexivity].
  exfalso. destruct a; simpl in E; [contradiction | discriminate].
Qed.

Lemma marker_text_last (g : groupdict) : exists m0, marker_text g = m0 ++ "}".
Proof.
  exists ("{{" ++ g_book g ++ ":" ++ g_tag g ++ ":" ++ g_marker g ++ "}").
  unfold marker_text. now rewrite !str_app_assoc.
Qed.

(** Stripping trailing whitespace leaves a marker in the line. *)
Lemma contains_marker (pre rest : string) (g : groupdict) :
  Substring (marker_text g) (rstrip (pre ++ marker_text g ++ rest)).
Proof.
  destruct (marker_text_last g) as [m0 ->].
  assert (E : pre ++ (m0 ++ "}") ++ rest = (pre ++ m0) ++ String "}" rest)
    by now rewrite !str_app_assoc.
  rewrite E. rewrite rstrip_app.
  - rewrite rstrip_cons_nonspace by reflexivity.
    exists pre, (rstrip rest). now rewrite !str_app_assoc.
  - rewrite rstrip_cons_nonspace by reflexivity. discriminate.
Qed.

Lemma marker_text_nonempty (g : groupdict) : marker_text g <> EmptyString.
Proof. unfold marker_text. discriminate. Qed.

Lemma nth_error_firstn_skipn {A : Type} (l : list A) (i : nat) (x : A) :
  nth_error l i = Some x -> l = (firstn i l ++ x :: skipn (S i) l)%list.
Proof.
  revert i. induction l as [|y ys IH]; intros [|i] H; try discriminate.
  - injection H as ->. reflexivity.
  - simpl. f_equal. now apply IH.
Qed.

(** The extraction for a record whose marker text occurs on no earlier
    line starts on the line after the record's line. *)
Lemma extract_after_record (root name extension : string) (lines : list string)
      (begin : MarkerMatch) (before : string) :
  In begin (matches_of root name extension lines) ->
  NoneContains (match_text begin) (firstn (Z.to_nat (line begin - 2)) lines) ->
  exists body,
    extract_delimiters_simple lines (match_text begin) before = Ok body
    /\ StartsAtFirstNumber lines begin body.
Proof.
  intros Hin Hpre.
  destruct (match_facts _ _ _ _ _ Hin)
    as [i [m [pre [rest [Hn [Hl [_ [Ht [Hm _]]]]]]]]].
  replace (Z.to_nat (line begin - 2)) with i in Hpre by lia.
  assert (Hc : Contains (match_text begin) (mtext begin)).
  { unfold Contains. rewrite Hm, Ht. apply contains_marker. }
  assert (Hnb : ~ Blank (mtext begin)).
  { intros Hb. unfold Contains in Hc. rewrite Hb in Hc.
    apply substring_of_empty in Hc. rewrite Hm in Hc.
    exact (marker_text_nonempty _ Hc). }
  pose proof (nth_error_firstn_skipn _ _ _ Hn) as Hsplit.
  exists (Iter.takewhile (fun text => find text before <? 0)
            (map rstrip (skipn (S i) lines))).
  split.
  - rewrite Hsplit at 1.
    change extract_delimiters_simple with tags_extractor.
    apply tags_found; [|exact Hnb | exact Hc].
    intros l Hl'. right. now apply Hpre.
  - unfold StartsAtFirstNumber.
    replace (Z.to_nat (line begin - 1)) with (S i) by lia.
    apply takewhile_prefix.
Qed.

Lemma write_minted_group_run (a : args) (w : Eff.world) (g : string)
      (begin end_ : MarkerMatch) (more : list MarkerMatch)
      (lines body : list string) :
  marker begin = "begin" -> marker end_ = "end" ->
  Eff.w_open w (path begin) = Some lines ->
  extract_delimiters_simple lines (match_text begin) (match_text end_) = Ok body ->
  write_minted_group a (g, begin :: end_ :: more) w
  = (minted_block a begin body, Ok tt).
Proof.
  intros Hb He Ho Hx. cbn [write_minted_group]. rewrite Hb, He.
  cbn [String.eqb Ascii.eqb Bool.eqb negb orb].
  unfold Eff.bind, Eff.open_read, Eff.lift, Eff.open_write, Eff.write, Eff.emit.
  rewrite Ho, Hx. reflexivity.
Qed.
End Minted.

Section MintedClaims.
Import PyStr Spec Tags.

(** Where the numbering of a block is right: for a group the minted
    emitter accepts, whose begin marker text occurs on no line before the
    line of the begin marker, the block written is annotated with
    [firstnumber = line begin] and its body is a run of stripped lines of
    the file that starts at the line of that number. *)
Lemma minted_firstnumber
        (a : args) (w : Eff.world) (root name extension : string)
        (lines : list string) (groups : groups_t) (g : string)
        (begin end_ : MarkerMatch) (more : list MarkerMatch) :
  Eff.w_open w (OsPath.join root name) = Some lines ->
  snd (process_file root name extension w) = Ok groups ->
  In (g, begin :: end_ :: more) groups ->
  marker begin = "begin" -> marker end_ = "end" ->
  NoneContains (match_text begin) (firstn (Z.to_nat (line begin - 2)) lines) ->
  exists body,
    write_minted_group a (g, begin :: end_ :: more) w
    = (minted_block a begin body, Ok tt)
    /\ StartsAtFirstNumber lines begin body
    /\ LineAfterMarker lines begin.
Proof.
  intros Ho Hg Hin Hb He Hpre.
  destruct (process_file_groups _ _ _ _ _ Hg) as [lines' [Ho' ->]].
  rewrite Ho in Ho'. injection Ho' as <-.
  assert (Hm : In begin (matches_of root name extension lines))
    by (apply (group_member _ _ _ _ _ _ _ Hin); now left).
  destruct (extract_after_record _ _ _ _ _ (match_text end_) Hm Hpre)
    as [body [Hx Hs]].
  exists body. split; [|split; [exact Hs | exact (line_after_marker _ _ _ _ _ Hm)]].
  apply write_minted_group_run with (lines := lines); try assumption.
  destruct (match_facts _ _ _ _ _ Hm)
    as [_ [_ [_ [_ [_ [_ [_ [_ [_ [Hp _]]]]]]]]]].
  now rewrite Hp.
Qed.

Lemma minted_firstnumber_example :
  exists body,
    write_minted_group sample_args
      ("in_ner", [sample_inner_begin; sample_inner_end]) (sample_world true)
    = (minted_block sample_args sample_inner_begin body, Ok tt)
    /\ StartsAtFirstNumber sample_source sample_inner_begin body
    /\ LineAfterMarker sample_source sample_inner_begin.
Proof.
  apply (minted_firstnumber sample_args (sample_world true) "./src" "a.c" ".c"
           sample_source [("in_ner", [sample_inner_begin; sample_inner_end])]).
  - reflexivity.
  - vm_compute. reflexivity.
  - left. reflexivity.
  - reflexivity.
  - reflexivity.
  - intros l Hl. apply find_neg_iff. vm_compute in Hl.
    destruct Hl as [<-|[<-|[]]]; vm_compute; reflexivity.
Defined.
End MintedClaims.

(** ** What validation does guarantee *)

Section Validation.
Import PyStr Spec Tags.

Lemma set_of_in (x : string) (l : list string) : In x (set_of l) -> In x l.
Proof.
  induction l as [|y ys IH]; simpl; [auto|].
  destruct (existsb (String.eqb y) ys).
  - intros H. right. now apply IH.
  - intros [<-|H]; [now left | right; now apply IH].
Qed.

Lemma set_of_nodup (l : list string) : NoDup (set_of l).
Proof.
  induction l as [|y ys IH]; simpl; [constructor|].
  destruct (existsb (String.eqb y) ys) eqn:E; [exact IH|].
  constructor; [|exact IH]. intros H. apply set_of_in in H.
  assert (Ht : existsb (String.eqb y) ys = true).
  { apply existsb_exists. exists y. split; [exact H | apply String.eqb_refl]. }
  congruence.
Qed.

Lemma two_distinct_markers (l : list string) :
  (forall x, In x l -> x = "begin" \/ x = "end") ->
  List.length (set_of l) = 2%nat ->
  In "begin" l /\ In "end" l.
Proof.
  intros Hall Hlen. pose proof (set_of_nodup l) as Hnd.
  destruct (set_of l) as [|x [|y [|z r]]] eqn:E; try discriminate.
  assert (Hx : In x l) by (apply set_of_in; rewrite E; now left).
  assert (Hy : In y l) by (apply set_of_in; rewrite E; right; now left).
  inversion Hnd as [|? ? Hni _]. subst.
  assert (Hxy : x <> y) by (intros ->; apply Hni; now left).
  destruct (Hall x Hx) as [->| ->], (Hall y Hy) as [->| ->];
    try (now elim Hxy); split; assumption.
Qed.

(** Every group [process_file] keeps holds a begin match and an end
    match; it may hold more than one of either. *)
Lemma retained_group_has_both (root name extension : string)
      (lines : list string) (g : string) (values : list MarkerMatch) :
  In (g, values) (validated (runs_of root name extension lines) []) ->
  In "begin" (map marker values) /\ In "end" (map marker values).
Proof.
  intros H. destruct (validated_in _ _ _ _ H) as [[]|[run [Hin [-> Hacc]]]].
  apply two_distinct_markers; [|now apply Nat.eqb_eq].
  intros x Hx. apply in_map_iff in Hx. destruct Hx as [d [<- Hd]].
  apply sort_by_line_in in Hd.
  pose proof (groupby_in _ _ _ _ _ Hin _ Hd) as Hm.
  destruct (match_facts _ _ _ _ _ Hm)
    as [_ [m [_ [_ [_ [_ [Hs [_ [_ [_ [Hmk _]]]]]]]]]]].
  rewrite Hmk. destruct (search_found _ _ Hs) as [_ [_ [_ [_ Hd']]]]. exact Hd'.
Qed.
End Validation.

(** * Further properties of the code *)

(** ** Stripping, dedenting *)

Section Stripping.
Import PyStr Spec Vocab.

Lemma rstrip_fixed (s : string) : rstrip (rstrip s) = rstrip s.
Proof.
  induction s as [|c r IH]; [reflexivity|].
  cbn [rstrip]. destruct (rstrip r) as [|d r'] eqn:E.
  - destruct (is_space c) eqn:Hc; [reflexivity|].
    cbn [rstrip]. now rewrite Hc.
  - cbn [rstrip]. cbn [rstrip] in IH. rewrite IH. reflexivity.
Qed.

Lemma rstrip_ends (s : string) : ends_with_space (rstrip s) = false.
Proof.
  induction s as [|c r IH]; [reflexivity|].
  cbn [rstrip]. destruct (rstrip r) as [|d r'] eqn:E.
  - destruct (is_space c) eqn:Hc; [reflexivity | exact Hc].
  - exact IH.
Qed.

Lemma drop_suffix (k : nat) (s : string) :
  exists cut, s = cut ++ drop k s
              /\ String.length cut = Nat.min k (String.length s).
Proof.
  revert s. induction k as [|k IH]; intros s.
  - exists EmptyString. split; [reflexivity | reflexivity].
  - destruct s as [|c t].
    + exists EmptyString. split; reflexivity.
    + destruct (IH t) as [cut [E L]]. exists (String c cut). split.
      * simpl. now rewrite <- E.
      * simpl. now rewrite L.
Qed.

(** X1.  What [line[args.dedent:]] keeps of a line.  The text written is
    always a suffix of the line; a dedent [d >= 0] removes the first [d]
    characters (all of them when the line is shorter), a negative dedent
    keeps the last [-d] characters only. *)
Theorem dedent_keeps_suffix (d : Z) (line : string) :
  exists cut,
    line = cut ++ slice_from d line
    /\ len cut = (if 0 <=? d then Z.min d (len line)
                  else Z.max (len line + d) 0).
Proof.
  unfold slice_from, len. destruct (0 <=? d) eqn:Hd.
  - apply Z.leb_le in Hd.
    destruct (drop_suffix (Z.to_nat d) line) as [cut [E L]].
    exists cut. split; [exact E|]. rewrite L. lia.
  - apply Z.leb_gt in Hd.
    destruct (drop_suffix
                (Z.to_nat (Z.max (Z.of_nat (String.length line) + d) 0)) line)
      as [cut [E L]].
    exists cut. split; [exact E|]. rewrite L. lia.
Qed.
End Stripping.

(** ** Rendering *)

Section RenderMore.
Import PyStr Spec Cli.

Lemma fold_write (f : string -> string) (extracted out : list string) :
  fold_left (fun o line => write o (f line)) extracted out
  = (out ++ map f extracted)%list.
Proof.
  revert out. induction extracted as [|x xs IH]; intros out; simpl.
  - now rewrite app_nil_r.
  - rewrite IH. unfold write. now rewrite <- app_assoc.
Qed.

Lemma render_with_env_map (a : args) (extracted outfile : list string)
      (c : ascii) (e : string) :
  latex_env a = Some (String c e) ->
  render a extracted outfile
  = ((outfile
        ++ [(("\begin{" ++ String c e ++ "}") ++ nl)%string]
        ++ map (fun line => (slice_from (dedent a) line ++ nl)%string) extracted
        ++ [(("\end{" ++ String c e ++ "}") ++ nl)%string])%list,
     Ok tt).
Proof.
  intros H. rewrite (render_with_env a extracted outfile c e H).
  rewrite fold_write. unfold write. f_equal.
  now rewrite <- !app_assoc.
Qed.

(** X2.  With an environment [E] configured, [render] succeeds and appends
    to the file, in this order, the line [\begin{E}], one line per
    extracted line (dedented, in order), and the line [\end{E}]; nothing
    else. *)
Theorem render_with_env_writes (a : args) (extracted outfile : list string)
        (c : ascii) (e : string) :
  latex_env a = Some (String c e) ->
  render a extracted outfile
  = ((outfile
        ++ [(("\begin{" ++ String c e ++ "}") ++ nl)%string]
        ++ map (fun line => (slice_from (dedent a) line ++ nl)%string) extracted
        ++ [(("\end{" ++ String c e ++ "}") ++ nl)%string])%list,
     Ok tt).
Proof.
  intros H. unfold render, get_header, render_footer. rewrite H.
  cbn [py_add]. rewrite fold_write. unfold write. f_equal.
  now rewrite <- !app_assoc.
Qed.

Lemma render_with_env_writes_witness :
  render {| latex_env := Some "verbatim"; dedent := 2; after_string := "";
            before_string := ""; start_line := 0; end_line := 0 |}
         ["  x = 1"; "  y"] []
  = (["\begin{verbatim}" ++ nl; "x = 1" ++ nl; "y" ++ nl; "\end{verbatim}" ++ nl],
     Ok tt).
Proof.
  apply (render_with_env_writes
           {| latex_env := Some "verbatim"; dedent := 2; after_string := "";
              before_string := ""; start_line := 0; end_line := 0 |}
           ["  x = 1"; "  y"] [] "v" "erbatim").
  reflexivity.
Defined.
End RenderMore.

(** ** The delimiter extractors, on every input *)

Section IterMore.
Context {A : Type} (p : A -> bool).

Lemma dropwhile_split (l : list A) :
  exists pre, l = (pre ++ Iter.dropwhile p l)%list
              /\ forall x, In x pre -> p x = true.
Proof.
  induction l as [|x xs [pre [E H]]]; simpl.
  - exists []. split; [reflexivity | intros x []].
  - destruct (p x) eqn:Hx.
    + exists (x :: pre). split; [simpl; now rewrite <- E|].
      intros y [<-|Hy]; [exact Hx | now apply H].
    + exists []. split; [reflexivity | intros y []].
Qed.

Lemma dropwhile_head (l : list A) (s : A) (r : list A) :
  Iter.dropwhile p l = s :: r -> p s = false.
Proof.
  induction l as [|x xs IH]; simpl; [discriminate|].
  destruct (p x) eqn:Hx; [exact IH|].
  intros H. injection H as <- _. exact Hx.
Qed.

Lemma takewhile_split (l : list A) :
  exists post,
    l = (Iter.takewhile p l ++ post)%list
    /\ (post = [] \/ exists e post', post = e :: post' /\ p e = false).
Proof.
  induction l as [|x xs [post [E H]]]; simpl.
  - exists []. split; [reflexivity | now left].
  - destruct (p x) eqn:Hx.
    + exists post. split; [simpl; now rewrite <- E | exact H].
    + exists (x :: xs). split; [reflexivity|]. right. now exists x, xs.
Qed.

Lemma takewhile_true (l : list A) (x : A) :
  In x (Iter.takewhile p l) -> p x = true /\ In x l.
Proof.
  induction l as [|y ys IH]; simpl; [intros []|].
  destruct (p y) eqn:Hy; [|intros []].
  intros [<-|H]; [split; [exact Hy | now left]|].
  destruct (IH H) as [H1 H2]. split; [exact H1 | now right].
Qed.

Lemma dropwhile_in (l : list A) (x : A) :
  In x (Iter.dropwhile p l) -> In x l.
Proof.
  induction l as [|y ys IH]; simpl; [intros []|].
  destruct (p y); [intros H; right; now apply IH | auto].
Qed.

Lemma dropwhile_absorb (q : A -> bool) (l : list A) :
  (forall x, p x = true -> q x = true) ->
  Iter.dropwhile q (Iter.dropwhile p l) = Iter.dropwhile q l.
Proof.
  intros H. induction l as [|y ys IH]; simpl; [reflexivity|].
  destruct (p y) eqn:Hy.
  - rewrite (H y Hy). exact IH.
  - reflexivity.
Qed.
End IterMore.

Section DelimitersMore.
Import PyStr Spec Vocab.

Lemma find_in_empty (ss : string) :
  ss <> EmptyString -> (find EmptyString ss <? 0) = true.
Proof. intros H. destruct ss; [contradiction | reflexivity]. Qed.

(** X3.  For an after string that is not empty the extractor of the tree
    scanner and the extractor of the single-file tool agree on every
    stream, in the lines they return and in the error they raise: the
    removal of leading blank lines changes nothing then. *)
Theorem extractors_agree (a : Cli.args) (infile : list string) :
  Cli.after_string a <> EmptyString ->
  Tags.extract_delimiters_simple infile (Cli.after_string a) (Cli.before_string a)
  = Cli.extract_delimiters_simple a infile.
Proof.
  intros Hne. unfold Tags.extract_delimiters_simple, Cli.extract_delimiters_simple.
  rewrite dropwhile_absorb; [reflexivity|].
  intros x Hx. apply len_zero in Hx. subst x. now apply find_in_empty.
Qed.

Lemma extractors_agree_witness :
  Tags.extract_delimiters_simple
    (with_newlines [""; "a"; "START"; "x"; "END"]) "START" "END"
  = Cli.extract_delimiters_simple
      {| Cli.latex_env := None; Cli.dedent := 0; Cli.after_string := "START";
         Cli.before_string := "END"; Cli.start_line := 0; Cli.end_line := 0 |}
      (with_newlines [""; "a"; "START"; "x"; "END"]).
Proof.
  apply (extractors_agree
           {| Cli.latex_env := None; Cli.dedent := 0; Cli.after_string := "START";
              Cli.before_string := "END"; Cli.start_line := 0; Cli.end_line := 0 |}).
  discriminate.
Defined.

Lemma cut_at_before (before : string) (rest : list string) :
  exists post,
    rest = (Iter.takewhile (fun text => find text before <? 0) rest ++ post)%list
    /\ (forall x, In x (Iter.takewhile (fun text => find text before <? 0) rest) ->
        ~ Substring before x)
    /\ (post = [] \/ exists e post', post = e :: post' /\ Substring before e).
Proof.
  destruct (takewhile_split (fun text => find text before <? 0) rest)
    as [post [E H]].
  exists post. split; [exact E|]. split.
  - intros x Hx. apply find_neg_iff. now apply (takewhile_true _ _ _ Hx).
  - destruct H as [->|[e [post' [-> He]]]]; [now left|].
    right. exists e, post'. split; [reflexivity | now apply find_nonneg_iff].
Qed.

(** X4.  Whenever a delimiter extractor returns, its result is a run of
    consecutive stripped lines of the stream that starts right after a
    line containing the after string; no line of the result contains the
    before string, and the result ends at the end of the stream or right
    before a line containing the before string.  In the single-file tool
    no line before the start line contains the after string. *)
Theorem delimiters_result_shape (a : Cli.args) (infile body : list string) :
  let after := Cli.after_string a in
  let before := Cli.before_string a in
  (Cli.extract_delimiters_simple a infile = Ok body ->
   exists pre s post,
     map rstrip infile = (pre ++ s :: body ++ post)%list
     /\ (forall x, In x pre -> ~ Substring after x)
     /\ Substring after s
     /\ (forall x, In x body -> ~ Substring before x)
     /\ (post = [] \/ exists e post', post = e :: post' /\ Substring before e))
  /\ (Tags.extract_delimiters_simple infile after before = Ok body ->
      exists pre s post,
        map rstrip infile = (pre ++ s :: body ++ post)%list
        /\ Substring after s
        /\ (forall x, In x body -> ~ Substring before x)
        /\ (post = [] \/ exists e post', post = e :: post' /\ Substring before e)).
Proof.
  intros after before. split.
  - unfold Cli.extract_delimiters_simple, Cli.find_wrapper. fold after before.
    destruct (dropwhile_split (fun text => find text after <? 0) (map rstrip infile))
      as [pre [E Hpre]].
    destruct (Iter.dropwhile (fun text => find text after <? 0) (map rstrip infile))
      as [|s rest] eqn:Hd; [discriminate|].
    cbn [Iter.next]. intros H. injection H as <-.
    destruct (cut_at_before before rest) as [post [Er [Hb Hp]]].
    exists pre, s, post. split; [rewrite E at 1; now rewrite <- Er|].
    split; [intros x Hx; apply find_neg_iff; now apply Hpre|].
    split; [apply find_nonneg_iff; exact (dropwhile_head _ _ _ _ Hd)|].
    split; assumption.
  - unfold Tags.extract_delimiters_simple, Tags.find_wrapper.
    destruct (dropwhile_split (fun text => len text =? 0) (map rstrip infile))
      as [pre1 [E1 _]].
    destruct (dropwhile_split (fun text => find text after <? 0)
                (Iter.dropwhile (fun text => len text =? 0) (map rstrip infile)))
      as [pre2 [E2 _]].
    destruct (Iter.dropwhile (fun text => find text after <? 0)
                (Iter.dropwhile (fun text => len text =? 0) (map rstrip infile)))
      as [|s rest] eqn:Hd; [discriminate|].
    cbn [Iter.next]. intros H. injection H as <-.
    destruct (cut_at_before before rest) as [post [Er [Hb Hp]]].
    exists (pre1 ++ pre2)%list, s, post.
    split; [rewrite E1 at 1; rewrite E2 at 1; rewrite <- Er; now rewrite app_assoc|].
    split; [apply find_nonneg_iff; exact (dropwhile_head _ _ _ _ Hd)|].
    split; assumption.
Qed.

Lemma delimiters_result_shape_witness :
  let a := {| Cli.latex_env := None; Cli.dedent := 0; Cli.after_string := "START";
              Cli.before_string := "END"; Cli.start_line := 0; Cli.end_line := 0 |} in
  let infile := with_newlines ["a"; "START"; "x"; "y"; "END"; "z"] in
  (exists pre s post,
      map rstrip infile = (pre ++ s :: ["x"; "y"] ++ post)%list
      /\ (forall x, In x pre -> ~ Substring "START" x)
      /\ Substring "START" s
      /\ (forall x, In x ["x"; "y"] -> ~ Substring "END" x)
      /\ (post = [] \/ exists e post', post = e :: post' /\ Substring "END" e))
  /\ (exists pre s post,
         map rstrip infile = (pre ++ s :: ["x"; "y"] ++ post)%list
         /\ Substring "START" s
         /\ (forall x, In x ["x"; "y"] -> ~ Substring "END" x)
         /\ (post = [] \/ exists e post', post = e :: post' /\ Substring "END" e)).
Proof.
  intros a infile.
  destruct (delimiters_result_shape a infile ["x"; "y"]) as [H1 H2].
  split; [apply H1; reflexivity | apply H2; reflexivity].
Defined.

Lemma next_takewhile_in (p q : string -> bool) (l body : list string) (x : string) :
  match Iter.next (Iter.dropwhile p l) with
  | Raise e => Raise e
  | Ok (_, rest) => Ok (Iter.takewhile q rest)
  end = Ok body ->
  In x body -> In x l.
Proof.
  destruct (Iter.dropwhile p l) as [|s rest] eqn:E; [discriminate|].
  cbn [Iter.next]. intros H Hx. injection H as <-.
  apply (dropwhile_in p). rewrite E. right.
  exact (proj2 (takewhile_true q rest x Hx)).
Qed.

(** X5.  No line that an extraction function returns ends in a whitespace
    character (so none carries its line terminator), whichever of the
    three functions it is. *)
Theorem extracted_lines_are_stripped (a : Cli.args) (infile : list string)
        (after before : string) (x : string) :
  (In x (Cli.extract_line_range a infile) -> ends_with_space x = false)
  /\ (forall body, Cli.extract_delimiters_simple a infile = Ok body ->
                   In x body -> ends_with_space x = false)
  /\ (forall body, Tags.extract_delimiters_simple infile after before = Ok body ->
                   In x body -> ends_with_space x = false).
Proof.
  assert (Hs : forall l, In x (map rstrip l) -> ends_with_space x = false).
  { intros l H. apply in_map_iff in H. destruct H as [y [<- _]]. apply rstrip_ends. }
  split; [|split].
  - rewrite extract_line_range_spec. apply Hs.
  - intros body H Hx. apply (Hs infile).
    exact (next_takewhile_in _ _ _ _ _ H Hx).
  - intros body H Hx. apply (Hs infile).
    apply (dropwhile_in (fun text => len text =? 0)).
    exact (next_takewhile_in _ _ _ _ _ H Hx).
Qed.

Lemma extracted_lines_are_stripped_witness :
  let a := {| Cli.latex_env := None; Cli.dedent := 0; Cli.after_string := "START";
              Cli.before_string := "END"; Cli.start_line := 2; Cli.end_line := 4 |} in
  let infile := with_newlines ["a"; "START"; "x  "; "END"] in
  ends_with_space "x" = false /\ ends_with_space "x" = false
  /\ ends_with_space "x" = false.
Proof.
  intros a infile.
  destruct (extracted_lines_are_stripped a infile "START" "END" "x") as [H1 [H2 H3]].
  split; [|split].
  - apply H1. vm_compute. right. now left.
  - apply (H2 ["x"]); [reflexivity | now left].
  - apply (H3 ["x"]); [reflexivity | now left].
Defined.
End DelimitersMore.

(** ** The name of the snippet file *)

Section FileName.
Import PyStr Spec Vocab CliMain.

Lemma split_char_cons (sep : ascii) (s : string) :
  exists w ws, split_char sep s = w :: ws.
Proof.
  destruct s as [|c t]; simpl; [now exists EmptyString, []|].
  destruct (Ascii.eqb c sep); [now eexists; eexists|].
  destruct (split_char sep t); now eexists; eexists.
Qed.

Lemma str_app_nil_r (s : string) : s ++ EmptyString = s.
Proof. induction s as [|c s IH]; simpl; [reflexivity | now rewrite IH]. Qed.

Lemma join_cons (sep x y : string) (l : list string) :
  join sep (x :: y :: l) = x ++ sep ++ join sep (y :: l).
Proof. reflexivity. Qed.

Lemma join_snoc (sep y x : string) (l : list string) :
  join sep ((x :: l) ++ [y]) = join sep (x :: l) ++ sep ++ y.
Proof.
  revert x. induction l as [|z l IH]; intros x; [reflexivity|].
  change (join sep ((x :: z :: l) ++ [y]))
    with (x ++ sep ++ join sep ((z :: l) ++ [y])).
  rewrite IH. rewrite join_cons. now rewrite !str_app_assoc.
Qed.

(** ["-".join(s.split("/"))] is [s] with every slash turned into a
    hyphen. *)
Lemma join_split (s : string) :
  join "-" (split_char "/" s) = subst_char "/" "-" s.
Proof.
  induction s as [|c t IH]; [reflexivity|].
  cbn [split_char subst_char]. destruct (Ascii.eqb c "/") eqn:E.
  - destruct (split_char_cons "/" t) as [w [ws Hw]]. rewrite Hw in *.
    rewrite join_cons. rewrite IH. reflexivity.
  - destruct (split_char_cons "/" t) as [w [ws Hw]]. rewrite Hw in *.
    rewrite <- IH. destruct ws; reflexivity.
Qed.

Lemma has_char_subst (c a b : ascii) (s : string) :
  c <> b -> has_char c s = false -> has_char c (subst_char a b s) = false.
Proof.
  intros Hcb. induction s as [|d t IH]; simpl; [reflexivity|].
  intros H. apply orb_false_iff in H. destruct H as [H1 H2].
  rewrite (IH H2), orb_false_r.
  destruct (Ascii.eqb d a); [|exact H1].
  apply Ascii.eqb_neq. congruence.
Qed.

(** The closed form of [get_filename]. *)
Lemma get_filename_eq (n : namespace) :
  get_filename n
  = subst_char ":" "-"
      (subst_char "." "-"
         (subst_char "_" "-"
            (snip_prefix n ++ "-" ++ subst_char "/" "-" (path n)
               ++ match name_given n with
                  | Some nm => "-" ++ nm
                  | None => EmptyString
                  end)))
    ++ "." ++ snip_extension n.
Proof.
  unfold get_filename. rewrite !replace_char.
  cbn [join]. do 4 f_equal.
  destruct (split_char_cons "/" (path n)) as [w [ws Hw]].
  pose proof (join_split (path n)) as Hj. rewrite Hw in *.
  destruct (name_given n) as [nm|].
  - change (snip_prefix n :: w :: ws)%list with (snip_prefix n :: (w :: ws))%list.
    change ((snip_prefix n :: w :: ws) ++ [nm])%list
      with (snip_prefix n :: ((w :: ws) ++ [nm]))%list.
    destruct ((w :: ws) ++ [nm])%list as [|z zs] eqn:Ez; [discriminate|].
    rewrite join_cons. rewrite <- Ez. rewrite join_snoc. now rewrite Hj.
  - rewrite join_cons. rewrite Hj. now rewrite str_app_nil_r.
Qed.
End FileName.

Section FileNameClaims.
Import PyStr Spec Vocab CliMain.

Lemma subst_char_length (a b : ascii) (s : string) :
  String.length (subst_char a b s) = String.length s.
Proof. induction s as [|c t IH]; simpl; [reflexivity | now rewrite IH]. Qed.

(** X8.  The snippet file name is [base.extension]; [base] is as long as
    the prefix, the path and the name (when one is given) joined by
    hyphens, and holds no underscore, no period and no colon; it holds a
    slash only if the prefix or the name does, the slashes of the path
    having become hyphens. *)
Theorem get_filename_charset (n : namespace) :
  exists base,
    get_filename n = base ++ "." ++ snip_extension n
    /\ len base = len (snip_prefix n) + 1 + len (path n)
                  + match name_given n with
                    | Some nm => 1 + len nm
                    | None => 0
                    end
    /\ has_char "_" base = false
    /\ has_char "." base = false
    /\ has_char ":" base = false
    /\ (has_char "/" (snip_prefix n) = false ->
        (forall nm, name_given n = Some nm -> has_char "/" nm = false) ->
        has_char "/" base = false).
Proof.
  rewrite get_filename_eq. eexists. split; [reflexivity|].
  split; [|split; [|split; [|split]]].
  - unfold len. rewrite !subst_char_length, !str_app_length, subst_char_length.
    destruct (name_given n); rewrite ?str_app_length; cbn [String.length]; lia.
  - apply has_char_subst; [discriminate|].
    apply has_char_subst; [discriminate|].
    apply subst_removes. discriminate.
  - apply has_char_subst; [discriminate|]. apply subst_removes. discriminate.
  - apply subst_removes. discriminate.
  - intros Hp Hn. do 3 (apply has_char_subst; [discriminate|]).
    rewrite !has_char_app, Hp. rewrite subst_removes by discriminate.
    destruct (name_given n) as [nm|]; [|reflexivity].
    rewrite has_char_app. now rewrite (Hn nm eq_refl).
Qed.

Lemma get_filename_charset_witness :
  exists base,
    get_filename (sample_namespace None None false) = base ++ "." ++ "tex"
    /\ has_char "/" base = false.
Proof.
  destruct (get_filename_charset (sample_namespace None None false))
    as [base [E [_ [_ [_ [_ H]]]]]].
  exists base. split; [exact E|].
  apply H; [reflexivity | intros nm Hnm; discriminate].
Defined.
End FileNameClaims.

(** ** [main] of the single-file tool *)

Section Main.
Import PyStr Spec Vocab CliMain.

(** X9.  [main] fails before it touches any output when the source file
    cannot be opened, and when the subcommand is [delimiters] and no line
    of the file contains the after string: the run is the opening of the
    source file, followed by [FileNotFoundError] or [StopIteration]. *)
Theorem main_fails_before_output (n : namespace)
        (w : string -> option (list string)) :
  let full_path := OsPath.join (dir n) (path n) in
  (forall extract, commands_get (command n) = Some extract -> w full_path = None ->
                   main n w = ([EOpenRead full_path], Raise FileNotFoundError))
  /\ (forall infile,
         command n = Some "delimiters" -> w full_path = Some infile ->
         NoneContains (Cli.after_string (base n)) infile ->
         main n w = ([EOpenRead full_path], Raise StopIteration)).
Proof.
  intros full_path. split.
  - intros extract Hc Hw. unfold main. rewrite Hc. fold full_path. now rewrite Hw.
  - intros infile Hc Hw Hn. unfold main. rewrite Hc. cbn [commands_get String.eqb
      Ascii.eqb Bool.eqb]. fold full_path. rewrite Hw.
    rewrite cli_extractor_eq. now rewrite cli_missing.
Qed.

Lemma main_fails_before_output_witness :
  main (sample_namespace (Some "lines") (Some "v") false) (fun _ => None)
  = ([EOpenRead "./a/b_c.py"], Raise FileNotFoundError)
  /\ main (sample_namespace (Some "delimiters") (Some "v") false)
          (fun _ => Some (with_newlines ["a"; "b"]))
     = ([EOpenRead "./a/b_c.py"], Raise StopIteration).
Proof.
  split.
  - apply (proj1 (main_fails_before_output
                    (sample_namespace (Some "lines") (Some "v") false)
                    (fun _ => None))
                 (fun a infile => Ok (Cli.extract_line_range a infile)));
      reflexivity.
  - apply (proj2 (main_fails_before_output
                    (sample_namespace (Some "delimiters") (Some "v") false)
                    (fun _ => Some (with_newlines ["a"; "b"])))
                 (with_newlines ["a"; "b"])); try reflexivity.
    apply none_contains_cons; [vm_compute; reflexivity|].
    apply none_contains_cons; [vm_compute; reflexivity|].
    apply none_contains_nil.
Defined.

(** X10.  Without [--latex-env] (or with an empty one) a run of [main] whose
    extraction succeeds always ends in [TypeError] and writes nothing;
    unless [--stdout] is given it has by then opened the snippet file for
    writing, which is left empty. *)
Theorem main_without_env (n : namespace) (w : string -> option (list string))
        (extract : extract_fn) (infile extracted : list string) :
  commands_get (command n) = Some extract ->
  w (OsPath.join (dir n) (path n)) = Some infile ->
  extract (base n) infile = Ok extracted ->
  Cli.latex_env (base n) = None \/ Cli.latex_env (base n) = Some EmptyString ->
  main n w
  = (EOpenRead (OsPath.join (dir n) (path n))
       :: (if stdout n then [] else [EOpenWrite (get_filename n)]),
     Raise TypeError).
Proof.
  intros Hc Hw He Henv. unfold main. rewrite Hc, Hw, He.
  rewrite (render_without_env _ _ _ Henv). now destruct (stdout n).
Qed.

Lemma main_without_env_witness :
  main (sample_namespace (Some "lines") None false) sample_input
  = ([EOpenRead "./a/b_c.py"; EOpenWrite "snip-a-b-c-py.tex"], Raise TypeError).
Proof.
  apply (main_without_env (sample_namespace (Some "lines") None false) sample_input
           (fun a infile => Ok (Cli.extract_line_range a infile))
           (with_newlines ["# START"; "  x = 1  "; "  y = 2"; "# END"; "z"])
           ["  x = 1"; "  y = 2"]).
  - reflexivity.
  - reflexivity.
  - reflexivity.
  - now left.
Defined.

(** X11.  With the subcommand [lines], an environment [E] and a readable
    source file, [main] succeeds; it writes, to standard output or to the
    snippet file it opened, the line [\begin{E}], then the stripped and
    dedented lines numbered [n] with [start_line <= n < end_line] in
    order, then the line [\end{E}]. *)
Theorem main_lines (n : namespace) (w : string -> option (list string))
        (infile : list string) (c : ascii) (e : string) :
  command n = Some "lines" ->
  w (OsPath.join (dir n) (path n)) = Some infile ->
  Cli.latex_env (base n) = Some (String c e) ->
  let a := base n in
  let target := if stdout n then None else Some (get_filename n) in
  let body :=
    map rstrip
        (numbered_where
           (from_start_below_end (Cli.start_line a) (Cli.end_line a)) infile) in
  main n w
  = ((EOpenRead (OsPath.join (dir n) (path n))
        :: (if stdout n then [] else [EOpenWrite (get_filename n)]))
       ++ map (EWrite target)
            ([(("\begin{" ++ String c e ++ "}") ++ nl)%string]
               ++ map (fun line => (slice_from (Cli.dedent a) line ++ nl)%string) body
               ++ [(("\end{" ++ String c e ++ "}") ++ nl)%string]),
     Ok tt)%list.
Proof.
  intros Hc Hw Henv a target body. unfold main. rewrite Hc.
  cbn [commands_get String.eqb Ascii.eqb Bool.eqb]. rewrite Hw.
  rewrite (render_with_env_map _ _ _ c e Henv).
  rewrite extract_line_range_spec. fold a body.
  unfold target. destruct (stdout n); reflexivity.
Qed.

Lemma main_lines_witness :
  main (sample_namespace (Some "lines") (Some "verbatim") true) sample_input
  = ([EOpenRead "./a/b_c.py";
      EWrite None ("\begin{verbatim}" ++ nl);
      EWrite None ("x = 1" ++ nl);
      EWrite None ("y = 2" ++ nl);
      EWrite None ("\end{verbatim}" ++ nl)],
     Ok tt).
Proof.
  apply (main_lines (sample_namespace (Some "lines") (Some "verbatim") true)
           sample_input
           (with_newlines ["# START"; "  x = 1  "; "  y = 2"; "# END"; "z"])
           "v" "erbatim"); reflexivity.
Defined.
End Main.

(** ** The pattern, completely *)

Section PatternMore.
Import PyStr Spec Vocab Tags.

Lemma span_all (p : ascii -> bool) (s run rest : string) :
  span p s = (run, rest) -> all_chars p run = true.
Proof.
  revert run rest. induction s as [|c t IH]; intros run rest H; simpl in H.
  - now injection H as <- <-.
  - destruct (p c) eqn:Hc.
    + destruct (span p t) as [run' rest'] eqn:E. injection H as <- <-.
      simpl. rewrite Hc. exact (IH _ _ eq_refl).
    + now injection H as <- <-.
Qed.

Lemma span_run (p : ascii -> bool) (run : string) (c : ascii) (rest : string) :
  all_chars p run = true -> p c = false ->
  span p (run ++ String c rest) = (run, String c rest).
Proof.
  intros Hr Hc. induction run as [|d run IH]; simpl.
  - now rewrite Hc.
  - simpl in Hr. apply andb_true_iff in Hr. destruct Hr as [Hd Hr].
    rewrite Hd. now rewrite (IH Hr).
Qed.

Lemma eat_app (lit s : string) : eat lit (lit ++ s) = Some s.
Proof. unfold eat. now rewrite prefix_app, drop_app. Qed.

Lemma match_here_wellformed (s : string) (g : groupdict) (n : nat) :
  match_here s = Some (g, n) -> WellFormed g.
Proof.
  unfold match_here.
  destruct (eat "{{" s) as [s1|]; [|discriminate].
  destruct (span is_word s1) as [bk s2] eqn:E2.
  destruct bk as [|b0 bk]; [discriminate|].
  destruct (eat ":" s2) as [s3|]; [|discriminate].
  destruct (span is_tag_char s3) as [tg s4] eqn:E4.
  destruct tg as [|t0 tg]; [discriminate|].
  destruct (eat ":" s4) as [s5|]; [|discriminate].
  apply span_all in E2. apply span_all in E4.
  destruct (closed_by "begin" s5).
  - intros H. injection H as <- _. unfold WellFormed. cbn [g_book g_tag g_marker].
    repeat split; try discriminate; try assumption. now left.
  - destruct (closed_by "end" s5); [|discriminate].
    intros H. injection H as <- _. unfold WellFormed. cbn [g_book g_tag g_marker].
    repeat split; try discriminate; try assumption. now right.
Qed.

Lemma search_from_wellformed (s : string) (i : nat) (m : re_match) :
  search_from i s = Some m -> WellFormed (m_groups m).
Proof.
  revert i. induction s as [|c t IH]; intros i H; cbn [search_from] in H.
  - destruct (match_here EmptyString) as [[g n]|] eqn:E; [|discriminate].
    injection H as <-. exact (match_here_wellformed _ _ _ E).
  - destruct (match_here (String c t)) as [[g n]|] eqn:E.
    + injection H as <-. exact (match_here_wellformed _ _ _ E).
    + exact (IH _ H).
Qed.

Lemma closed_by_app (word rest : string) :
  closed_by word (word ++ "}}" ++ rest) = true.
Proof. unfold closed_by. now rewrite eat_app, eat_app. Qed.

(** The pattern matches the text of every well-formed marker. *)
Lemma match_here_marker (g : groupdict) (rest : string) :
  WellFormed g ->
  match_here (marker_text g ++ rest)
  = Some (g, String.length (marker_text g)).
Proof.
  destruct g as [bk tg mk]. unfold WellFormed. cbn [g_book g_tag g_marker].
  intros [Hb [Hbw [Ht [Htw Hm]]]].
  assert (E : marker_text {| g_book := bk; g_tag := tg; g_marker := mk |} ++ rest
              = "{{" ++ bk ++ String ":" (tg ++ String ":" (mk ++ "}}" ++ rest))).
  { unfold marker_text. cbn [g_book g_tag g_marker].
    now rewrite !str_app_assoc. }
  rewrite E. unfold match_here. rewrite eat_app.
  rewrite (span_run is_word bk ":" _ Hbw eq_refl).
  destruct bk as [|b0 bk]; [contradiction|].
  change (eat ":" (String ":" (tg ++ String ":" (mk ++ "}}" ++ rest))))
    with (eat ":" (":" ++ tg ++ String ":" (mk ++ "}}" ++ rest))).
  rewrite eat_app.
  rewrite (span_run is_tag_char tg ":" _ Htw eq_refl).
  destruct tg as [|t0 tg]; [contradiction|].
  change (eat ":" (String ":" (mk ++ "}}" ++ rest)))
    with (eat ":" (":" ++ mk ++ "}}" ++ rest)).
  rewrite eat_app.
  assert (L : forall m,
             (2 + String.length (String b0 bk) + 1 + String.length (String t0 tg)
              + 1 + String.length m + 2)%nat
             = String.length
                 (marker_text {| g_book := String b0 bk; g_tag := String t0 tg;
                                 g_marker := m |})).
  { intros m. unfold marker_text. cbn [g_book g_tag g_marker].
    repeat rewrite str_app_length. simpl. lia. }
  destruct Hm as [-> | ->].
  - rewrite closed_by_app. now rewrite (L "begin").
  - assert (Hb' : closed_by "begin" ("end" ++ "}}" ++ rest) = false) by reflexivity.
    rewrite Hb', closed_by_app. now rewrite (L "end").
Qed.

Lemma search_from_finds (g : groupdict) (pre rest : string) (i : nat) :
  WellFormed g ->
  exists m,
    search_from i (pre ++ marker_text g ++ rest) = Some m
    /\ (i <= m_start m <= i + String.length pre)%nat
    /\ (m_start m = (i + String.length pre)%nat -> m_groups m = g).
Proof.
  intros Hg. revert i. induction pre as [|c pre IH]; intros i.
  - cbn [append]. destruct (marker_text g ++ rest) as [|c t] eqn:E.
    + unfold marker_text in E. discriminate.
    + rewrite <- E. pose proof (match_here_marker g rest Hg) as Hm.
      rewrite E in Hm |- *. cbn [search_from]. rewrite Hm.
      eexists. split; [reflexivity|]. cbn [m_start m_groups String.length].
      split; [lia | reflexivity].
  - cbn [append search_from].
    destruct (match_here (String c (pre ++ marker_text g ++ rest)))
      as [[g' n]|] eqn:E.
    + eexists. split; [reflexivity|]. cbn [m_start m_groups String.length].
      split; [lia | intros H; lia].
    + destruct (IH (S i)) as [m [Hs [Hr Hq]]]. exists m.
      split; [exact Hs|]. cbn [String.length]. split; [lia|].
      intros H. apply Hq. lia.
Qed.

(** X12.  [search] finds a match in a line exactly when the line contains
    the text of a well-formed marker: a non-empty book of word
    characters, a non-empty tag of word characters, apostrophes and
    hyphens, and [begin] or [end], between double braces and separated by
    colons.  The match reported is a well-formed marker of the line, not
    to the right of any other, and the reported offsets delimit its
    text. *)
Theorem search_finds_exactly_markers (text : string) :
  (forall m, search text = Some m ->
             WellFormed (m_groups m)
             /\ slice (m_start m) (m_end m) text = marker_text (m_groups m)
             /\ exists pre rest,
                 text = pre ++ marker_text (m_groups m) ++ rest
                 /\ m_start m = String.length pre)
  /\ (forall g pre rest,
         WellFormed g -> text = pre ++ marker_text g ++ rest ->
         exists m, search text = Some m
                   /\ (m_start m <= String.length pre)%nat
                   /\ (m_start m = String.length pre -> m_groups m = g)).
Proof.
  split.
  - intros m H. split; [exact (search_from_wellformed _ _ _ H)|].
    destruct (search_found _ _ H) as [_ [_ [_ [Hs _]]]]. split; [exact Hs|].
    destruct (search_from_split _ _ _ H) as [[pre [rest [E Hst]]] _].
    exists pre, rest. split; [exact E | exact Hst].
  - intros g pre rest Hg ->.
    destruct (search_from_finds g pre rest 0 Hg) as [m [Hs [Hr Hq]]].
    exists m. split; [exact Hs|]. split; [lia | exact Hq].
Qed.

Lemma search_finds_exactly_markers_witness :
  exists m, search "x {{bk:my-tag:end}} y" = Some m
            /\ (m_start m <= 2)%nat
            /\ (m_start m = 2%nat ->
                m_groups m = {| g_book := "bk"; g_tag := "my-tag"; g_marker := "end" |}).
Proof.
  apply (proj2 (search_finds_exactly_markers "x {{bk:my-tag:end}} y")
               {| g_book := "bk"; g_tag := "my-tag"; g_marker := "end" |}
               "x " " y").
  - unfold WellFormed. cbn [g_book g_tag g_marker].
    repeat split; try discriminate; try reflexivity. now right.
  - reflexivity.
Defined.
End PatternMore.

(** ** The records, field by field *)

Section RecordFields.
Import PyStr Spec Vocab Tags.

Lemma record_origin (root name extension : string) (lines : list string)
      (d : MarkerMatch) :
  In d (matches_of root name extension lines) ->
  exists i m pre rest,
    d = make_doc (OsPath.join root name) root name extension
          {| number := 1 + Z.of_nat i; text := mtext d |} m
    /\ search (mtext d) = Some m
    /\ mtext d = pre ++ marker_text (m_groups m) ++ rest
    /\ m_start m = String.length pre
    /\ m_end m = (m_start m + String.length (marker_text (m_groups m)))%nat.
Proof.
  intros H. unfold matches_of, line_reader in H.
  destruct (collect_in _ _ _ _ _ _ _ H) as [i [m [_ [Hs Hd]]]].
  destruct (search_from_split _ _ _ Hs) as [[pre [rest [E Hst]]] [He _]].
  exists i, m, pre, rest. repeat split; assumption.
Qed.

Lemma marker_text_braces (g : groupdict) :
  marker_text g = "{{" ++ (g_book g ++ ":" ++ g_tag g ++ ":" ++ g_marker g) ++ "}}".
Proof. unfold marker_text. now rewrite !str_app_assoc. Qed.

Lemma record_fields_of_file (root name extension : string) (lines : list string)
      (d : MarkerMatch) :
  In d (matches_of root name extension lines) ->
  FieldsConsistent root name extension d.
Proof.
  intros H.
  destruct (record_origin _ _ _ _ _ H) as [i [m [pre [rest [Hd [Hs [Ht [Hst He]]]]]]]].
  pose proof (search_from_wellformed _ _ _ Hs) as Hw.
  set (F := g_book (m_groups m) ++ ":" ++ g_tag (m_groups m) ++ ":"
            ++ g_marker (m_groups m)) in *.
  pose proof (marker_text_braces (m_groups m)) as Hb. fold F in Hb.
  assert (HL : String.length (marker_text (m_groups m))
               = (String.length F + 4)%nat).
  { rewrite Hb, !str_app_length. simpl. lia. }
  assert (Hfq : slice (m_start m + 2) (m_end m - 2) (mtext d) = F).
  { unfold slice. rewrite He, Hst, HL.
    replace (String.length pre + (String.length F + 4) - 2
             - (String.length pre + 2))%nat
      with (String.length F) by lia.
    replace (String.length pre + 2)%nat
      with (String.length (pre ++ "{{")) by (rewrite str_app_length; simpl; lia).
    rewrite Ht, Hb.
    replace (pre ++ ("{{" ++ F ++ "}}") ++ rest)
      with ((pre ++ "{{") ++ F ++ ("}}" ++ rest))
      by now rewrite !str_app_assoc.
    apply substring_mid. }
  assert (Hmt : slice (m_start m) (m_end m) (mtext d) = marker_text (m_groups m)).
  { destruct (search_found _ _ Hs) as [_ [_ [_ [Hx _]]]]. exact Hx. }
  assert (Hlen : (m_end m <= String.length (mtext d))%nat).
  { rewrite He, Hst, Ht. rewrite !str_app_length. lia. }
  unfold FieldsConsistent, fields_of, len.
  rewrite Hd. cbn [Tags.book Tags.tag Tags.marker Tags.fq_tag Tags.match_text
                   Tags.match_start Tags.match_end Tags.mtext Tags.path
                   Tags.root Tags.name Tags.language make_doc Tags.text].
  rewrite !Nat2Z.id, Hfq, Hmt.
  split; [destruct (m_groups m); exact Hw|].
  split; [reflexivity|]. split; [exact Hb|]. split; [lia|].
  split; [rewrite He; lia|]. split; [lia|].
  repeat split; reflexivity.
Qed.

(** X13.  In every record the scanner builds, the captured fields are those
    of a well-formed marker, [fq_tag] is [book:tag:marker], [match_text]
    is [fq_tag] between double braces and is the part of the line from
    [match_start] to [match_end], which lie within the line; [path] is the
    root joined with the name and [language] the extension without its
    first character.  This holds for the records of the groups
    [process_file] returns too. *)
Theorem record_fields_consistent (root name extension : string) (d : MarkerMatch) :
  (forall lines, In d (matches_of root name extension lines) ->
                 FieldsConsistent root name extension d)
  /\ (forall w groups g values,
         snd (process_file root name extension w) = Ok groups ->
         In (g, values) groups -> In d values ->
         FieldsConsistent root name extension d /\ tag d = g).
Proof.
  assert (H1 : forall lines, In d (matches_of root name extension lines) ->
                             FieldsConsistent root name extension d)
    by (intros lines; apply record_fields_of_file).
  split; [exact H1|].
  intros w groups g values Hg Hin Hd.
  destruct (process_file_groups _ _ _ _ _ Hg) as [lines [_ ->]].
  split; [apply (H1 lines); exact (group_member _ _ _ _ _ _ _ Hin Hd)|].
  destruct (validated_in _ _ _ _ Hin) as [[]|[run [Hr [-> _]]]].
  apply sort_by_line_in in Hd.
  clear - Hr Hd. unfold runs_of in Hr.
  revert g run Hr Hd.
  induction (matches_of root name extension lines) as [|y ys IH];
    intros g run Hr Hd; [contradiction|].
  cbn [Iter.groupby] in Hr.
  destruct (Iter.groupby String.eqb tag ys) as [|[k' run'] gs] eqn:E.
  - destruct Hr as [Hr|[]]. injection Hr as <- <-.
    destruct Hd as [<-|[]]. reflexivity.
  - destruct (String.eqb (tag y) k') eqn:Hk.
    + destruct Hr as [Hr|Hr].
      * injection Hr as <- <-. destruct Hd as [<-|Hd].
        -- now apply String.eqb_eq.
        -- apply (IH k' run'); [now left | exact Hd].
      * apply (IH g run); [now right | exact Hd].
    + destruct Hr as [Hr|Hr].
      * injection Hr as <- <-. destruct Hd as [<-|[]]. reflexivity.
      * apply (IH g run); assumption.
Qed.

Lemma record_fields_consistent_witness :
  FieldsConsistent "./src" "a.c" ".c" sample_outer_begin
  /\ (FieldsConsistent "./src" "a.c" ".c" sample_inner_end
      /\ tag sample_inner_end = "in_ner").
Proof.
  split.
  - apply (proj1 (record_fields_consistent "./src" "a.c" ".c" sample_outer_begin)
                 sample_source).
    vm_compute. left. reflexivity.
  - apply (proj2 (record_fields_consistent "./src" "a.c" ".c" sample_inner_end)
                 (sample_world true)
                 [("in_ner", [sample_inner_begin; sample_inner_end])]
                 "in_ner" [sample_inner_begin; sample_inner_end]).
    + vm_compute. reflexivity.
    + left. reflexivity.
    + right. left. reflexivity.
Defined.
End RecordFields.

(** ** The groups of a file *)

Section Groups.
Import PyStr Spec Vocab Tags.

Lemma collect_increasing (path root name extension : string)
      (lines : list string) (n : Z) :
  (forall d, In d (collect path root name extension (lines_from n lines)) ->
             n < line d)
  /\ lines_increase (collect path root name extension (lines_from n lines)).
Proof.
  revert n. induction lines as [|l more IH]; intros n.
  - split; [intros d [] | exact I].
  - destruct (IH (n + 1)) as [Hlow Hinc].
    cbn [lines_from collect text]. destruct (search l) as [m|].
    + split.
      * intros d [<-|Hd]; [cbn [line make_doc number]; lia|].
        specialize (Hlow d Hd). lia.
      * cbn [lines_increase]. split; [|exact Hinc].
        intros y Hy. specialize (Hlow y Hy). cbn [line make_doc number]. lia.
    + split; [|exact Hinc]. intros d Hd. specialize (Hlow d Hd). lia.
Qed.

Lemma groupby_concat {A K : Type} (keq : K -> K -> bool) (key : A -> K)
      (l : list A) :
  concat (map snd (Iter.groupby keq key l)) = l.
Proof.
  induction l as [|x xs IH]; [reflexivity|].
  cbn [Iter.groupby]. destruct (Iter.groupby keq key xs) as [|[k run] gs].
  - simpl in *. now rewrite <- IH.
  - destruct (keq (key x) k); simpl in *; now rewrite <- IH.
Qed.

(** A run that [groupby] yields is a stretch of consecutive elements. *)
Lemma groupby_run {A K : Type} (keq : K -> K -> bool) (key : A -> K)
      (l : list A) (k : K) (run : list A) :
  In (k, run) (Iter.groupby keq key l) ->
  exists pre post, l = (pre ++ run ++ post)%list.
Proof.
  intros H. apply in_split in H. destruct H as [g1 [g2 E]].
  exists (concat (map snd g1)), (concat (map snd g2)).
  rewrite <- (groupby_concat keq key l) at 1. rewrite E.
  rewrite map_app, concat_app. reflexivity.
Qed.

Lemma lines_increase_app (l1 l2 : list MarkerMatch) :
  lines_increase (l1 ++ l2) -> lines_increase l1 /\ lines_increase l2.
Proof.
  induction l1 as [|x xs IH]; simpl; [auto|].
  intros [Hx Hr]. destruct (IH Hr) as [H1 H2]. repeat split; try assumption.
  intros y Hy. apply Hx. apply in_or_app. now left.
Qed.

Lemma sort_by_line_sorted (l : list MarkerMatch) :
  lines_increase l -> sort_by_line l = l.
Proof.
  induction l as [|x xs IH]; [reflexivity|].
  intros [Hx Hr]. cbn [sort_by_line fold_right].
  change (fold_right insert_by_line [] xs) with (sort_by_line xs).
  rewrite (IH Hr). destruct xs as [|y ys]; [reflexivity|].
  cbn [insert_by_line].
  assert (H : (line x <=? line y) = true)
    by (apply Z.leb_le; specialize (Hx y (or_introl eq_refl)); lia).
  now rewrite H.
Qed.

Lemma run_of_file (root name extension : string) (lines : list string)
      (g : string) (run : list MarkerMatch) :
  In (g, run) (runs_of root name extension lines) ->
  lines_increase run
  /\ exists pre post, matches_of root name extension lines = (pre ++ run ++ post)%list.
Proof.
  intros H. destruct (groupby_run _ _ _ _ _ H) as [pre [post E]].
  split; [|now exists pre, post].
  pose proof (proj2 (collect_increasing (OsPath.join root name) root name
                       extension lines 1)) as Hinc.
  change (collect (OsPath.join root name) root name extension (lines_from 1 lines))
    with (matches_of root name extension lines) in Hinc.
  rewrite E in Hinc.
  apply lines_increase_app in Hinc. destruct Hinc as [_ Hinc].
  now apply lines_increase_app in Hinc.
Qed.

Lemma group_has_two (root name extension : string) (lines : list string)
      (g : string) (values : list MarkerMatch) :
  In (g, values) (validated (runs_of root name extension lines) []) ->
  exists begin end_ more, values = begin :: end_ :: more.
Proof.
  intros Hin. destruct (retained_group_has_both _ _ _ _ _ _ Hin) as [Hb He].
  destruct values as [|b [|e more]].
  - destruct Hb.
  - exfalso. simpl in Hb, He. destruct Hb as [Hb|[]]. destruct He as [He|[]].
    congruence.
  - now exists b, e, more.
Qed.

(** X14.  Every group [process_file] returns is a stretch of consecutive
    records of the file, in file order with strictly increasing [line]
    (sorting by [line] changes nothing), and has two records at least, so
    that taking its first two values never fails. *)
Theorem groups_are_runs_in_file_order
        (w : Eff.world) (root name extension : string) (lines : list string)
        (groups : groups_t) (g : string) (values : list MarkerMatch) :
  Eff.w_open w (OsPath.join root name) = Some lines ->
  snd (process_file root name extension w) = Ok groups ->
  In (g, values) groups ->
  lines_increase values
  /\ (exists pre post,
         matches_of root name extension lines = (pre ++ values ++ post)%list)
  /\ (2 <= List.length values)%nat
  /\ (exists begin end_ more, values = begin :: end_ :: more)
  /\ In "begin" (map marker values) /\ In "end" (map marker values).
Proof.
  intros Ho Hg Hin.
  destruct (process_file_groups _ _ _ _ _ Hg) as [lines' [Ho' ->]].
  rewrite Ho in Ho'. injection Ho' as <-.
  destruct (retained_group_has_both _ _ _ _ _ _ Hin) as [Hb He].
  destruct (validated_in _ _ _ _ Hin) as [[]|[run [Hr [-> _]]]].
  destruct (run_of_file _ _ _ _ _ _ Hr) as [Hinc Hrun].
  rewrite (sort_by_line_sorted _ Hinc) in *.
  split; [exact Hinc|]. split; [exact Hrun|].
  destruct run as [|b [|e more]].
  - destruct Hb.
  - exfalso. destruct Hb as [Hb|[]]. destruct He as [He|[]]. congruence.
  - split; [simpl; lia|]. split; [now exists b, e, more|]. split; assumption.
Qed.

Lemma groups_are_runs_in_file_order_witness :
  lines_increase [sample_inner_begin; sample_inner_end]
  /\ (exists pre post,
         matches_of "./src" "a.c" ".c" sample_source
         = (pre ++ [sample_inner_begin; sample_inner_end] ++ post)%list)
  /\ (2 <= List.length [sample_inner_begin; sample_inner_end])%nat
  /\ (exists begin end_ more,
         [sample_inner_begin; sample_inner_end] = begin :: end_ :: more)
  /\ In "begin" (map marker [sample_inner_begin; sample_inner_end])
  /\ In "end" (map marker [sample_inner_begin; sample_inner_end]).
Proof.
  apply (groups_are_runs_in_file_order (sample_world true) "./src" "a.c" ".c"
           sample_source [("in_ner", [sample_inner_begin; sample_inner_end])]
           "in_ner").
  - reflexivity.
  - vm_compute. reflexivity.
  - left. reflexivity.
Defined.









End Groups.

Section GroupsWitness.
Import PyStr Spec Vocab Tags.

End GroupsWitness.

(** ** What the tree scanner reads and writes *)

Section ScanEffects.
Import PyStr Spec Vocab Tags.
Variable w : Eff.world.
Variable a : args.

Lemma join_slashfree (folder f : string) :
  has_char "/" f = false ->
  exists sep, OsPath.join folder f = folder ++ sep ++ f
              /\ (sep = EmptyString \/ sep = "/").
Proof.
  intros H. unfold OsPath.join.
  assert (Hp : prefix "/" f = false).
  { destruct f as [|c t]; [reflexivity|]. cbn [has_char] in H.
    apply orb_false_iff in H. destruct H as [H _]. cbn [prefix].
    destruct (ascii_dec "/" c) as [<-|]; [discriminate | reflexivity]. }
  rewrite Hp. destruct (String.eqb folder "" || endswith_char folder "/")%bool.
  - exists EmptyString. split; [reflexivity | now left].
  - exists "/". split; [reflexivity | now right].
Qed.

Lemma directly_in (f : string) :
  has_char "/" f = false -> DirectlyIn (outdir a) (OsPath.join (outdir a) f).
Proof.
  intros H. destruct (join_slashfree (outdir a) f H) as [sep [E Hs]].
  exists sep, f. repeat split; assumption.
Qed.

Lemma all_chars_lack (p : ascii -> bool) (c : ascii) (s : string) :
  all_chars p s = true -> p c = false -> has_char c s = false.
Proof.
  intros Hs Hc. induction s as [|d t IH]; [reflexivity|].
  simpl in *. apply andb_true_iff in Hs. destruct Hs as [Hd Ht].
  rewrite (IH Ht), orb_false_r. apply Ascii.eqb_neq. intros ->. congruence.
Qed.

Lemma snip_name_in_outdir (root name extension : string) (d : MarkerMatch) :
  FieldsConsistent root name extension d ->
  DirectlyIn (outdir a) (snip_name a d).
Proof.
  intros [[_ [Hb [_ [Ht _]]]] _]. cbn [fields_of g_book g_tag] in Hb, Ht.
  unfold snip_name. apply directly_in.
  rewrite replace_char, !has_char_app.
  rewrite (all_chars_lack _ "/" _ Hb eq_refl).
  rewrite (has_char_subst "/" "_" "-" (tag d)
             ltac:(discriminate) (all_chars_lack _ "/" _ Ht eq_refl)).
  reflexivity.
Qed.

Lemma json_name_in_outdir (root name : string) :
  DirectlyIn (outdir a) (OsPath.join (outdir a) (json_filename root name)).
Proof.
  apply directly_in. unfold json_filename.
  now rewrite has_char_app, depathify_flat.
Qed.

Lemma process_file_file_events (root name extension : string) :
  EmitsOnly (FileEvent a root name) (process_file root name extension) w.
Proof.
  unfold EmitsOnly. destruct (Eff.w_open w (OsPath.join root name)) as [lines|] eqn:E.
  - rewrite (process_file_run _ _ _ _ _ E). cbn [fst].
    constructor; [reflexivity|].
    induction (runs_of root name extension lines) as [|[g run] more IH];
      [constructor|].
    cbn [diagnostics]. destruct (accepted run); [exact IH|].
    constructor; [exact I | exact IH].
  - unfold process_file, Eff.bind, Eff.open_read. rewrite E.
    constructor; [reflexivity | constructor].
Qed.

Lemma write_minted_group_file_events (root name extension : string)
      (group : string * list MarkerMatch) :
  minted a = true ->
  (forall d, In d (snd group) -> FieldsConsistent root name extension d) ->
  EmitsOnly (FileEvent a root name) (write_minted_group a group) w.
Proof.
  intros Hm Hf. destruct group as [g values]. cbn [write_minted_group].
  destruct values as [|begin [|end_ more]]; try apply emits_raise.
  pose proof (Hf begin (or_introl eq_refl)) as Hb.
  pose proof (snip_name_in_outdir _ _ _ _ Hb) as Hd.
  assert (Hp : path begin = OsPath.join root name)
    by (destruct Hb as [_ [_ [_ [_ [_ [_ [_ [Hp _]]]]]]]]; exact Hp).
  assert (Ho : (json a || minted a)%bool = true) by (rewrite Hm; apply orb_true_r).
  destruct (negb (String.eqb (marker begin) "begin")
            || negb (String.eqb (marker end_) "end"))%bool.
  - apply emits_emit. exact I.
  - apply emits_bind; [apply emits_open_read; exact Hp|]. intros infile _.
    apply emits_bind; [apply emits_lift|]. intros extracted _.
    apply emits_bind; [apply emits_emit; split; assumption|]. intros _ _.
    apply emits_bind; [apply emits_emit; split; assumption|]. intros _ _.
    apply emits_bind; [apply emits_emit; split; assumption|]. intros _ _.
    apply emits_emit. split; assumption.
Qed.

Lemma record_fields_of_groups (root name extension : string) (groups : groups_t) :
  snd (process_file root name extension w) = Ok groups ->
  forall group d, In group groups -> In d (snd group) ->
                  FieldsConsistent root name extension d.
Proof.
  intros Hg [g values] d Hin Hd.
  destruct (process_file_groups _ _ _ _ _ Hg) as [lines [_ ->]].
  apply (record_fields_of_file root name extension lines).
  exact (group_member _ _ _ _ _ _ _ Hin Hd).
Qed.

Lemma process_name_file_events (exts : list string) (root name : string) :
  EmitsOnly (FileEvent a root name) (process_name a exts root name) w.
Proof.
  unfold process_name. destruct (OsPath.splitext name) as [nameonly extension].
  apply emits_when. apply emits_bind; [apply process_file_file_events|].
  intros snips Hsnips. apply emits_bind.
  - destruct (json a) eqn:Hj; [|apply emits_ret].
    destruct (Nat.ltb 0 (List.length snips)) eqn:Hl; [|apply emits_ret].
    cbn [andb when]. unfold write_json.
    pose proof (json_name_in_outdir root name) as Hd.
    apply emits_bind; [apply emits_emit; exact I|]. intros _ _.
    apply emits_bind; [apply emits_emit; split; [now rewrite Hj | exact Hd]|].
    intros _ _. apply emits_emit. cbn [FileEvent].
    split; [exact Hj|]. split; [|exact Hd].
    intros ->. discriminate.
  - intros _ _. destruct (minted a) eqn:Hm; [|apply emits_ret].
    cbn [when]. unfold write_minted_snippets.
    apply emits_for_each. intros group Hin.
    apply (write_minted_group_file_events root name extension); [exact Hm|].
    intros d Hd. exact (record_fields_of_groups _ _ _ _ Hsnips group d Hin Hd).
Qed.

Lemma process_name_scan_events (root : string) (dirs files : list string)
      (name : string) :
  In (root, dirs, files) (Eff.w_walk w (dir a)) -> In name files ->
  EmitsOnly (ScanEvent a w) (process_name a (accepted_extensions a) root name) w.
Proof.
  intros He Hn.
  destruct (existsb (String.eqb (snd (OsPath.splitext name)))
                    (accepted_extensions a)) eqn:Hx.
  - apply (Forall_impl _ (P := FileEvent a root name));
      [|apply process_name_file_events].
    intros e Hf. exists root, name. split; [|exact Hf].
    split; [now exists dirs, files | exact Hx].
  - unfold EmitsOnly, process_name.
    destruct (OsPath.splitext name) as [nameonly extension].
    cbn [snd] in Hx. rewrite Hx. constructor.
Qed.

(** Every effect of [process_dir] after the query and the walk belongs to
    the scan of a file the walk yielded, with an accepted extension. *)
Lemma process_dir_scan_events (e : event) :
  In e (fst (process_dir a w)) ->
  e = Eff.EExists (outdir a)
  \/ e = Eff.EPrint ("Outdir " ++ outdir a ++ " must exist (exiting)")
  \/ (Eff.w_exists w (outdir a) = true
      /\ (e = Eff.EWalk (dir a) \/ ScanEvent a w e)).
Proof.
  unfold process_dir, Eff.bind, Eff.path_exists, Eff.os_walk.
  destruct (Eff.w_exists w (outdir a)) eqn:Hx; cbn [negb].
  - fold (accepted_extensions a).
    assert (Hl : EmitsOnly (ScanEvent a w)
                   (Eff.for_each (Eff.w_walk w (dir a)) (fun entry =>
                      let '(root, dirs, files) := entry in
                      Eff.for_each files
                        (process_name a (accepted_extensions a) root))) w).
    { apply emits_for_each. intros [[root dirs] files] He.
      apply emits_for_each. intros name Hn.
      exact (process_name_scan_events root dirs files name He Hn). }
    unfold EmitsOnly in Hl.
    destruct (Eff.for_each (Eff.w_walk w (dir a)) _ w) as [t r].
    cbn [fst app]. intros [<-|[<-|H]]; [now left | |].
    + right. right. split; [reflexivity | now left].
    + right. right. split; [reflexivity|]. right.
      rewrite Forall_forall in Hl. exact (Hl e H).
  - unfold Eff.print, Eff.emit. cbn [fst app].
    intros [<-|[<-|[]]]; [now left | right; now left].
Qed.
End ScanEffects.

Section ScanEffectClaims.
Import PyStr Spec Vocab Tags.

(** X16.  The tree scanner opens for reading only files the walk of the
    base directory yielded and whose extension is one of the accepted
    ones, and only after it found the output directory. *)
Theorem scanner_reads_only_accepted_files (a : args) (w : Eff.world) (p : string) :
  In (Eff.EOpenRead p) (fst (process_dir a w)) ->
  Eff.w_exists w (outdir a) = true
  /\ exists root name, Scanned a w root name /\ p = OsPath.join root name.
Proof.
  intros H. destruct (process_dir_scan_events w a _ H) as [E|[E|[Hx [E|Hs]]]];
    try discriminate.
  split; [exact Hx|]. destruct Hs as [root [name [Hsc Hf]]].
  exists root, name. split; [exact Hsc | exact Hf].
Qed.

Lemma scanner_reads_only_accepted_files_witness :
  Eff.w_exists (sample_world true) (outdir sample_args) = true
  /\ exists root name,
      Scanned sample_args (sample_world true) root name
      /\ "./src/a.c" = OsPath.join root name.
Proof.
  apply (scanner_reads_only_accepted_files sample_args (sample_world true)).
  vm_compute. do 2 right. left. reflexivity.
Defined.

(** X17.  Every file the tree scanner writes lies directly in the output
    directory (its name after the directory holds no slash, whatever the
    tags and paths are), and is written only when the output directory
    exists; a manifest is written only under [--json] and is never empty,
    a snippet only under [--minted]. *)
Theorem scanner_writes_only_in_outdir (a : args) (w : Eff.world) (p : string) :
  (In (Eff.EOpenWrite p) (fst (process_dir a w)) ->
   Eff.w_exists w (outdir a) = true
   /\ (json a || minted a)%bool = true
   /\ DirectlyIn (outdir a) p)
  /\ (forall data,
         In (Eff.EWrite p (Eff.JsonDump data)) (fst (process_dir a w)) ->
         Eff.w_exists w (outdir a) = true
         /\ json a = true /\ data <> [] /\ DirectlyIn (outdir a) p)
  /\ (forall text,
         In (Eff.EWrite p (Eff.Text text)) (fst (process_dir a w)) ->
         Eff.w_exists w (outdir a) = true
         /\ minted a = true /\ DirectlyIn (outdir a) p).
Proof.
  split; [|split].
  - intros H. destruct (process_dir_scan_events w a _ H) as [E|[E|[Hx [E|Hs]]]];
      try discriminate.
    split; [exact Hx|]. destruct Hs as [root [name [_ Hf]]]. exact Hf.
  - intros data H.
    destruct (process_dir_scan_events w a _ H) as [E|[E|[Hx [E|Hs]]]];
      try discriminate.
    split; [exact Hx|]. destruct Hs as [root [name [_ Hf]]]. exact Hf.
  - intros text H.
    destruct (process_dir_scan_events w a _ H) as [E|[E|[Hx [E|Hs]]]];
      try discriminate.
    split; [exact Hx|]. destruct Hs as [root [name [_ Hf]]]. exact Hf.
Qed.

Lemma scanner_writes_only_in_outdir_witness :
  (Eff.w_exists (sample_world true) (outdir sample_args) = true
   /\ (json sample_args || minted sample_args)%bool = true
   /\ DirectlyIn (outdir sample_args) "out/snip-bk-in-ner.tex")
  /\ (Eff.w_exists (sample_world true) (outdir sample_args) = true
      /\ minted sample_args = true
      /\ DirectlyIn (outdir sample_args) "out/snip-bk-in-ner.tex").
Proof.
  destruct (scanner_writes_only_in_outdir sample_args (sample_world true)
              "out/snip-bk-in-ner.tex") as [H1 [_ H3]].
  split.
  - apply H1. vm_compute. do 9 right. left. reflexivity.
  - apply (H3 ("\end{ccode*}" ++ nl)). vm_compute. do 12 right. left. reflexivity.
Defined.
End ScanEffectClaims.

(** ** How the tree scanner can fail *)

Section Outcomes.
Import PyStr Spec Vocab Tags.
Variable w : Eff.world.
Variable P : exn -> Prop.

Lemma raises_ok {A} (m : IO A) (x : A) : snd (m w) = Ok x -> RaisesOnly P m w.
Proof. unfold RaisesOnly. now intros ->. Qed.

Lemma raises_bind {A B} (m : IO A) (f : A -> IO B) :
  RaisesOnly P m w ->
  (forall x, snd (m w) = Ok x -> RaisesOnly P (f x) w) ->
  RaisesOnly P (Eff.bind m f) w.
Proof.
  unfold RaisesOnly, Eff.bind. intros Hm Hf.
  destruct (m w) as [t [x|e]]; [|exact Hm].
  specialize (Hf x eq_refl). now destruct (f x w) as [t' r].
Qed.

Lemma raises_for_each {A} (l : list A) (body : A -> IO unit) :
  (forall x, In x l -> RaisesOnly P (body x) w) ->
  RaisesOnly P (Eff.for_each l body) w.
Proof.
  induction l as [|x xs IH]; intros H; [exact I|].
  cbn [Eff.for_each]. apply raises_bind; [apply H; now left|].
  intros _ _. apply IH. intros y Hy. apply H. now right.
Qed.

Lemma raises_when (b : bool) (m : IO unit) :
  RaisesOnly P m w -> RaisesOnly P (when b m) w.
Proof. intros H. destruct b; [exact H | exact I]. Qed.
End Outcomes.

Section OutcomeFacts.
Import PyStr Spec Vocab Tags.

Lemma dropwhile_keeps {A : Type} (p : A -> bool) (l : list A) (x : A) :
  In x l -> p x = false -> In x (Iter.dropwhile p l).
Proof.
  intros Hin Hx. induction l as [|y ys IH]; [contradiction|].
  simpl. destruct (p y) eqn:Hy; [|exact Hin].
  destruct Hin as [->|Hin]; [congruence | now apply IH].
Qed.

(** The extraction for a record of the file finds its begin marker. *)
Lemma extraction_finds_marker (root name extension : string) (lines : list string)
      (begin : MarkerMatch) (before : string) :
  In begin (matches_of root name extension lines) ->
  exists body,
    extract_delimiters_simple lines (match_text begin) before = Ok body.
Proof.
  intros H.
  destruct (match_facts _ _ _ _ _ H)
    as [i [m [pre [rest [Hn [_ [_ [Ht [Hm _]]]]]]]]].
  assert (Hc : Substring (match_text begin) (rstrip (mtext begin)))
    by (rewrite Hm, Ht; apply contains_marker).
  assert (Hin : In (rstrip (mtext begin)) (map rstrip lines))
    by (apply in_map; exact (nth_error_In _ _ Hn)).
  assert (Hnb : (len (rstrip (mtext begin)) =? 0) = false).
  { destruct (len (rstrip (mtext begin)) =? 0) eqn:E; [|reflexivity].
    apply len_zero in E. rewrite E in Hc. apply substring_of_empty in Hc.
    rewrite Hm in Hc. now apply marker_text_nonempty in Hc. }
  apply find_nonneg_iff in Hc.
  pose proof (dropwhile_keeps (fun text => find text (match_text begin) <? 0) _ _
                (dropwhile_keeps (fun text => len text =? 0) _ _ Hin Hnb) Hc)
    as Hk.
  unfold extract_delimiters_simple.
  destruct (Iter.dropwhile (fun text => find text (match_text begin) <? 0)
              (Iter.dropwhile (fun text => len text =? 0) (map rstrip lines)))
    as [|s r]; [contradiction|].
  cbn [Iter.next]. now eexists.
Qed.

Lemma write_minted_group_ok (a : args) (w : Eff.world)
      (root name extension : string) (lines : list string)
      (g : string) (values : list MarkerMatch) :
  Eff.w_open w (OsPath.join root name) = Some lines ->
  In (g, values) (validated (runs_of root name extension lines) []) ->
  snd (write_minted_group a (g, values) w) = Ok tt.
Proof.
  intros Ho Hin.
  assert (Hg : snd (process_file root name extension w)
               = Ok (validated (runs_of root name extension lines) []))
    by now rewrite (process_file_run _ _ _ _ _ Ho).
  destruct (group_has_two _ _ _ _ _ _ Hin) as [begin [end_ [more ->]]].
  assert (Hb : In begin (matches_of root name extension lines))
    by (apply (group_member _ _ _ _ _ _ _ Hin); now left).
  cbn [write_minted_group].
  destruct (negb (String.eqb (marker begin) "begin")
            || negb (String.eqb (marker end_) "end"))%bool; [reflexivity|].
  destruct (extraction_finds_marker _ _ _ _ _ (match_text end_) Hb) as [body Hx].
  assert (Hp : path begin = OsPath.join root name).
  { destruct (match_facts _ _ _ _ _ Hb)
      as [_ [_ [_ [_ [_ [_ [_ [_ [_ [Hp _]]]]]]]]]]. exact Hp. }
  unfold Eff.bind, Eff.open_read, Eff.lift, Eff.open_write, Eff.write, Eff.emit.
  rewrite Hp, Ho, Hx. reflexivity.
Qed.

Lemma process_name_raises (a : args) (w : Eff.world) (root name : string) :
  (exists dirs files,
      In (root, dirs, files) (Eff.w_walk w (dir a)) /\ In name files) ->
  RaisesOnly (UnreadableSource a w)
             (process_name a (accepted_extensions a) root name) w.
Proof.
  intros Hwalk. unfold process_name.
  destruct (OsPath.splitext name) as [nameonly extension] eqn:Hsp.
  destruct (existsb (String.eqb extension) (accepted_extensions a)) eqn:Hx;
    [|exact I].
  cbn [when]. apply raises_bind.
  - unfold RaisesOnly.
    destruct (Eff.w_open w (OsPath.join root name)) as [lines|] eqn:Ho.
    + now rewrite (process_file_run _ _ _ _ _ Ho).
    + unfold process_file, Eff.bind, Eff.open_read. rewrite Ho. cbn [snd].
      exists root, name. split; [|split; [exact Ho | reflexivity]].
      split; [exact Hwalk|]. now rewrite Hsp.
  - intros snips Hs. destruct (process_file_groups _ _ _ _ _ Hs) as [lines [Ho ->]].
    apply raises_bind.
    + apply raises_when. apply (raises_ok _ _ _ tt). reflexivity.
    + intros _ _. apply raises_when. apply raises_for_each.
      intros [g values] Hin. apply (raises_ok _ _ _ tt).
      exact (write_minted_group_ok a w root name extension lines g values Ho Hin).
Qed.

(** X18.  If every file the walk yields with an accepted extension can be
    read, the run of the tree scanner ends without an exception; and a
    run that ends with an exception ends with the one that reading such a
    file raised.  On the groups it validated, the minted emitter always
    finds two values to unpack and always finds its begin marker. *)
Theorem scanner_fails_only_on_unreadable_source (a : args) (w : Eff.world) :
  ((forall root name,
       Scanned a w root name -> Eff.w_open w (OsPath.join root name) <> None) ->
   snd (process_dir a w) = Ok tt)
  /\ (forall e,
         snd (process_dir a w) = Raise e ->
         exists root name,
           Scanned a w root name
           /\ Eff.w_open w (OsPath.join root name) = None
           /\ e = Eff.w_fail w (OsPath.join root name)).
Proof.
  assert (H : RaisesOnly (UnreadableSource a w) (process_dir a) w).
  { unfold process_dir. fold (accepted_extensions a).
    apply raises_bind; [exact I|]. intros found _.
    destruct (negb found); [exact I|].
    apply raises_bind; [exact I|]. intros entries He.
    unfold Eff.os_walk in He. cbn [snd] in He. injection He as <-.
    apply raises_for_each. intros [[root dirs] files] Hin.
    apply raises_for_each. intros name Hn.
    apply process_name_raises. now exists dirs, files. }
  unfold RaisesOnly in H. split.
  - intros Hall. destruct (snd (process_dir a w)) as [[]|e]; [reflexivity|].
    destruct H as [root [name [Hs [Ho _]]]]. now elim (Hall root name Hs).
  - intros e E. rewrite E in H. exact H.
Qed.

Lemma scanner_fails_only_on_unreadable_source_witness :
  snd (process_dir sample_args (sample_world true)) = Ok tt
  /\ exists root name,
      Scanned sample_args broken_world root name
      /\ Eff.w_open broken_world (OsPath.join root name) = None
      /\ UnicodeDecodeError = Eff.w_fail broken_world (OsPath.join root name).
Proof.
  split.
  - apply (proj1 (scanner_fails_only_on_unreadable_source
                    sample_args (sample_world true))).
    intros root name [[dirs [files [Hin Hname]]] Hext].
    destruct Hin as [Hin|[]]. injection Hin as <- _ <-.
    destruct Hname as [<-|[<-|[]]]; [discriminate|].
    vm_compute in Hext. discriminate.
  - apply (proj2 (scanner_fails_only_on_unreadable_source sample_args broken_world)).
    vm_compute. reflexivity.
Defined.
End OutcomeFacts.

(** ** Line ranges and manifest names, at the edges *)

Section Edges.
Import PyStr Spec Vocab.

Lemma select_bound (lo hi : Z) (lines : list string) (n : Z) :
  Z.of_nat (List.length (select_from n (from_start_below_end lo hi) lines))
  <= Z.max 0 (hi - Z.max lo n).
Proof.
  revert n. induction lines as [|l more IH]; intros n; cbn [select_from List.length].
  - lia.
  - specialize (IH (n + 1)). unfold from_start_below_end at 1.
    destruct (lo <=? n) eqn:H1; destruct (n <? hi) eqn:H2; cbn [andb List.length];
      try apply Z.leb_le in H1; try apply Z.leb_gt in H1;
      try apply Z.ltb_lt in H2; try apply Z.ltb_ge in H2; lia.
Qed.

(** X6.  For every stream and every pair of bounds, [extract_line_range]
    returns the lines numbered [n] with [start_line <= n < end_line]
    (numbering from 1), stripped, in order: the start bound is inclusive,
    the end bound exclusive. *)
Theorem line_range_selects (a : Cli.args) (infile : list string) :
  Cli.extract_line_range a infile
  = map rstrip
      (numbered_where
         (from_start_below_end (Cli.start_line a) (Cli.end_line a)) infile).
Proof.
  unfold Cli.extract_line_range, Cli.numbered_reader, numbered_where.
  apply drop_then_take.
Qed.

(** X7.  [extract_line_range] returns at most [end_line - max(start_line, 1)]
    lines: none when [end_line <= start_line] or [end_line <= 1], and a
    [start_line] below 1 counts as 1. *)
Theorem line_range_length_bound (a : Cli.args) (infile : list string) :
  Z.of_nat (List.length (Cli.extract_line_range a infile))
  <= Z.max 0 (Cli.end_line a - Z.max (Cli.start_line a) 1)
  /\ Z.of_nat (List.length (Cli.extract_line_range a infile))
     <= Z.of_nat (List.length infile).
Proof.
  rewrite extract_line_range_spec, length_map. unfold numbered_where. split.
  - apply select_bound.
  - generalize 1. induction infile as [|l more IH]; intros n; cbn [select_from].
    + lia.
    + specialize (IH (n + 1)).
      destruct (from_start_below_end (Cli.start_line a) (Cli.end_line a) n);
        cbn [List.length]; lia.
Qed.

Lemma slashless_no_dot_slash (q : string) :
  has_char "/" q = false -> ~ Substring "./" q.
Proof.
  intros H [pre [post E]]. rewrite E in H.
  rewrite !has_char_app in H. simpl in H.
  rewrite orb_true_r in H. discriminate.
Qed.

(** X19.  [depathify] yields a name without slash and without underscore,
    and is idempotent: a name it produced is left as it is. *)
Theorem depathify_stable (path : string) :
  has_char "/" (Tags.depathify path) = false
  /\ has_char "_" (Tags.depathify path) = false
  /\ Tags.depathify (Tags.depathify path) = Tags.depathify path.
Proof.
  assert (Hs : has_char "/" (Tags.depathify path) = false) by apply depathify_flat.
  assert (Hu : has_char "_" (Tags.depathify path) = false).
  { unfold Tags.depathify. rewrite !replace_char.
    apply has_char_subst; [discriminate|]. apply subst_removes. discriminate. }
  split; [exact Hs|]. split; [exact Hu|].
  set (q := Tags.depathify path) in *. unfold Tags.depathify.
  pose proof (slashless_no_dot_slash q Hs) as Hd.
  rewrite (replace_absent "../" "" q) by (discriminate || now apply not_dotdot).
  rewrite (replace_absent "./" "" q) by (discriminate || assumption).
  rewrite !replace_char. now rewrite (subst_absent "_" "-" q Hu), (subst_absent "/" "-" q Hs).
Qed.
End Edges.

(** ** Files without markers *)

Section Unmarked.
Import PyStr Spec Vocab Tags.

Lemma collect_nothing (path root name extension : string) (lines : list string)
      (n : Z) :
  (forall l, In l lines -> search l = None) ->
  collect path root name extension (lines_from n lines) = [].
Proof.
  revert n. induction lines as [|l more IH]; intros n H; [reflexivity|].
  cbn [lines_from collect text]. rewrite (H l (or_introl eq_refl)).
  apply IH. intros x Hx. apply H. now right.
Qed.

(** X20.  Scanning a file none of whose lines holds a marker opens the file
    and does nothing else, whatever the output flags are: no diagnostic,
    no manifest (an empty result is not written), no snippet. *)
Theorem unmarked_file_writes_nothing
        (a : args) (exts : list string) (w : Eff.world) (root name : string)
        (lines : list string) :
  Eff.w_open w (OsPath.join root name) = Some lines ->
  (forall l, In l lines -> search l = None) ->
  process_name a exts root name w
  = (if existsb (String.eqb (snd (OsPath.splitext name))) exts
     then [Eff.EOpenRead (OsPath.join root name)]
     else [],
     Ok tt).
Proof.
  intros Ho Hn. unfold process_name.
  destruct (OsPath.splitext name) as [nameonly extension]. cbn [snd].
  destruct (existsb (String.eqb extension) exts); [|reflexivity].
  cbn [when]. unfold Eff.bind.
  rewrite (process_file_run _ _ _ _ _ Ho).
  unfold runs_of, matches_of, line_reader.
  rewrite (collect_nothing _ _ _ _ _ _ Hn).
  cbn [Iter.groupby diagnostics validated List.length Nat.ltb Nat.leb andb when].
  rewrite andb_false_r. cbn [when Eff.ret].
  destruct (minted a); reflexivity.
Qed.

Lemma unmarked_file_writes_nothing_witness :
  process_name sample_args [".c"; ".h"] "src" "plain.c"
    (one_file "src/plain.c" (with_newlines ["int x;"; "{{not:a marker}}"]))
  = ([Eff.EOpenRead "src/plain.c"], Ok tt).
Proof.
  apply (unmarked_file_writes_nothing sample_args [".c"; ".h"]
           (one_file "src/plain.c" (with_newlines ["int x;"; "{{not:a marker}}"]))
           "src" "plain.c" (with_newlines ["int x;"; "{{not:a marker}}"])).
  - reflexivity.
  - intros l [<-|[<-|[]]]; reflexivity.
Defined.
End Unmarked.

(** ** The line numbers of the records, by position *)

Section RecordPositions.
Import PyStr Spec Vocab Tags.

Lemma collect_length (path root name extension : string) (lines : list string)
      (n : Z) :
  List.length (collect path root name extension (lines_from n lines))
  = List.length (filter marked lines).
Proof.
  revert n. induction lines as [|l more IH]; intros n; [reflexivity|].
  cbn [lines_from collect text filter]. unfold marked at 1.
  destruct (search l); cbn [List.length]; now rewrite IH.
Qed.

Lemma collect_nth (path root name extension : string) (lines : list string)
      (n : Z) (k : nat) (d : MarkerMatch) :
  nth_error (collect path root name extension (lines_from n lines)) k = Some d ->
  exists i,
    nth_error lines i = Some (mtext d)
    /\ marked (mtext d) = true
    /\ List.length (filter marked (firstn i lines)) = k
    /\ line d = (n + Z.of_nat i) + 1.
Proof.
  revert n k. induction lines as [|l more IH]; intros n k H.
  - destruct k; discriminate.
  - cbn [lines_from collect text] in H. destruct (search l) as [m|] eqn:E.
    + destruct k as [|k].
      * injection H as <-. exists O. cbn [mtext make_doc text line number].
        split; [reflexivity|]. split; [unfold marked; now rewrite E|].
        split; [reflexivity|lia].
      * cbn [nth_error] in H. destruct (IH _ _ H) as [i [Hn [Hm [Hc Hl]]]].
        exists (S i). split; [exact Hn|]. split; [exact Hm|]. split; [|lia].
        cbn [firstn filter]. unfold marked at 1. rewrite E.
        cbn [List.length]. now rewrite Hc.
    + destruct (IH _ _ H) as [i [Hn [Hm [Hc Hl]]]].
      exists (S i). split; [exact Hn|]. split; [exact Hm|]. split; [|lia].
      cbn [firstn filter]. unfold marked at 1. now rewrite E.
Qed.

(** The position of a record fixes the line it was built from. *)
Lemma marked_position (lines : list string) (i j : nat) (l l' : string) :
  nth_error lines i = Some l -> marked l = true ->
  nth_error lines j = Some l' -> marked l' = true ->
  List.length (filter marked (firstn i lines))
  = List.length (filter marked (firstn j lines)) ->
  i = j.
Proof.
  revert i j. induction lines as [|x more IH]; intros i j Hi Mi Hj Mj E.
  - destruct i; discriminate.
  - destruct i as [|i], j as [|j]; [reflexivity| | |].
    + injection Hi as ->. cbn [firstn filter] in E. rewrite Mi in E. discriminate.
    + injection Hj as ->. cbn [firstn filter] in E. rewrite Mj in E. discriminate.
    + f_equal. apply IH; try assumption.
      cbn [firstn filter] in E. destruct (marked x); cbn [List.length] in E; lia.
Qed.

Lemma record_at (root name extension : string) (lines : list string)
      (k : nat) (d : MarkerMatch) :
  nth_error (matches_of root name extension lines) k = Some d ->
  RecordAt lines k d /\ path d = OsPath.join root name.
Proof.
  intros H. pose proof (nth_error_In _ _ H) as Hin.
  unfold matches_of, line_reader in H.
  destruct (collect_nth _ _ _ _ _ _ _ _ H) as [i [Hn [Hm [Hc Hl]]]].
  destruct (match_facts _ _ _ _ _ Hin)
    as [_ [_ [_ [_ [_ [_ [_ [_ [_ [Hp _]]]]]]]]]].
  split; [|exact Hp]. exists i. split; [exact Hn|]. split; [exact Hm|].
  split; [exact Hc|].
  split; [lia|]. exact (proj2 (proj2 (line_after_marker _ _ _ _ _ Hin))).
Qed.

Lemma nth_error_inside {A : Type} (pre values post : list A) (j : nat) (d : A) :
  nth_error values j = Some d ->
  nth_error (pre ++ values ++ post) (List.length pre + j) = Some d.
Proof.
  intros H. rewrite nth_error_app2 by lia.
  replace (List.length pre + j - List.length pre)%nat with j by lia.
  rewrite nth_error_app1; [exact H|].
  apply nth_error_Some. congruence.
Qed.

Lemma group_at (root name extension : string) (lines : list string)
      (g : string) (values : list MarkerMatch) :
  In (g, values) (validated (runs_of root name extension lines) []) ->
  GroupAt root name extension lines values.
Proof.
  intros Hin. destruct (validated_in _ _ _ _ Hin) as [[]|[run [Hr [-> _]]]].
  destruct (run_of_file _ _ _ _ _ _ Hr) as [Hinc [pre [post E]]].
  rewrite (sort_by_line_sorted _ Hinc).
  exists pre, post. split; [exact E|].
  intros j d Hj. apply (record_at root name extension lines).
  rewrite E. now apply nth_error_inside.
Qed.

(** C10.  The records the scanner builds from a file are, in order, one
    for each line that holds a marker; the record number [k] comes from
    the line with exactly [k] marker lines before it, that line is the
    record's text and contains its marker, and [line] is the 1-indexed
    number of that line plus one.  The values of every group
    [process_file] returns, and of every group in a manifest
    [process_dir] writes, are a stretch of these records, so the same
    holds of them by their position. *)
Theorem record_line_is_number_of_marker_line_plus_one :
  (forall root name extension lines,
      List.length (matches_of root name extension lines)
      = List.length (filter marked lines)
      /\ forall k d, nth_error (matches_of root name extension lines) k = Some d ->
                     RecordAt lines k d
                     /\ forall i, nth_error lines i = Some (mtext d) ->
                                  List.length (filter marked (firstn i lines)) = k ->
                                  line d = (Z.of_nat i + 1) + 1)
  /\ (forall w root name extension groups g values,
         snd (process_file root name extension w) = Ok groups ->
         In (g, values) groups ->
         exists lines,
           Eff.w_open w (OsPath.join root name) = Some lines
           /\ GroupAt root name extension lines values)
  /\ (forall a w p data g values,
         In (Eff.EWrite p (Eff.JsonDump data)) (fst (process_dir a w)) ->
         In (g, values) data ->
         exists root name extension lines,
           Eff.w_open w (OsPath.join root name) = Some lines
           /\ GroupAt root name extension lines values).
Proof.
  split; [|split].
  - intros root name extension lines. split.
    + unfold matches_of, line_reader. apply collect_length.
    + intros k d H. pose proof (proj1 (record_at _ _ _ _ _ _ H)) as R.
      split; [exact R|]. intros i Hi Hk.
      destruct R as [i' [Hn [Hm [Hc [Hl _]]]]].
      rewrite (marked_position lines i i' (mtext d) (mtext d)); try assumption.
      now rewrite Hc.
  - intros w root name extension groups g values Hg Hin.
    destruct (process_file_groups _ _ _ _ _ Hg) as [lines [Ho ->]].
    exists lines. split; [exact Ho|]. exact (group_at _ _ _ _ _ _ Hin).
  - intros a w p data g values He Hin.
    destruct (Eff.w_exists w (outdir a)) eqn:Hx.
    + destruct (process_dir_present w a Hx) as [rest [outcome [E Hl]]].
      rewrite E in He. cbn [fst] in He.
      destruct He as [He|[He|He]]; try discriminate.
      rewrite Forall_forall in Hl. specialize (Hl _ He). cbn [LoopEvent] in Hl.
      destruct Hl as [root [name [extension [lines [Ho ->]]]]].
      exists root, name, extension, lines.
      split; [exact Ho|]. exact (group_at _ _ _ _ _ _ Hin).
    + rewrite (process_dir_missing w a Hx) in He. cbn [fst] in He.
      destruct He as [He|[He|[]]]; discriminate.
Qed.

Lemma record_line_is_number_of_marker_line_plus_one_witness :
  RecordAt sample_source 1 sample_inner_begin
  /\ (forall d,
         nth_error (matches_of "." "f.c" ".c" reused_tag_source) 4 = Some d ->
         mtext d = "{{b:t:begin}}" ++ nl /\ line d = 7)
  /\ (exists lines,
         Eff.w_open (sample_world true) (OsPath.join "./src" "a.c") = Some lines
         /\ GroupAt "./src" "a.c" ".c" lines [sample_inner_begin; sample_inner_end])
  /\ (exists root name extension lines,
         Eff.w_open (sample_world true) (OsPath.join root name) = Some lines
         /\ GroupAt root name extension lines [sample_inner_begin; sample_inner_end]).
Proof.
  destruct record_line_is_number_of_marker_line_plus_one as [H1 [H2 H3]].
  split; [|split; [|split]].
  - apply (proj2 (H1 "./src" "a.c" ".c" sample_source)). reflexivity.
  - intros d Hd.
    destruct (proj2 (H1 "." "f.c" ".c" reused_tag_source) 4%nat d Hd) as [_ Hu].
    vm_compute in Hd. injection Hd as <-. split; [reflexivity|].
    apply (Hu 5%nat); reflexivity.
  - apply (H2 (sample_world true) "./src" "a.c" ".c"
              [("in_ner", [sample_inner_begin; sample_inner_end])] "in_ner").
    + vm_compute. reflexivity.
    + left. reflexivity.
  - apply (H3 sample_args (sample_world true) "out/src-a.c.json"
              [("in_ner", [sample_inner_begin; sample_inner_end])] "in_ner").
    + vm_compute. do 7 right. left. reflexivity.
    + left. reflexivity.
Defined.
End RecordPositions.

(** ** The numbering of a minted block *)

Section MintedNumbering.
Import PyStr Spec Vocab Tags.

(** C8.  The annotation [firstnumber] is the number of the line after
    the begin marker's line, but the body of the block is found by
    searching the file for the marker text, and starts after the first
    line that contains it.  In [shared_line_source] the begin marker of
    [t] is on line 3 and its text occurs on line 1 behind another marker:
    the block is annotated [firstnumber=4] and holds the lines 2 to 4.  In
    [reused_tag_source] the tag [t] delimits two regions and the group
    kept is the second, whose begin marker is on line 6: the block is
    annotated [firstnumber=7] and holds line 2, the body of the first
    region. *)
Theorem minted_block_misnumbered :
  let a := sample_args in
  let w1 := one_file "./f.c" shared_line_source in
  let w2 := one_file "./f.c" reused_tag_source in
  let second := skipn 4 (matches_of "." "f.c" ".c" reused_tag_source) in
  match snd (process_file "." "f.c" ".c" w1) with
  | Ok groups => dict_get "t" groups
  | Raise _ => None
  end = Some [shared_t_begin; shared_t_end]
  /\ write_minted_group a ("t", [shared_t_begin; shared_t_end]) w1
     = ([Eff.EOpenRead "./f.c";
         Eff.EOpenWrite "out/snip-b-t.tex";
         Eff.EWrite "out/snip-b-t.tex"
           (Eff.Text ("\begin{ccode*}{firstnumber=4}" ++ nl));
         Eff.EWrite "out/snip-b-t.tex"
           (Eff.Text ("{{b:u:end}}" ++ nl ++ "{{b:t:begin}}" ++ nl ++ "x" ++ nl));
         Eff.EWrite "out/snip-b-t.tex" (Eff.Text ("\end{ccode*}" ++ nl))],
        Ok tt)
  /\ map rstrip (firstn 3 (skipn 1 shared_line_source))
     = ["{{b:u:end}}"; "{{b:t:begin}}"; "x"]
  /\ nth_error shared_line_source 3 = Some ("x" ++ nl)
  /\ match snd (process_file "." "f.c" ".c" w2) with
     | Ok groups => dict_get "t" groups
     | Raise _ => None
     end = Some second
  /\ map (fun d => (marker d, line d)) second = [("begin", 7); ("end", 9)]
  /\ write_minted_group a ("t", second) w2
     = ([Eff.EOpenRead "./f.c";
         Eff.EOpenWrite "out/snip-b-t.tex";
         Eff.EWrite "out/snip-b-t.tex"
           (Eff.Text ("\begin{ccode*}{firstnumber=7}" ++ nl));
         Eff.EWrite "out/snip-b-t.tex" (Eff.Text ("one" ++ nl));
         Eff.EWrite "out/snip-b-t.tex" (Eff.Text ("\end{ccode*}" ++ nl))],
        Ok tt)
  /\ nth_error reused_tag_source 1 = Some ("one" ++ nl)
  /\ nth_error reused_tag_source 6 = Some ("two" ++ nl)
  /\ ~ FirstNumberMatches.
Proof.
  cbv zeta.
  do 9 (split; [vm_compute; reflexivity|]).
  intros H.
  destruct (H (one_file "./f.c" shared_line_source) "." "f.c" ".c"
              shared_line_source
              [("u", match dict_get "u"
                             (validated (runs_of "." "f.c" ".c" shared_line_source) [])
                     with Some v => v | None => [] end);
               ("t", [shared_t_begin; shared_t_end])]
              "t" shared_t_begin shared_t_end [])
    as [body [Hb [k Hk]]].
  - reflexivity.
  - vm_compute. reflexivity.
  - right. left. reflexivity.
  - reflexivity.
  - reflexivity.
  - vm_compute in Hb. injection Hb as <-.
    destruct k as [|[|[|k]]]; vm_compute in Hk; discriminate.
Qed.
End MintedNumbering.
